(** * The joint manager of the MARS simulation core

    A shallow embedding of [src/sim/src/core/JointManager.cpp]: the joint
    registry ([simJoints]), the reload templates ([simJointsReload]) and the
    id counter ([next_joint_id]), the operations that change them, and the
    calls the manager makes to its collaborators, recorded as a trace. *)

From Stdlib Require Import ZArith List Bool String Lia Floats.
Import ListNotations.
Local Open Scope Z_scope.

(** ** Machine integers and scalars *)

(** [unsigned long] on the LP64 targets MARS builds for: 64 bits, wrapping. *)
Definition ULONG_MAX : Z := 2 ^ 64 - 1.

(** [x++] on an [unsigned long]. *)
Definition ulong_succ (x : Z) : Z := (x + 1) mod 2 ^ 64.

Arguments ULONG_MAX : simpl never.
Arguments ulong_succ : simpl never.

(** [sReal] is [double]; the kernel's binary64 floats compute it. *)
Definition sReal : Type := float.

(** [utils::Vector] (an Eigen 3-vector of [sReal]). *)
Record Vector : Type := mkVector { vx : sReal; vy : sReal; vz : sReal }.

(** [squaredNorm]: the sum of the squares of the components. *)
Definition squaredNorm (v : Vector) : sReal :=
  (vx v * vx v + vy v * vy v + vz v * vz v)%float.

Definition vadd (a b : Vector) : Vector :=
  mkVector (vx a + vx b)%float (vy a + vy b)%float (vz a + vz b)%float.

Definition vdiv (a : Vector) (s : sReal) : Vector :=
  mkVector (vx a / s)%float (vy a / s)%float (vz a / s)%float.

Definition vzero : Vector := mkVector 0%float 0%float 0%float.

(** ** [std::map<unsigned long, V>]

    An association list kept in strictly ascending key order, which is the
    order a [std::map] iterator visits its entries in. *)
Module StdMap.

Definition t (V : Type) : Type := list (Z * V).

Definition empty {V : Type} : t V := [].

(** [m.find(k)]: the mapped value, [None] for [m.end()]. *)
Fixpoint find {V : Type} (k : Z) (m : t V) : option V :=
  match m with
  | [] => None
  | (k', v) :: r => if k =? k' then Some v else find k r
  end.

(** [m[k] = v]. *)
Fixpoint assign {V : Type} (k : Z) (v : V) (m : t V) : t V :=
  match m with
  | [] => [(k, v)]
  | (k', v') :: r =>
      if k <? k' then (k, v) :: m
      else if k =? k' then (k, v) :: r
      else (k', v') :: assign k v r
  end.

(** [m.erase(m.find(k))] when the key is present. *)
Fixpoint erase {V : Type} (k : Z) (m : t V) : t V :=
  match m with
  | [] => []
  | (k', v) :: r => if k =? k' then r else (k', v) :: erase k r
  end.

(** [m.find(k)->second = f(m.find(k)->second)]: a write through an
    iterator or pointer to the mapped value; the map's structure is not
    touched. *)
Fixpoint write {V : Type} (k : Z) (f : V -> V) (m : t V) : t V :=
  match m with
  | [] => []
  | (k', v) :: r => if k =? k' then (k', f v) :: r else (k', v) :: write k f r
  end.

Definition size {V : Type} (m : t V) : nat := List.length m.

Definition keys {V : Type} (m : t V) : list Z := List.map fst m.

(** Applies [f] to every mapped value, as a loop over the iterators that
    writes through [iter->second] does. *)
Definition map_values {V : Type} (f : V -> V) (m : t V) : t V :=
  List.map (fun kv => (fst kv, f (snd kv))) m.

(** Every key is above [lo] and the keys ascend strictly. *)
Fixpoint above {V : Type} (lo : Z) (m : t V) : bool :=
  match m with
  | [] => true
  | (k, _) :: r => (lo <? k) && above k r
  end.

(** The representation invariant of a [std::map]: unique, ordered keys. *)
Definition wf {V : Type} (m : t V) : bool :=
  match m with
  | [] => true
  | (k, _) :: r => above k r
  end.

End StdMap.

(** ** Data of the interfaces *)

(** Modelled from the spec: the enumeration [JointType] of
    [interfaces/JointData.h], which is not part of the sources at hand; the
    manager only ever compares it with [JOINT_TYPE_FIXED]. *)
Inductive JointType : Type :=
| JOINT_TYPE_HINGE
| JOINT_TYPE_HINGE2
| JOINT_TYPE_SLIDER
| JOINT_TYPE_FIXED
| JOINT_TYPE_BALL
| JOINT_TYPE_UNIVERSAL.

Definition is_fixed (t : JointType) : bool :=
  match t with JOINT_TYPE_FIXED => true | _ => false end.

(** Modelled from the spec: the anchor policies of [interfaces/JointData.h]
    (AT_BODY_A, AT_BODY_B, MIDPOINT, EXPLICIT in the spec's words). *)
Inductive AnchorPos : Type :=
| ANCHOR_NODE1
| ANCHOR_NODE2
| ANCHOR_CENTER
| ANCHOR_CUSTOM.

(** Modelled from the spec: [JointData], restricted to the fields the
    manager reads or writes. *)
Record JointData : Type := mkJointData {
  index : Z;
  name : string;
  type : JointType;
  nodeIndex1 : Z;
  nodeIndex2 : Z;
  anchorPos : AnchorPos;
  anchor : Vector;
  axis1 : Vector;
  axis2 : Vector;
  angle1_offset : sReal
}.

Definition set_index (d : JointData) (i : Z) : JointData :=
  mkJointData i (name d) (type d) (nodeIndex1 d) (nodeIndex2 d) (anchorPos d)
    (anchor d) (axis1 d) (axis2 d) (angle1_offset d).

Definition set_anchor (d : JointData) (a : Vector) : JointData :=
  mkJointData (index d) (name d) (type d) (nodeIndex1 d) (nodeIndex2 d)
    (anchorPos d) a (axis1 d) (axis2 d) (angle1_offset d).

Definition set_axis1 (d : JointData) (a : Vector) : JointData :=
  mkJointData (index d) (name d) (type d) (nodeIndex1 d) (nodeIndex2 d)
    (anchorPos d) (anchor d) a (axis2 d) (angle1_offset d).

Definition set_axis2 (d : JointData) (a : Vector) : JointData :=
  mkJointData (index d) (name d) (type d) (nodeIndex1 d) (nodeIndex2 d)
    (anchorPos d) (anchor d) (axis1 d) a (angle1_offset d).

Definition set_angle1_offset (d : JointData) (o : sReal) : JointData :=
  mkJointData (index d) (name d) (type d) (nodeIndex1 d) (nodeIndex2 d)
    (anchorPos d) (anchor d) (axis1 d) (axis2 d) o.

(** A backend body handle ([NodeInterface*]), opaque to the manager. *)
Definition NodeInterface : Type := Z.

(** Modelled from the spec: what the manager needs of a [SimNode], its
    position and its backend handle. *)
Record SimNode : Type := mkSimNode {
  getPosition : Vector;
  getInterface : NodeInterface
}.

(** Modelled from the spec: a [SimJoint] embeds the [JointData] it was
    constructed from and refers to the two nodes it was attached to;
    [getNodeIndex1], [getNodeIndex2] and the setters used by [editJoint]
    read and write that embedded descriptor. *)
Record SimJoint : Type := mkSimJoint {
  getSJoint : JointData;
  attachedNode1 : option SimNode;
  attachedNode2 : option SimNode
}.

Definition getNodeIndex1 (j : SimJoint) : Z := nodeIndex1 (getSJoint j).
Definition getNodeIndex2 (j : SimJoint) : Z := nodeIndex2 (getSJoint j).

Definition setAnchor (j : SimJoint) (a : Vector) : SimJoint :=
  mkSimJoint (set_anchor (getSJoint j) a) (attachedNode1 j) (attachedNode2 j).
Definition setAxis1 (j : SimJoint) (a : Vector) : SimJoint :=
  mkSimJoint (set_axis1 (getSJoint j) a) (attachedNode1 j) (attachedNode2 j).
Definition setAxis2 (j : SimJoint) (a : Vector) : SimJoint :=
  mkSimJoint (set_axis2 (getSJoint j) a) (attachedNode1 j) (attachedNode2 j).

(** Modelled from the spec: the collaborators and the constant that
    [addJoint] consumes and that live outside the sources at hand: the
    threshold [EPSILON] of [utils/mathUtils.h], the node lookup
    [control->nodes->getSimNode] (BodyLookup; [None] is the null pointer) and
    the answer of the fresh physics object's [createJoint] (materialize),
    which reads the descriptor and the two body handles. *)
Record Extern : Type := mkExtern {
  EPSILON : sReal;
  getSimNode : Z -> option SimNode;
  createJoint : JointData -> option NodeInterface -> option NodeInterface -> bool
}.

(** ** Memory, traces and the monad of the member functions *)

(** The manager's fields, and the [JointData] object owned by whoever calls
    [addJoint], which [addJoint] writes through its pointer argument. *)
Record Memory : Type := mkMemory {
  simJoints : StdMap.t SimJoint;
  simJointsReload : StdMap.t JointData;
  next_joint_id : Z;
  callerData : JointData
}.

(** What a [JointData*] handed to [addJoint] points at: the caller's own
    object, or the value stored in [simJointsReload] under a key (the
    [&(iter->second)] of [reloadJoints]). *)
Inductive JointPtr : Type :=
| PCaller
| PReload (key : Z).

(** The actions of the manager that are visible outside it. *)
Inductive Event : Type :=
| EvLock                                (* iMutex.lock(), MutexLocker *)
| EvUnlock                              (* iMutex.unlock(), ~MutexLocker *)
| EvLogError (msg : string)             (* LOG_ERROR *)
| EvCerr (msg : string)                 (* std::cerr *)
| EvCreateJoint (ok : bool)             (* JointInterface::createJoint *)
| EvNewSimJoint (id : Z)                (* new SimJoint *)
| EvRemoveJointFromMotors (id : Z)      (* control->motors *)
| EvSceneHasChanged (reset : bool).     (* control->sim *)

Inductive Cause : Type :=
| AssertionFailed                       (* assert(node) on a null pointer *)
| InvalidPointer.                       (* a pointer that points nowhere *)

(** The outcome of running a member function: it returns, or the process
    stops; either way with the memory and the trace reached so far. *)
Inductive Result (A : Type) : Type :=
| Ret (a : A) (m : Memory) (tr : list Event)
| Halt (c : Cause) (m : Memory) (tr : list Event).
Arguments Ret {A} a m tr.
Arguments Halt {A} c m tr.

Definition M (A : Type) : Type := Memory -> Result A.

Definition ret {A : Type} (a : A) : M A := fun m => Ret a m [].

Definition bind {A B : Type} (c : M A) (k : A -> M B) : M B :=
  fun m =>
    match c m with
    | Ret a m1 tr1 =>
        match k a m1 with
        | Ret b m2 tr2 => Ret b m2 (tr1 ++ tr2)
        | Halt c m2 tr2 => Halt c m2 (tr1 ++ tr2)
        end
    | Halt c m1 tr1 => Halt c m1 tr1
    end.

Notation "x <- c ;; k" := (bind c (fun x => k))
  (at level 61, c at next level, right associativity).
Notation "c ;; k" := (bind c (fun _ => k))
  (at level 61, right associativity).

Definition emit (e : Event) : M unit := fun m => Ret tt m [e].
Definition halt {A : Type} (c : Cause) : M A := fun m => Halt c m [].
Definition get : M Memory := fun m => Ret m m [].
Definition modify (f : Memory -> Memory) : M unit := fun m => Ret tt (f m) [].

Definition memory_of {A : Type} (r : Result A) : Memory :=
  match r with Ret _ m _ => m | Halt _ m _ => m end.
Definition trace_of {A : Type} (r : Result A) : list Event :=
  match r with Ret _ _ tr => tr | Halt _ _ tr => tr end.
Definition value_of {A : Type} (r : Result A) : option A :=
  match r with Ret a _ _ => Some a | Halt _ _ _ => None end.

Definition with_simJoints (f : StdMap.t SimJoint -> StdMap.t SimJoint)
  (m : Memory) : Memory :=
  mkMemory (f (simJoints m)) (simJointsReload m) (next_joint_id m) (callerData m).
Definition with_simJointsReload (f : StdMap.t JointData -> StdMap.t JointData)
  (m : Memory) : Memory :=
  mkMemory (simJoints m) (f (simJointsReload m)) (next_joint_id m) (callerData m).
Definition with_next_joint_id (f : Z -> Z) (m : Memory) : Memory :=
  mkMemory (simJoints m) (simJointsReload m) (f (next_joint_id m)) (callerData m).
Definition with_callerData (f : JointData -> JointData) (m : Memory) : Memory :=
  mkMemory (simJoints m) (simJointsReload m) (next_joint_id m) (f (callerData m)).

(** The object a pointer points at, if any. *)
Definition pointee (p : JointPtr) (m : Memory) : option JointData :=
  match p with
  | PCaller => Some (callerData m)
  | PReload k => StdMap.find k (simJointsReload m)
  end.

(** The memory after a write of some fields of the object pointed at. *)
Definition poke (p : JointPtr) (f : JointData -> JointData) (m : Memory) : Memory :=
  match p with
  | PCaller => with_callerData f m
  | PReload k => with_simJointsReload (StdMap.write k f) m
  end.

(** A read through the pointer. *)
Definition load (p : JointPtr) : M JointData :=
  fun m =>
    match pointee p m with
    | Some d => Ret d m []
    | None => Halt InvalidPointer m []
    end.

(** A write through the pointer. *)
Definition update (p : JointPtr) (f : JointData -> JointData) : M unit :=
  fun m =>
    match pointee p m with
    | Some _ => Ret tt (poke p f m) []
    | None => Halt InvalidPointer m []
    end.

(** [assert(b)], in a build that keeps its assertions: a false condition
    aborts the process. *)
Definition assert (b : bool) : M unit :=
  if b then ret tt else halt AssertionFailed.

(** ** The member functions *)

(** [JointManager::JointManager]: empty maps, [next_joint_id = 1]. *)
Definition JointManager (caller : JointData) : Memory :=
  mkMemory StdMap.empty StdMap.empty 1 caller.

Definition isSome {A : Type} (o : option A) : bool :=
  match o with Some _ => true | None => false end.

(** The anchor that lines 97-107 of [addJoint] write, when they write one;
    meaningful once the asserts of the branch have passed. *)
Definition resolved_anchor (d : JointData) (node1 node2 : option SimNode)
  : option Vector :=
  match anchorPos d, node1, node2 with
  | ANCHOR_NODE1, Some n1, _ => Some (getPosition n1)
  | ANCHOR_NODE2, _, Some n2 => Some (getPosition n2)
  | ANCHOR_CENTER, Some n1, Some n2 =>
      Some (vdiv (vadd (getPosition n1) (getPosition n2)) 2%float)
  | _, _, _ => None
  end.

Definition msg_no_axis1 : string := "Cannot create joint without axis1".
Definition msg_backend : string :=
  "JointManager: Could not create new joint (JointInterface::createJoint() returned false).".

Definition addJoint (w : Extern) (jointS : JointPtr) (reload : bool) : M Z :=
  (if negb reload then
     emit EvLock ;;
     d <- load jointS ;;
     modify (with_simJointsReload (StdMap.assign (index d) d)) ;;
     emit EvUnlock
   else ret tt) ;;
  d <- load jointS ;;
  if PrimFloat.ltb (squaredNorm (axis1 d)) (EPSILON w) && negb (is_fixed (type d))
  then
    emit (EvLogError msg_no_axis1) ;;
    ret 0
  else
    let node1 := getSimNode w (nodeIndex1 d) in
    let i_node1 := option_map getInterface node1 in
    let node2 := getSimNode w (nodeIndex2 d) in
    let i_node2 := option_map getInterface node2 in
    match anchorPos d with
    | ANCHOR_NODE1 =>
        assert (isSome node1) ;;
        update jointS (fun d => match node1 with
                                | Some n1 => set_anchor d (getPosition n1)
                                | None => d
                                end)
    | ANCHOR_NODE2 =>
        assert (isSome node2) ;;
        update jointS (fun d => match node2 with
                                | Some n2 => set_anchor d (getPosition n2)
                                | None => d
                                end)
    | ANCHOR_CENTER =>
        assert (isSome node1) ;;
        assert (isSome node2) ;;
        update jointS (fun d => match node1, node2 with
                                | Some n1, Some n2 =>
                                    set_anchor d
                                      (vdiv (vadd (getPosition n1) (getPosition n2))
                                            2%float)
                                | _, _ => d
                                end)
    | ANCHOR_CUSTOM => ret tt
    end ;;
    d <- load jointS ;;
    let ok := createJoint w d i_node1 i_node2 in
    emit (EvCreateJoint ok) ;;
    if ok then
      emit EvLock ;;
      m <- get ;;
      update jointS (fun d => set_index d (next_joint_id m)) ;;
      modify (with_next_joint_id ulong_succ) ;;
      d <- load jointS ;;
      emit (EvNewSimJoint (index d)) ;;
      modify (with_simJoints (StdMap.assign (index d) (mkSimJoint d node1 node2))) ;;
      emit EvUnlock ;;
      emit (EvSceneHasChanged false) ;;
      d <- load jointS ;;
      ret (index d)
    else
      emit (EvCerr msg_backend) ;;
      ret 0.

(** A [size_t] handed back as an [int]: 32 bits in two's complement, as
    the compilers MARS builds with narrow it. *)
Definition int_of_size_t (n : Z) : Z := (n + 2 ^ 31) mod 2 ^ 32 - 2 ^ 31.

Arguments int_of_size_t : simpl never.

(** [getJointCount]: the size of the registry, read under the lock and
    returned as an [int]. *)
Definition getJointCount : M Z :=
  emit EvLock ;;
  m <- get ;;
  emit EvUnlock ;;
  ret (int_of_size_t (Z.of_nat (StdMap.size (simJoints m)))).

(** [editJoint]: the descriptor is only read, so it is passed by value. *)
Definition editJoint (jointS : JointData) : M unit :=
  emit EvLock ;;
  m <- get ;;
  match StdMap.find (index jointS) (simJoints m) with
  | Some _ =>
      modify (with_simJoints
                (StdMap.write (index jointS)
                   (fun j => setAxis2 (setAxis1 (setAnchor j (anchor jointS))
                                                (axis1 jointS))
                                      (axis2 jointS))))
  | None => ret tt
  end ;;
  emit EvUnlock.

(** [removeJoint]: the [MutexLocker] is released when the function returns,
    after both outbound calls. *)
Definition removeJoint (id : Z) : M unit :=
  emit EvLock ;;
  m <- get ;;
  match StdMap.find id (simJoints m) with
  | Some _ => modify (with_simJoints (StdMap.erase id))
  | None => ret tt
  end ;;
  emit (EvRemoveJointFromMotors id) ;;
  emit (EvSceneHasChanged false) ;;
  emit EvUnlock.

Definition connects (id1 id2 : Z) (j : SimJoint) : bool :=
  ((getNodeIndex1 j =? id1) && (getNodeIndex2 j =? id2))
  || ((getNodeIndex1 j =? id2) && (getNodeIndex2 j =? id1)).

(** The loop of [removeJointByIDs]: the key of the first entry, in iteration
    order, that connects the two nodes. *)
Fixpoint first_connecting (id1 id2 : Z) (js : StdMap.t SimJoint) : option Z :=
  match js with
  | [] => None
  | (k, j) :: r => if connects id1 id2 j then Some k else first_connecting id1 id2 r
  end.

Definition removeJointByIDs (id1 id2 : Z) : M unit :=
  emit EvLock ;;
  m <- get ;;
  match first_connecting id1 id2 (simJoints m) with
  | Some k => emit EvUnlock ;; removeJoint k
  | None => emit EvUnlock
  end.

(** The loop of [reloadJoints] over the entries of [simJointsReload];
    [addJoint] with [reload = true] neither adds nor removes an entry, so
    the iterator visits the keys the map had when the loop started. *)
Fixpoint reload_loop (w : Extern) (ks : list Z) : M unit :=
  match ks with
  | [] => ret tt
  | k :: r => addJoint w (PReload k) true ;; reload_loop w r
  end.

Definition reloadJoints (w : Extern) : M unit :=
  m <- get ;;
  reload_loop w (StdMap.keys (simJointsReload m)).

(** The [while (!simJoints.empty())] loop of [clearAllJoints], which takes
    [simJoints.begin()] off the map on every turn. *)
Fixpoint clear_loop (js : StdMap.t SimJoint) : M unit :=
  match js with
  | [] => ret tt
  | (k, _) :: r =>
      emit (EvRemoveJointFromMotors k) ;;
      modify (with_simJoints (fun _ => r)) ;;
      clear_loop r
  end.

Definition clearAllJoints (clear_all : bool) : M unit :=
  emit EvLock ;;
  (if clear_all then modify (with_simJointsReload (fun _ => StdMap.empty))
   else ret tt) ;;
  m <- get ;;
  clear_loop (simJoints m) ;;
  emit (EvSceneHasChanged false) ;;
  modify (with_next_joint_id (fun _ => 1)) ;;
  emit EvUnlock.

(** Writes through [iter->second] of [simJointsReload.find(id)], if found. *)
Definition on_reload_entry (id : Z) (f : JointData -> JointData) : M unit :=
  emit EvLock ;;
  m <- get ;;
  match StdMap.find id (simJointsReload m) with
  | Some _ => modify (with_simJointsReload (StdMap.write id f))
  | None => ret tt
  end ;;
  emit EvUnlock.

Definition setReloadJointOffset (id : Z) (offset : sReal) : M unit :=
  on_reload_entry id (fun d => set_angle1_offset d offset).

Definition setReloadJointAxis (id : Z) (axis : Vector) : M unit :=
  on_reload_entry id (fun d => set_axis1 d axis).

Definition setReloadAnchor (id : Z) (a : Vector) : M unit :=
  on_reload_entry id (fun d => set_anchor d a).

(** Modelled from the spec: the methods of [SimJoint] that the setters
    and the sweeps of the manager call ([setTorque], [setVelocity],
    [setForceLimit], [setSDParams], [setOfflineValue], [update],
    [changeStepSize], [reattacheJoint]) are not in the sources at hand; the
    effect of such a method on the joint object it is called on is a
    function that comes with the call. *)
Definition JointMethod : Type := SimJoint -> SimJoint.

(** [setJointTorque], [setSDParams], [setVelocity], [setVelocity2] and
    [setForceLimit]: under the lock, the method is called on the joint
    found under [id], if there is one. *)
Definition call_on_joint (id : Z) (method : JointMethod) : M unit :=
  emit EvLock ;;
  m <- get ;;
  match StdMap.find id (simJoints m) with
  | Some _ => modify (with_simJoints (StdMap.write id method))
  | None => ret tt
  end ;;
  emit EvUnlock.

(** [setOfflineValue]: the same, without the lock. *)
Definition setOfflineValue (id : Z) (method : JointMethod) : M unit :=
  m <- get ;;
  match StdMap.find id (simJoints m) with
  | Some _ => modify (with_simJoints (StdMap.write id method))
  | None => ret tt
  end.

(** [updateJoints] and [changeStepSize]: under the lock, the method is
    called on every joint. *)
Definition call_on_every_joint (method : JointMethod) : M unit :=
  emit EvLock ;;
  modify (with_simJoints (StdMap.map_values method)) ;;
  emit EvUnlock.

(** [reattacheJoints]: under the lock, [reattacheJoint] is called on every
    joint one of whose node indices is [node_id]. *)
Definition reattacheJoints (node_id : Z) (reattacheJoint : JointMethod) : M unit :=
  emit EvLock ;;
  modify (with_simJoints
            (StdMap.map_values
               (fun j => if (nodeIndex1 (getSJoint j) =? node_id)
                            || (nodeIndex2 (getSJoint j) =? node_id)
                         then reattacheJoint j else j))) ;;
  emit EvUnlock.

Definition scale_anchor (x_factor y_factor z_factor : sReal) (d : JointData)
  : JointData :=
  set_anchor d (mkVector (vx (anchor d) * x_factor)%float
                         (vy (anchor d) * y_factor)%float
                         (vz (anchor d) * z_factor)%float).

Definition scaleReloadJoints (x_factor y_factor z_factor : sReal) : M unit :=
  emit EvLock ;;
  modify (with_simJointsReload
            (StdMap.map_values (scale_anchor x_factor y_factor z_factor))) ;;
  emit EvUnlock.

(** ** Sequences of calls *)

(** A call of a member function by a client of the manager. A client that
    calls [addJoint] hands over a [JointData] object of its own. The
    queries that only read the registry are left out, [getJointCount]
    apart. *)
Inductive Call : Type :=
| CAddJoint (w : Extern) (d : JointData) (reload : bool)
| CEditJoint (d : JointData)
| CRemoveJoint (id : Z)
| CRemoveJointByIDs (id1 id2 : Z)
| CReloadJoints (w : Extern)
| CClearAllJoints (clear_all : bool)
| CSetReloadJointOffset (id : Z) (offset : sReal)
| CSetReloadJointAxis (id : Z) (axis : Vector)
| CSetReloadAnchor (id : Z) (a : Vector)
| CScaleReloadJoints (x_factor y_factor z_factor : sReal)
| CCallOnJoint (id : Z) (method : JointMethod)
| CSetOfflineValue (id : Z) (method : JointMethod)
| CCallOnEveryJoint (method : JointMethod)
| CReattacheJoints (node_id : Z) (reattacheJoint : JointMethod)
| CGetJointCount.

Definition exec (c : Call) : M unit :=
  match c with
  | CAddJoint w d reload =>
      modify (with_callerData (fun _ => d)) ;;
      addJoint w PCaller reload ;;
      ret tt
  | CEditJoint d => editJoint d
  | CRemoveJoint id => removeJoint id
  | CRemoveJointByIDs id1 id2 => removeJointByIDs id1 id2
  | CReloadJoints w => reloadJoints w
  | CClearAllJoints clear_all => clearAllJoints clear_all
  | CSetReloadJointOffset id offset => setReloadJointOffset id offset
  | CSetReloadJointAxis id axis => setReloadJointAxis id axis
  | CSetReloadAnchor id a => setReloadAnchor id a
  | CScaleReloadJoints x y z => scaleReloadJoints x y z
  | CCallOnJoint id method => call_on_joint id method
  | CSetOfflineValue id method => setOfflineValue id method
  | CCallOnEveryJoint method => call_on_every_joint method
  | CReattacheJoints node_id method => reattacheJoints node_id method
  | CGetJointCount => getJointCount ;; ret tt
  end.

(** What a run shows of the ids: every joint creation with its id, and
    every completed [clearAllJoints]. *)
Inductive Obs : Type :=
| ObsCreated (id : Z)
| ObsCleared.

Fixpoint created (tr : list Event) : list Z :=
  match tr with
  | [] => []
  | EvNewSimJoint id :: r => id :: created r
  | _ :: r => created r
  end.

Definition observe (c : Call) (tr : list Event) : list Obs :=
  List.map ObsCreated (created tr)
  ++ match c with CClearAllJoints _ => [ObsCleared] | _ => [] end.

(** Runs the calls in order from memory [m]; a call that stops the process
    ends the run. Returns the observations and the last memory. *)
Fixpoint run (cs : list Call) (m : Memory) : list Obs * Memory :=
  match cs with
  | [] => ([], m)
  | c :: r =>
      match exec c m with
      | Ret _ m1 tr =>
          let (os, mf) := run r m1 in (observe c tr ++ os, mf)
      | Halt _ m1 tr => (List.map ObsCreated (created tr), m1)
      end
  end.

(** ** Predicates on descriptors, traces and observations *)

(** The test of line 80 of [addJoint]. *)
Definition axis_rejected (w : Extern) (d : JointData) : bool :=
  PrimFloat.ltb (squaredNorm (axis1 d)) (EPSILON w) && negb (is_fixed (type d)).

(** The asserts of lines 97-107 pass: the nodes the anchor policy needs
    were found. *)
Definition anchor_nodes_found (w : Extern) (d : JointData) : bool :=
  match anchorPos d with
  | ANCHOR_NODE1 => isSome (getSimNode w (nodeIndex1 d))
  | ANCHOR_NODE2 => isSome (getSimNode w (nodeIndex2 d))
  | ANCHOR_CENTER =>
      isSome (getSimNode w (nodeIndex1 d)) && isSome (getSimNode w (nodeIndex2 d))
  | ANCHOR_CUSTOM => true
  end.

(** The descriptor as lines 97-107 leave it. *)
Definition resolve (w : Extern) (d : JointData) : JointData :=
  match resolved_anchor d (getSimNode w (nodeIndex1 d)) (getSimNode w (nodeIndex2 d)) with
  | Some a => set_anchor d a
  | None => d
  end.

(** The answer of the backend for the resolved descriptor. *)
Definition backend_accepts (w : Extern) (d : JointData) : bool :=
  createJoint w (resolve w d)
    (option_map getInterface (getSimNode w (nodeIndex1 d)))
    (option_map getInterface (getSimNode w (nodeIndex2 d))).

(** The joint object built on success. *)
Definition new_joint (w : Extern) (d : JointData) (id : Z) : SimJoint :=
  mkSimJoint (set_index (resolve w d) id)
    (getSimNode w (nodeIndex1 d)) (getSimNode w (nodeIndex2 d)).

Definition success_trace (id : Z) : list Event :=
  [EvCreateJoint true; EvLock; EvNewSimJoint id; EvUnlock; EvSceneHasChanged false].

Definition failure_trace : list Event :=
  [EvCreateJoint false; EvCerr msg_backend].

(** How a replay by [addJoint] with [reload = true] leaves the template [d]
    it was handed: untouched when the axis is rejected, with the anchor
    resolved when the backend refuses, and with the anchor resolved and the
    index overwritten by the new id, one of [ids], when the joint is created. *)
Definition replayed (w : Extern) (d d' : JointData) (ids : list Z) : Prop :=
  (axis_rejected w d = true /\ d' = d) \/
  (axis_rejected w d = false /\ anchor_nodes_found w d = true /\
   backend_accepts w d = false /\ d' = resolve w d) \/
  (axis_rejected w d = false /\ anchor_nodes_found w d = true /\
   backend_accepts w d = true /\
   exists id, In id ids /\ d' = set_index (resolve w d) id).

(** No call to the motors ([removeJointFromMotors]) or to the simulator
    ([sceneHasChanged]) is made while [iMutex] is held; [held] is the state
    of the mutex before the trace. *)
Fixpoint outbound_unlocked (held : bool) (tr : list Event) : bool :=
  match tr with
  | [] => true
  | EvLock :: r => outbound_unlocked true r
  | EvUnlock :: r => outbound_unlocked false r
  | EvRemoveJointFromMotors _ :: r => negb held && outbound_unlocked held r
  | EvSceneHasChanged _ :: r => negb held && outbound_unlocked held r
  | _ :: r => outbound_unlocked held r
  end.

(** Every call to the motors or to the simulator is made while [iMutex] is
    held. *)
Fixpoint outbound_locked (held : bool) (tr : list Event) : bool :=
  match tr with
  | [] => true
  | EvLock :: r => outbound_locked true r
  | EvUnlock :: r => outbound_locked false r
  | EvRemoveJointFromMotors _ :: r => held && outbound_locked held r
  | EvSceneHasChanged _ :: r => held && outbound_locked held r
  | _ :: r => outbound_locked held r
  end.

(** The state of [iMutex] after a trace. *)
Fixpoint held_after (held : bool) (tr : list Event) : bool :=
  match tr with
  | [] => held
  | EvLock :: r => held_after true r
  | EvUnlock :: r => held_after false r
  | _ :: r => held_after held r
  end.

(** The calls that reach [removeJoint] or [clearAllJoints]. *)
Definition removes_joints (c : Call) : bool :=
  match c with
  | CRemoveJoint _ | CRemoveJointByIDs _ _ | CClearAllJoints _ => true
  | _ => false
  end.

(** The ids of the observations are those of a counter that stands at
    [next], goes up by one with every creation and back to 1 with every
    [clearAllJoints]. *)
Fixpoint counted_from (next : Z) (log : list Obs) : bool :=
  match log with
  | [] => true
  | ObsCreated id :: r => (id =? next) && counted_from (next + 1) r
  | ObsCleared :: r => counted_from 1 r
  end.

(** Where that counter stands after the observations. *)
Fixpoint counter_after (next : Z) (log : list Obs) : Z :=
  match log with
  | [] => next
  | ObsCreated _ :: r => counter_after (next + 1) r
  | ObsCleared :: r => counter_after 1 r
  end.

(** The invariant of the registry: the counter is at least 1, and the keys
    of [simJoints] ascend, are at least 1 and are below the counter. *)
Definition registry_ok (m : Memory) : Prop :=
  1 <= next_joint_id m /\
  StdMap.above 0 (simJoints m) = true /\
  forallb (fun k => k <? next_joint_id m) (StdMap.keys (simJoints m)) = true.

Definition is_created (o : Obs) : bool :=
  match o with ObsCreated _ => true | ObsCleared => false end.

Definition is_cleared (o : Obs) : bool :=
  match o with ObsCleared => true | ObsCreated _ => false end.

(** The number of joints created in a run. *)
Definition creations (log : list Obs) : Z :=
  Z.of_nat (List.length (List.filter is_created log)).

(** The two ways the manager's code and its clients call [addJoint]: on an
    object of the client, or, from [reloadJoints], on a stored template
    with [reload = true]. *)
Definition call_shape (p : JointPtr) (reload : bool) : Prop :=
  p = PCaller \/ reload = true.

(** What lines 73-77 of [addJoint] do to the memory and to the trace. *)
Definition store_template (reload : bool) (d : JointData) (m : Memory) : Memory :=
  if reload then m else with_simJointsReload (StdMap.assign (index d) d) m.

Definition store_trace (reload : bool) : list Event :=
  if reload then [] else [EvLock; EvUnlock].

(** The memory after a refused [createJoint]: the resolved anchor has been
    written through the pointer. *)
Definition refused_memory (w : Extern) (p : JointPtr) (d : JointData) (m0 : Memory)
  : Memory :=
  poke p (fun _ => resolve w d) m0.

(** The memory after a successful [addJoint]: the resolved anchor and the
    new id have been written through the pointer, the counter has moved on
    and the new joint is in [simJoints]. *)
Definition created_memory (w : Extern) (p : JointPtr) (d : JointData) (m0 : Memory)
  : Memory :=
  with_simJoints
    (StdMap.assign (next_joint_id m0) (new_joint w d (next_joint_id m0)))
    (with_next_joint_id ulong_succ
       (poke p (fun _ => set_index (resolve w d) (next_joint_id m0)) m0)).

(** The trace of [removeJoint]. *)
Definition removeJoint_trace (id : Z) : list Event :=
  [EvLock; EvRemoveJointFromMotors id; EvSceneHasChanged false; EvUnlock].

(** The trace of [clearAllJoints] from memory [m]. *)
Definition clearAllJoints_trace (m : Memory) : list Event :=
  EvLock :: List.map EvRemoveJointFromMotors (StdMap.keys (simJoints m))
  ++ [EvSceneHasChanged false; EvUnlock].

Definition is_clearAll (c : Call) : bool :=
  match c with CClearAllJoints _ => true | _ => false end.

(** ** Sample data *)

Definition v001 : Vector := mkVector 0%float 0%float 1%float.
Definition v123 : Vector := mkVector 1%float 2%float 3%float.

Definition hinge_3_0 : JointData :=
  mkJointData 7 "hinge" JOINT_TYPE_HINGE 3 0 ANCHOR_NODE1 vzero v001 vzero 0%float.

(** A world where node 3 exists at (1,2,3) and the backend accepts or
    refuses every joint. *)
Definition world (accept : bool) : Extern :=
  mkExtern 0x1p-52%float
    (fun i => if i =? 3 then Some (mkSimNode v123 30) else None)
    (fun _ _ _ => accept).

Definition fresh : Memory := JointManager hinge_3_0.

(** A hinge without an axis, anchored at node 5, which does not exist. *)
Definition hinge_no_axis : JointData :=
  mkJointData 8 "bad" JOINT_TYPE_HINGE 5 0 ANCHOR_NODE1 vzero vzero vzero 0%float.

(** A hinge with an axis, anchored at node 5, which does not exist. *)
Definition hinge_5_0 : JointData :=
  mkJointData 9 "loose" JOINT_TYPE_HINGE 5 0 ANCHOR_NODE1 vzero v001 vzero 0%float.

(** A fixed joint between node 4 and the world. *)
Definition weld_4_0 : JointData :=
  mkJointData 1 "weld" JOINT_TYPE_FIXED 4 0 ANCHOR_CUSTOM v123 vzero vzero 0%float.

(** A fixed joint without an axis between node 3 and the world. *)
Definition fixed_3_0 : JointData :=
  mkJointData 4 "weld" JOINT_TYPE_FIXED 3 0 ANCHOR_NODE1 vzero vzero vzero 0%float.

(** The memory after one hinge was added to a new manager. *)
Definition one_joint : Memory :=
  memory_of (addJoint (world true) PCaller false fresh).

(** Two hinges between node 3 and the world, and a weld in front of them. *)
Definition three_joints : Memory :=
  mkMemory
    [(1, mkSimJoint weld_4_0 None None);
     (2, mkSimJoint (set_index hinge_3_0 2) None None);
     (3, mkSimJoint (set_index hinge_3_0 3) None None)]
    [] 4 hinge_3_0.

(** Two templates, under the keys 4 and 7, and an empty registry. *)
Definition two_templates : Memory :=
  snd (run [CAddJoint (world true) hinge_3_0 false;
            CAddJoint (world true) fixed_3_0 false;
            CClearAllJoints false] fresh).

(** A manager whose counter stands at 2^64 - 1. *)
Definition last_id : Memory := mkMemory [] [] ULONG_MAX hinge_3_0.

(** A run with creations, failures, a removal, both clears and a reload. *)
Definition sample_calls : list Call :=
  [CAddJoint (world true) hinge_3_0 false;
   CAddJoint (world false) hinge_3_0 false;
   CAddJoint (world true) fixed_3_0 false;
   CRemoveJoint 1;
   CAddJoint (world true) hinge_no_axis false;
   CAddJoint (world true) hinge_3_0 false;
   CClearAllJoints true;
   CAddJoint (world true) hinge_3_0 false;
   CAddJoint (world true) fixed_3_0 false;
   CClearAllJoints false;
   CReloadJoints (world true)].

(** ** The queries *)

(** What [getFullJoint] throws: a [std::runtime_error] with its message. *)
Inductive Thrown : Type :=
| runtime_error (what : string).

(** The character of a decimal digit. *)
Definition digit_char (n : Z) : Ascii.ascii :=
  Ascii.ascii_of_nat (48 + Z.to_nat n).

(** The decimal digits of [n] in front of [acc], at most [fuel] of them. *)
Fixpoint decimal_digits (fuel : nat) (n : Z) (acc : string) : string :=
  match fuel with
  | O => acc
  | S f =>
      let acc' := String (digit_char (n mod 10)) acc in
      if n / 10 =? 0 then acc' else decimal_digits f (n / 10) acc'
  end.

(** [%lu] of [sprintf]: an [unsigned long] has at most 20 decimal digits. *)
Definition format_lu (n : Z) : string := decimal_digits 20 n "".

(** The value that a string of decimal digits denotes, after [acc]. *)
Fixpoint decimal_value (s : string) (acc : Z) : Z :=
  match s with
  | EmptyString => acc
  | String c r => decimal_value r (10 * acc + (Z.of_nat (Ascii.nat_of_ascii c) - 48))
  end.

(** The size of the buffer [char msg[128]] of [getFullJoint]. *)
Definition msg_buffer_size : nat := 128.

(** [sprintf(msg, "could not find joint with index: %lu", index)]. *)
Definition msg_not_found (id : Z) : string :=
  ("could not find joint with index: " ++ format_lu id)%string.

(** [getFullJoint]: a copy of the descriptor of the joint found, or the
    exception; the [MutexLocker] is released either way. *)
Definition getFullJoint (id : Z) : M (Thrown + JointData) :=
  emit EvLock ;;
  m <- get ;;
  emit EvUnlock ;;
  ret (match StdMap.find id (simJoints m) with
       | Some j => inr (getSJoint j)
       | None => inl (runtime_error (msg_not_found id))
       end).

(** [getSimJoint]: the joint found, [None] for [NULL]. *)
Definition getSimJoint (id : Z) : M (option SimJoint) :=
  emit EvLock ;;
  m <- get ;;
  emit EvUnlock ;;
  ret (StdMap.find id (simJoints m)).

(** The loop of [getSimJoints]: one [push_back] per entry, in map order. *)
Fixpoint push_joints (js : StdMap.t SimJoint) (v : list SimJoint) : list SimJoint :=
  match js with
  | [] => v
  | (_, j) :: r => push_joints r (v ++ [j])
  end.

Definition getSimJoints : M (list SimJoint) :=
  emit EvLock ;;
  m <- get ;;
  emit EvUnlock ;;
  ret (push_joints (simJoints m) []).

(** The loop of [getListJoints]. The one local [obj] is handed to
    [getCoreExchange] of every joint in turn and copied to the end of the
    list. Modelled from the spec: [SimJoint::getCoreExchange], which is not
    in the sources at hand, is a function from the joint and the old
    content of [obj] to its new content. *)
Fixpoint push_exchanges {X : Type} (getCoreExchange : SimJoint -> X -> X)
    (js : StdMap.t SimJoint) (obj : X) (jointList : list X) : list X :=
  match js with
  | [] => jointList
  | (_, j) :: r =>
      let obj' := getCoreExchange j obj in
      push_exchanges getCoreExchange r obj' (jointList ++ [obj'])
  end.

(** [getListJoints]: [obj] is the default-constructed local, [jointList]
    the content of the caller's vector, which is cleared first. *)
Definition getListJoints {X : Type} (getCoreExchange : SimJoint -> X -> X)
    (obj : X) (jointList : list X) : M (list X) :=
  emit EvLock ;;
  m <- get ;;
  emit EvUnlock ;;
  ret (push_exchanges getCoreExchange (simJoints m) obj []).

(** The loop of [getID]: the index field of the first joint, in map order,
    whose name is the one asked for; 0 when there is none. *)
Fixpoint first_named (joint_name : string) (js : StdMap.t SimJoint) : Z :=
  match js with
  | [] => 0
  | (_, j) :: r =>
      if String.eqb (name (getSJoint j)) joint_name
      then index (getSJoint j)
      else first_named joint_name r
  end.

Definition getID (joint_name : string) : M Z :=
  emit EvLock ;;
  m <- get ;;
  emit EvUnlock ;;
  ret (first_named joint_name (simJoints m)).

(** ** Further predicates *)

(** Every joint of the registry carries, in the index field of its
    descriptor, the key it is stored under. *)
Definition indexed (js : StdMap.t SimJoint) : bool :=
  forallb (fun kj => index (getSJoint (snd kj)) =? fst kj) js.

(** A method of [SimJoint] that leaves the index field of the joint's
    descriptor alone. *)
Definition keeps_index (method : JointMethod) : Prop :=
  forall j, index (getSJoint (method j)) = index (getSJoint j).

(** The calls whose methods, which come from outside the manager, leave
    the index fields alone; the manager's own code always does. *)
Definition call_keeps_index (c : Call) : Prop :=
  match c with
  | CCallOnJoint _ method => keeps_index method
  | CSetOfflineValue _ method => keeps_index method
  | CCallOnEveryJoint method => keeps_index method
  | CReattacheJoints _ method => keeps_index method
  | _ => True
  end.

(** A template that a replay turns into a joint, once its anchor nodes are
    found: its axis passes the test and the backend accepts it. *)
Definition replayable (w : Extern) (d : JointData) : bool :=
  negb (axis_rejected w d) && backend_accepts w d.

(** A replay of the template returns (it does not stop on an assert). *)
Definition replay_returns (w : Extern) (d : JointData) : bool :=
  axis_rejected w d || anchor_nodes_found w d.

(** The memory that a run of calls on a new manager ends in. *)
Definition reached (cs : list Call) (c0 : JointData) : Memory :=
  snd (run cs (JointManager c0)).

(** The template stored under [k] in [rs] is one that a replay turns into
    a joint. *)
Definition replayable_at (w : Extern) (rs : StdMap.t JointData) (k : Z) : bool :=
  match StdMap.find k rs with
  | Some d => replayable w d
  | None => false
  end.

(** The number of templates of [l] that a replay turns into a joint. *)
Definition count_replayable (w : Extern) (l : StdMap.t JointData) : nat :=
  List.length (List.filter (fun kd => replayable w (snd kd)) l).

(** Three templates, of which the second needs node 5, which is missing. *)
Definition stalled_templates : Memory :=
  mkMemory [] [(4, fixed_3_0); (9, hinge_5_0); (12, hinge_3_0)] 1 hinge_3_0.

(** A hinge between node 3 and the world whose anchor is given. *)
Definition hinge_custom : JointData :=
  mkJointData 5 "free" JOINT_TYPE_HINGE 3 0 ANCHOR_CUSTOM vzero v001 vzero 0%float.

(** One template with a given anchor, and an empty registry. *)
Definition custom_template : Memory :=
  mkMemory [] [(5, hinge_custom)] 1 hinge_custom.

(** The anchor of [d'] is the one that the anchor policy of [d] asks for
    in the world [w]: the position of node 1, the position of node 2, the
    midpoint of the two, or, for ANCHOR_CUSTOM, the anchor of [d] itself. *)
Definition anchored_by_policy (w : Extern) (d d' : JointData) : Prop :=
  match anchorPos d with
  | ANCHOR_NODE1 =>
      exists n1, getSimNode w (nodeIndex1 d) = Some n1 /\ anchor d' = getPosition n1
  | ANCHOR_NODE2 =>
      exists n2, getSimNode w (nodeIndex2 d) = Some n2 /\ anchor d' = getPosition n2
  | ANCHOR_CENTER =>
      exists n1 n2,
        getSimNode w (nodeIndex1 d) = Some n1 /\
        getSimNode w (nodeIndex2 d) = Some n2 /\
        anchor d' = vdiv (vadd (getPosition n1) (getPosition n2)) 2%float
  | ANCHOR_CUSTOM => anchor d' = anchor d
  end.

(** [d'] has the fields of [d], the index and the anchor apart. *)
Definition same_other_fields (d d' : JointData) : Prop :=
  name d' = name d /\ type d' = type d /\
  nodeIndex1 d' = nodeIndex1 d /\ nodeIndex2 d' = nodeIndex2 d /\
  anchorPos d' = anchorPos d /\
  axis1 d' = axis1 d /\ axis2 d' = axis2 d /\
  angle1_offset d' = angle1_offset d.

(** A registry whose one joint carries the index 0 under the key 5. *)
Definition misfiled : Memory :=
  mkMemory [(5, mkSimJoint (set_index weld_4_0 0) None None)] [] 6 weld_4_0.

(** ** Tactics *)

Ltac unfold_monad :=
  unfold bind, ret, emit, halt, get, modify, assert, load, update in *.

(** ** Lemmas on [StdMap] *)

Section StdMapFacts.
Context {V : Type}.
Implicit Types (m : StdMap.t V) (k : Z) (v : V).

Lemma find_assign_same k v m : StdMap.find k (StdMap.assign k v m) = Some v.
Proof.
  induction m as [|[k' v'] r IH]; cbn.
  - now rewrite Z.eqb_refl.
  - destruct (k <? k') eqn:E1; cbn.
    + now rewrite Z.eqb_refl.
    + destruct (k =? k') eqn:E2; cbn.
      * now rewrite Z.eqb_refl.
      * now rewrite E2.
Qed.

Lemma find_assign_other k k' v m :
  k <> k' -> StdMap.find k (StdMap.assign k' v m) = StdMap.find k m.
Proof.
  intros Hne. apply Z.eqb_neq in Hne.
  induction m as [|[k1 v1] r IH]; cbn.
  - now rewrite Hne.
  - destruct (k' <? k1) eqn:E1; cbn.
    + now rewrite Hne.
    + destruct (k' =? k1) eqn:E2; cbn.
      * apply Z.eqb_eq in E2; subst k1. now rewrite Hne.
      * destruct (k =? k1); auto.
Qed.

Lemma find_write_same k f m v :
  StdMap.find k m = Some v -> StdMap.find k (StdMap.write k f m) = Some (f v).
Proof.
  induction m as [|[k' v'] r IH]; cbn; [discriminate|].
  destruct (k =? k') eqn:E; cbn; rewrite E; [congruence | auto].
Qed.

Lemma find_write_other k k' f m :
  k <> k' -> StdMap.find k (StdMap.write k' f m) = StdMap.find k m.
Proof.
  intros Hne. apply Z.eqb_neq in Hne.
  induction m as [|[k1 v1] r IH]; cbn; [reflexivity|].
  destruct (k' =? k1) eqn:E; cbn.
  - apply Z.eqb_eq in E; subst k1. now rewrite Hne.
  - destruct (k =? k1); auto.
Qed.

Lemma keys_write k f m : StdMap.keys (StdMap.write k f m) = StdMap.keys m.
Proof.
  unfold StdMap.keys. induction m as [|[k' v'] r IH]; cbn; [reflexivity|].
  destruct (k =? k'); cbn; [reflexivity | now rewrite IH].
Qed.

Lemma size_write k f m : StdMap.size (StdMap.write k f m) = StdMap.size m.
Proof.
  unfold StdMap.size. rewrite <- (length_map fst), <- (length_map fst m).
  exact (f_equal (@List.length Z) (keys_write k f m)).
Qed.

Lemma write_write k f g m :
  StdMap.write k g (StdMap.write k f m) = StdMap.write k (fun v => g (f v)) m.
Proof.
  induction m as [|[k' v'] r IH]; cbn; [reflexivity|].
  destruct (k =? k') eqn:E; cbn; rewrite E; [reflexivity | now rewrite IH].
Qed.

Lemma keys_map_values f m : StdMap.keys (StdMap.map_values f m) = StdMap.keys m.
Proof.
  unfold StdMap.keys, StdMap.map_values. rewrite map_map. reflexivity.
Qed.

Lemma above_weaken lo lo' m :
  lo' <= lo -> StdMap.above lo m = true -> StdMap.above lo' m = true.
Proof.
  destruct m as [|[k v] r]; cbn; [reflexivity|].
  intros Hle H. apply andb_true_iff in H as [H1 H2].
  apply Z.ltb_lt in H1. apply andb_true_iff; split; [apply Z.ltb_lt; lia | exact H2].
Qed.

Lemma above_find_none lo k m :
  k <= lo -> StdMap.above lo m = true -> StdMap.find k m = None.
Proof.
  revert lo. induction m as [|[k' v'] r IH]; cbn; intros lo Hle H; [reflexivity|].
  apply andb_true_iff in H as [H1 H2]. apply Z.ltb_lt in H1.
  destruct (k =? k') eqn:E; [apply Z.eqb_eq in E; lia|].
  apply (IH k'); [lia | exact H2].
Qed.

Lemma above_assign lo k v m :
  lo < k -> StdMap.above lo m = true -> StdMap.above lo (StdMap.assign k v m) = true.
Proof.
  revert lo. induction m as [|[k' v'] r IH]; cbn; intros lo Hlt H.
  - apply andb_true_iff; split; [now apply Z.ltb_lt | reflexivity].
  - apply andb_true_iff in H as [H1 H2]. apply Z.ltb_lt in H1.
    destruct (k <? k') eqn:E1; cbn.
    + apply Z.ltb_lt in E1. rewrite H2.
      repeat (apply andb_true_iff; split); try apply Z.ltb_lt; auto.
    + destruct (k =? k') eqn:E2; cbn.
      * apply Z.eqb_eq in E2; subst k'.
        apply andb_true_iff; split; [now apply Z.ltb_lt | exact H2].
      * apply Z.ltb_ge in E1. apply Z.eqb_neq in E2.
        apply andb_true_iff; split; [now apply Z.ltb_lt|].
        apply IH; [lia | exact H2].
Qed.

Lemma above_erase lo k m :
  StdMap.above lo m = true -> StdMap.above lo (StdMap.erase k m) = true.
Proof.
  revert lo. induction m as [|[k' v'] r IH]; cbn; intros lo H; [reflexivity|].
  apply andb_true_iff in H as [H1 H2].
  destruct (k =? k'); cbn.
  - apply Z.ltb_lt in H1. apply (above_weaken k'); [lia | exact H2].
  - rewrite H1. cbn. apply IH, H2.
Qed.

Lemma above_write lo k f m :
  StdMap.above lo (StdMap.write k f m) = StdMap.above lo m.
Proof.
  revert lo. induction m as [|[k' v'] r IH]; cbn; intros lo; [reflexivity|].
  destruct (k =? k'); cbn; [reflexivity | now rewrite IH].
Qed.

Lemma above_map_values lo f m :
  StdMap.above lo (StdMap.map_values f m) = StdMap.above lo m.
Proof.
  revert lo. induction m as [|[k' v'] r IH]; cbn; intros lo; [reflexivity|].
  now rewrite IH.
Qed.

Lemma wf_above lo m : StdMap.above lo m = true -> StdMap.wf m = true.
Proof.
  destruct m as [|[k v] r]; cbn; [reflexivity|].
  intros H. now apply andb_true_iff in H as [_ H].
Qed.

Lemma wf_exists_above m : StdMap.wf m = true -> exists lo, StdMap.above lo m = true.
Proof.
  destruct m as [|[k v] r]; cbn; intros H.
  - now exists 0.
  - exists (k - 1). apply andb_true_iff; split; [apply Z.ltb_lt; lia | exact H].
Qed.

Lemma wf_erase k m : StdMap.wf m = true -> StdMap.wf (StdMap.erase k m) = true.
Proof.
  intros H. destruct (wf_exists_above m H) as [lo Hlo].
  apply (wf_above lo), above_erase, Hlo.
Qed.

Lemma find_erase_same k m :
  StdMap.wf m = true -> StdMap.find k (StdMap.erase k m) = None.
Proof.
  intros H. destruct (wf_exists_above m H) as [lo Hlo]. clear H. revert lo Hlo.
  induction m as [|[k' v'] r IH]; cbn; intros lo H; [reflexivity|].
  apply andb_true_iff in H as [H1 H2].
  destruct (k =? k') eqn:E; cbn.
  - apply Z.eqb_eq in E; subst k'. apply (above_find_none k); [lia | exact H2].
  - rewrite E. apply (IH k'), H2.
Qed.

Lemma erase_absent k m : StdMap.find k m = None -> StdMap.erase k m = m.
Proof.
  induction m as [|[k' v'] r IH]; cbn; [reflexivity|].
  destruct (k =? k'); [discriminate|]. intros H. now rewrite IH.
Qed.

Lemma above_keys lo m k :
  StdMap.above lo m = true -> In k (StdMap.keys m) -> lo < k.
Proof.
  revert lo. induction m as [|[k' v'] r IH]; cbn; intros lo H Hin; [tauto|].
  apply andb_true_iff in H as [H1 H2]. apply Z.ltb_lt in H1.
  destruct Hin as [->|Hin]; [exact H1|].
  specialize (IH k' H2 Hin). lia.
Qed.

Lemma find_write_eq k (f : V -> V) m :
  StdMap.find k (StdMap.write k f m) = option_map f (StdMap.find k m).
Proof.
  induction m as [|[k' v'] r IH]; cbn; [reflexivity|].
  destruct (k =? k') eqn:E; cbn; rewrite E; [reflexivity | exact IH].
Qed.

Lemma write_const k (g : V -> V) m v :
  StdMap.find k m = Some v -> StdMap.write k g m = StdMap.write k (fun _ => g v) m.
Proof.
  induction m as [|[k' v'] r IH]; cbn; [reflexivity|].
  destruct (k =? k'); [intros [= ->]; reflexivity | intros H; now rewrite IH].
Qed.

Lemma write_id k m v :
  StdMap.find k m = Some v -> StdMap.write k (fun _ => v) m = m.
Proof.
  induction m as [|[k' v'] r IH]; cbn; [reflexivity|].
  destruct (k =? k') eqn:E; [| intros H; now rewrite IH].
  intros [= ->]. apply Z.eqb_eq in E. now subst.
Qed.

Lemma write_absent k f m : StdMap.find k m = None -> StdMap.write k f m = m.
Proof.
  induction m as [|[k' v'] r IH]; cbn; [reflexivity|].
  destruct (k =? k'); [discriminate | intros H; now rewrite IH].
Qed.

End StdMapFacts.

(** ** [addJoint] by cases *)

Lemma addJoint_dangling (w : Extern) (p : JointPtr) (m : Memory) :
  pointee p m = None -> addJoint w p true m = Halt InvalidPointer m [].
Proof.
  intros H. unfold addJoint. unfold_monad. cbn. now rewrite H.
Qed.

Lemma addJoint_cases (w : Extern) (p : JointPtr) (reload : bool) (m : Memory)
    (d : JointData) :
  call_shape p reload ->
  pointee p m = Some d ->
  addJoint w p reload m =
    let m0 := store_template reload d m in
    if axis_rejected w d then
      Ret 0 m0 (store_trace reload ++ [EvLogError msg_no_axis1])
    else if anchor_nodes_found w d then
      if backend_accepts w d then
        Ret (next_joint_id m) (created_memory w p d m0)
            (store_trace reload ++ success_trace (next_joint_id m))
      else
        Ret 0 (refused_memory w p d m0) (store_trace reload ++ failure_trace)
    else Halt AssertionFailed m0 (store_trace reload).
Proof.
  intros Hshape Hd.
  unfold addJoint, axis_rejected, anchor_nodes_found, backend_accepts,
    created_memory, refused_memory, new_joint, resolve, resolved_anchor,
    store_template, store_trace.
  destruct p as [|k].
  - cbn in Hd. injection Hd as <-.
    unfold_monad. destruct m as [js rs n c]. cbn.
    destruct reload; cbn;
      (destruct (_ && _); cbn; [reflexivity|]);
      destruct (anchorPos c) eqn:Epos; cbn;
      destruct (getSimNode w (nodeIndex1 c)) as [n1|]; cbn;
      destruct (getSimNode w (nodeIndex2 c)) as [n2|]; cbn;
      try reflexivity;
      destruct (createJoint w _ _ _); cbn; reflexivity.
  - destruct Hshape as [Hp | Hr]; [discriminate | subst reload].
    unfold_monad. destruct m as [js rs n c]. cbn in *. rewrite Hd. cbn.
    destruct (_ && _); cbn; [reflexivity|].
    destruct (anchorPos d) eqn:Epos; cbn;
      destruct (getSimNode w (nodeIndex1 d)) as [n1|]; cbn;
      destruct (getSimNode w (nodeIndex2 d)) as [n2|]; cbn;
      try reflexivity.
    all: repeat (rewrite ?find_write_eq, ?Hd; cbn).
    all: destruct (createJoint w _ _ _); cbn.
    all: repeat (rewrite ?find_write_eq, ?Hd; cbn).
    all: unfold with_simJoints, with_next_joint_id, with_simJointsReload; cbn.
    all: rewrite ?write_write.
    all: try (rewrite (write_const k _ rs d Hd); reflexivity).
    all: try (rewrite (write_id k rs d Hd); reflexivity).
Qed.

(** The zero vector fails the axis test whenever [EPSILON] is positive. *)
Lemma zero_axis_is_degenerate (w : Extern) :
  PrimFloat.ltb 0%float (EPSILON w) = true ->
  PrimFloat.ltb (squaredNorm vzero) (EPSILON w) = true.
Proof. intros H. exact H. Qed.

Lemma is_fixed_true (t : JointType) : is_fixed t = true <-> t = JOINT_TYPE_FIXED.
Proof. destruct t; cbn; split; congruence. Qed.

Lemma in_store_trace (reload : bool) (e : Event) :
  In e (store_trace reload) -> e = EvLock \/ e = EvUnlock.
Proof.
  destruct reload; cbn; [tauto|]. intros [<-|[<-|[]]]; auto.
Qed.

Lemma store_template_frame (reload : bool) (d : JointData) (m : Memory) :
  simJoints (store_template reload d m) = simJoints m /\
  next_joint_id (store_template reload d m) = next_joint_id m /\
  callerData (store_template reload d m) = callerData m.
Proof. destruct reload; cbn; auto. Qed.

Lemma poke_frame (p : JointPtr) (f : JointData -> JointData) (m : Memory) :
  simJoints (poke p f m) = simJoints m /\
  next_joint_id (poke p f m) = next_joint_id m.
Proof. destruct p; cbn; auto. Qed.

(** ** The other member functions by cases *)

Lemma with_simJoints_same (m : Memory) (js : StdMap.t SimJoint) :
  simJoints m = js -> with_simJoints (fun _ => js) m = m.
Proof. destruct m; cbn; intros ->; reflexivity. Qed.

Lemma removeJoint_result (id : Z) (m : Memory) :
  removeJoint id m
    = Ret tt (with_simJoints (StdMap.erase id) m) (removeJoint_trace id).
Proof.
  unfold removeJoint. unfold_monad. cbn.
  destruct (StdMap.find id (simJoints m)) eqn:E; cbn; [reflexivity|].
  unfold with_simJoints. rewrite (erase_absent _ _ E). destruct m; reflexivity.
Qed.

Lemma clear_loop_result (js : StdMap.t SimJoint) (m : Memory) :
  simJoints m = js ->
  clear_loop js m
    = Ret tt (with_simJoints (fun _ => []) m)
        (List.map EvRemoveJointFromMotors (StdMap.keys js)).
Proof.
  revert m. induction js as [|[k j] r IH]; intros m Hm.
  - cbn. unfold ret. now rewrite with_simJoints_same.
  - cbn. unfold_monad. cbn. rewrite IH by reflexivity. reflexivity.
Qed.

Lemma clearAllJoints_result (clear_all : bool) (m : Memory) :
  clearAllJoints clear_all m
    = Ret tt
        (mkMemory [] (if clear_all then [] else simJointsReload m) 1 (callerData m))
        (clearAllJoints_trace m).
Proof.
  unfold clearAllJoints, clearAllJoints_trace. unfold_monad.
  destruct clear_all; cbn; rewrite clear_loop_result by reflexivity; reflexivity.
Qed.

Lemma removeJointByIDs_result (id1 id2 : Z) (m : Memory) :
  removeJointByIDs id1 id2 m
    = match first_connecting id1 id2 (simJoints m) with
      | Some k =>
          Ret tt (with_simJoints (StdMap.erase k) m)
            ([EvLock; EvUnlock] ++ removeJoint_trace k)
      | None => Ret tt m [EvLock; EvUnlock]
      end.
Proof.
  unfold removeJointByIDs. unfold_monad. cbn -[removeJoint].
  destruct (first_connecting id1 id2 (simJoints m)); cbn -[removeJoint];
    [|reflexivity].
  rewrite removeJoint_result. reflexivity.
Qed.

Lemma on_reload_entry_result (id : Z) (f : JointData -> JointData) (m : Memory) :
  on_reload_entry id f m
    = Ret tt (with_simJointsReload (StdMap.write id f) m) [EvLock; EvUnlock].
Proof.
  unfold on_reload_entry. unfold_monad. cbn.
  destruct (StdMap.find id (simJointsReload m)) eqn:E; cbn; [reflexivity|].
  unfold with_simJointsReload. rewrite (write_absent _ _ _ E). destruct m; reflexivity.
Qed.

Lemma editJoint_result (d : JointData) (m : Memory) :
  editJoint d m
    = Ret tt
        (with_simJoints
           (StdMap.write (index d)
              (fun j => setAxis2 (setAxis1 (setAnchor j (anchor d)) (axis1 d)) (axis2 d)))
           m)
        [EvLock; EvUnlock].
Proof.
  unfold editJoint. unfold_monad. cbn.
  destruct (StdMap.find (index d) (simJoints m)) eqn:E; cbn; [reflexivity|].
  unfold with_simJoints. rewrite (write_absent _ _ _ E). destruct m; reflexivity.
Qed.

Lemma call_on_joint_result (id : Z) (method : JointMethod) (m : Memory) :
  call_on_joint id method m
    = Ret tt (with_simJoints (StdMap.write id method) m) [EvLock; EvUnlock].
Proof.
  unfold call_on_joint. unfold_monad. cbn.
  destruct (StdMap.find id (simJoints m)) eqn:E; cbn; [reflexivity|].
  unfold with_simJoints. rewrite (write_absent _ _ _ E). destruct m; reflexivity.
Qed.

Lemma setOfflineValue_result (id : Z) (method : JointMethod) (m : Memory) :
  setOfflineValue id method m
    = Ret tt (with_simJoints (StdMap.write id method) m) [].
Proof.
  unfold setOfflineValue. unfold_monad. cbn.
  destruct (StdMap.find id (simJoints m)) eqn:E; cbn; [reflexivity|].
  unfold with_simJoints. rewrite (write_absent _ _ _ E). destruct m; reflexivity.
Qed.

Lemma scaleReloadJoints_result (x y z : sReal) (m : Memory) :
  scaleReloadJoints x y z m
    = Ret tt (with_simJointsReload (StdMap.map_values (scale_anchor x y z)) m)
        [EvLock; EvUnlock].
Proof. reflexivity. Qed.

(** ** Failures of [addJoint] *)

(** C1: when the backend's [createJoint] refuses the joint, [addJoint]
    reports it on [std::cerr] and returns 0, the failure value; the counter
    [next_joint_id] and the registry [simJoints] are as before, and for
    [reload = false] the template stored at the start of the call is still
    in [simJointsReload], under the index the caller supplied. *)
Theorem addJoint_backend_failure (w : Extern) (p : JointPtr) (reload : bool)
    (m : Memory) (d : JointData)
    (Hshape : call_shape p reload)
    (Hd : pointee p m = Some d)
    (Hfail : In (EvCreateJoint false) (trace_of (addJoint w p reload m))) :
  exists m',
    addJoint w p reload m = Ret 0 m' (store_trace reload ++ failure_trace) /\
    next_joint_id m' = next_joint_id m /\
    simJoints m' = simJoints m /\
    (reload = false ->
       simJointsReload m' = StdMap.assign (index d) d (simJointsReload m) /\
       StdMap.find (index d) (simJointsReload m') = Some d).
Proof.
  rewrite (addJoint_cases w p reload m d Hshape Hd) in *. cbn zeta in *.
  destruct (store_template_frame reload d m) as (Hj & Hn & _).
  destruct (axis_rejected w d).
  { cbn in Hfail. apply in_app_or in Hfail as [Hin|[Hin|[]]]; [|discriminate].
    apply in_store_trace in Hin as [Hin|Hin]; discriminate. }
  destruct (anchor_nodes_found w d).
  2:{ cbn in Hfail. apply in_store_trace in Hfail as [Hin|Hin]; discriminate. }
  destruct (backend_accepts w d).
  { cbn in Hfail. apply in_app_or in Hfail as [Hin|Hin].
    - apply in_store_trace in Hin as [Hin|Hin]; discriminate.
    - cbn in Hin. repeat (destruct Hin as [Hin|Hin]; [discriminate|]). destruct Hin. }
  eexists. split; [reflexivity|].
  unfold refused_memory. destruct (poke_frame p (fun _ => resolve w d) (store_template reload d m)) as (Hj' & Hn').
  split; [congruence|]. split; [congruence|].
  intros ->. destruct Hshape as [->|]; [|discriminate]. cbn.
  split; [reflexivity | apply find_assign_same].
Qed.

Lemma addJoint_backend_failure_witness :
  exists m',
    addJoint (world false) PCaller false fresh
      = Ret 0 m' (store_trace false ++ failure_trace) /\
    next_joint_id m' = next_joint_id fresh /\
    simJoints m' = simJoints fresh /\
    (false = false ->
       simJointsReload m'
         = StdMap.assign (index hinge_3_0) hinge_3_0 (simJointsReload fresh) /\
       StdMap.find (index hinge_3_0) (simJointsReload m') = Some hinge_3_0).
Proof.
  apply (addJoint_backend_failure (world false) PCaller false fresh hinge_3_0).
  - left; reflexivity.
  - reflexivity.
  - vm_compute. right; right; left; reflexivity.
Defined.

(** C3, as the code has it: a call whose axis passes the test of line 80
    and whose anchor policy needs a node that the lookup does not find
    (ANCHOR_NODE1 without node 1, ANCHOR_NODE2 without node 2,
    ANCHOR_CENTER without either) stops on the failed [assert], before the
    backend's [createJoint] is called; no joint is stored and no id is used. *)
Theorem addJoint_missing_anchor_node (w : Extern) (p : JointPtr) (reload : bool)
    (m : Memory) (d : JointData)
    (Hshape : call_shape p reload)
    (Hd : pointee p m = Some d)
    (Haxis : axis_rejected w d = false)
    (Hmiss : anchor_nodes_found w d = false) :
  exists m',
    addJoint w p reload m = Halt AssertionFailed m' (store_trace reload) /\
    (forall ok, ~ In (EvCreateJoint ok) (store_trace reload)) /\
    simJoints m' = simJoints m /\
    next_joint_id m' = next_joint_id m.
Proof.
  rewrite (addJoint_cases w p reload m d Hshape Hd). cbn zeta.
  rewrite Haxis, Hmiss.
  destruct (store_template_frame reload d m) as (Hj & Hn & _).
  eexists. split; [reflexivity|]. split; [|split; assumption].
  intros ok Hin. apply in_store_trace in Hin as [Hin|Hin]; discriminate.
Qed.

Lemma addJoint_missing_anchor_node_witness :
  exists m',
    addJoint (world true) PCaller false (JointManager hinge_5_0)
      = Halt AssertionFailed m' (store_trace false) /\
    (forall ok, ~ In (EvCreateJoint ok) (store_trace false)) /\
    simJoints m' = simJoints (JointManager hinge_5_0) /\
    next_joint_id m' = next_joint_id (JointManager hinge_5_0).
Proof.
  apply (addJoint_missing_anchor_node (world true) PCaller false
           (JointManager hinge_5_0) hinge_5_0).
  - left; reflexivity.
  - reflexivity.
  - reflexivity.
  - reflexivity.
Defined.

(** C3 fails as stated: a hinge without an axis whose anchor node is
    missing is turned away by the axis test, which comes first; the call
    logs the missing axis and returns 0, and no assert is reached. *)
Lemma addJoint_axis_test_precedes_anchor :
  anchor_nodes_found (world true) hinge_no_axis = false /\
  addJoint (world true) PCaller false (JointManager hinge_no_axis)
    = Ret 0 (store_template false hinge_no_axis (JointManager hinge_no_axis))
        [EvLock; EvUnlock; EvLogError msg_no_axis1].
Proof. split; reflexivity. Qed.

(** C4: a descriptor whose [axis1] fails the test of line 80 (its squared
    norm is below [EPSILON], as that of the zero vector is) and whose type
    is not fixed makes [addJoint] log the missing axis and return 0; the
    counter, the registry and the joint count are as before. With the type
    fixed the same axis is let through: nothing is logged about the axis,
    and when the anchor nodes exist and the backend accepts, the joint is
    created under the next id. *)
Theorem addJoint_invalid_axis (w : Extern) (p : JointPtr) (reload : bool)
    (m : Memory) (d : JointData)
    (Hshape : call_shape p reload)
    (Hd : pointee p m = Some d)
    (Hdeg : PrimFloat.ltb (squaredNorm (axis1 d)) (EPSILON w) = true) :
  (type d <> JOINT_TYPE_FIXED ->
     exists m',
       addJoint w p reload m
         = Ret 0 m' (store_trace reload ++ [EvLogError msg_no_axis1]) /\
       next_joint_id m' = next_joint_id m /\
       simJoints m' = simJoints m /\
       value_of (getJointCount m') = value_of (getJointCount m)) /\
  (type d = JOINT_TYPE_FIXED ->
     ~ In (EvLogError msg_no_axis1) (trace_of (addJoint w p reload m)) /\
     (anchor_nodes_found w d = true ->
      backend_accepts w d = true ->
      exists m',
        addJoint w p reload m
          = Ret (next_joint_id m) m'
              (store_trace reload ++ success_trace (next_joint_id m)) /\
        StdMap.find (next_joint_id m) (simJoints m')
          = Some (new_joint w d (next_joint_id m)))).
Proof.
  rewrite (addJoint_cases w p reload m d Hshape Hd). cbn zeta.
  destruct (store_template_frame reload d m) as (Hj & Hn & _).
  unfold axis_rejected. rewrite Hdeg. cbn [andb].
  split.
  - intros Hty.
    destruct (is_fixed (type d)) eqn:E; [apply is_fixed_true in E; contradiction|].
    cbn [negb]. eexists. split; [reflexivity|].
    repeat split; try assumption.
    unfold getJointCount. unfold_monad. cbn. now rewrite Hj.
  - intros Hty. apply is_fixed_true in Hty. rewrite Hty. cbn [negb].
    split.
    + destruct (anchor_nodes_found w d); [destruct (backend_accepts w d)|]; cbn;
        intros Hin; try apply in_app_or in Hin as [Hin|Hin];
        try (apply in_store_trace in Hin as [Hin|Hin]; discriminate);
        cbn in Hin; repeat (destruct Hin as [Hin|Hin]; [discriminate|]);
        destruct Hin.
    + intros -> ->. eexists. split; [reflexivity|].
      unfold created_memory. cbn. rewrite Hn. apply find_assign_same.
Qed.

Lemma addJoint_invalid_axis_witness :
  (exists m',
     addJoint (world true) PCaller false (JointManager hinge_no_axis)
       = Ret 0 m' (store_trace false ++ [EvLogError msg_no_axis1]) /\
     next_joint_id m' = 1 /\
     simJoints m' = [] /\
     value_of (getJointCount m') = Some 0) /\
  (exists m',
     addJoint (world true) PCaller false (JointManager fixed_3_0)
       = Ret 1 m' (store_trace false ++ success_trace 1) /\
     StdMap.find 1 (simJoints m') = Some (new_joint (world true) fixed_3_0 1)).
Proof.
  split.
  - apply (proj1 (addJoint_invalid_axis (world true) PCaller false
                    (JointManager hinge_no_axis) hinge_no_axis
                    (or_introl eq_refl) eq_refl
                    (zero_axis_is_degenerate (world true) eq_refl))).
    discriminate.
  - apply (proj2 (addJoint_invalid_axis (world true) PCaller false
                    (JointManager fixed_3_0) fixed_3_0
                    (or_introl eq_refl) eq_refl
                    (zero_axis_is_degenerate (world true) eq_refl)));
      reflexivity.
Defined.

(** ** The mutex and the outbound calls *)

Lemma trace_of_bind {A B : Type} (c : M A) (k : A -> M B) (m : Memory) :
  trace_of (bind c k m)
    = match c m with
      | Ret a m1 tr1 => tr1 ++ trace_of (k a m1)
      | Halt _ _ tr1 => tr1
      end.
Proof.
  unfold bind. destruct (c m) as [a m1 tr1|? ? ?]; [|reflexivity].
  destruct (k a m1); reflexivity.
Qed.

Lemma memory_of_bind {A B : Type} (c : M A) (k : A -> M B) (m : Memory) :
  memory_of (bind c k m)
    = match c m with
      | Ret a m1 _ => memory_of (k a m1)
      | Halt _ m1 _ => m1
      end.
Proof.
  unfold bind. destruct (c m) as [a m1 tr1|? ? ?]; [|reflexivity].
  destruct (k a m1); reflexivity.
Qed.

Lemma outbound_unlocked_app (h : bool) (t1 t2 : list Event) :
  outbound_unlocked h (t1 ++ t2)
    = outbound_unlocked h t1 && outbound_unlocked (held_after h t1) t2.
Proof.
  revert h. induction t1 as [|e r IH]; intros h; cbn; [reflexivity|].
  destruct e; cbn; rewrite ?IH; auto using andb_assoc.
Qed.

Lemma held_after_app (h : bool) (t1 t2 : list Event) :
  held_after h (t1 ++ t2) = held_after (held_after h t1) t2.
Proof.
  revert h. induction t1 as [|e r IH]; intros h; cbn; [reflexivity|].
  destruct e; cbn; auto.
Qed.

Lemma addJoint_outbound_unlocked (w : Extern) (p : JointPtr) (reload : bool)
    (m : Memory) :
  outbound_unlocked false (trace_of (addJoint w p reload m)) = true.
Proof.
  unfold addJoint. unfold_monad.
  destruct reload; cbn.
  all: repeat (match goal with
    | |- context [match pointee ?p ?m with _ => _ end] => destruct (pointee p m)
    | |- context [if ?b then _ else _] => destruct b
    | |- context [match anchorPos ?d with _ => _ end] => destruct (anchorPos d)
    | |- context [isSome ?x] => destruct x
    end; cbn); reflexivity.
Qed.

(** A replay leaves the mutex released, however it ends. *)
Lemma replay_releases (w : Extern) (k : Z) (m : Memory) :
  held_after false (trace_of (addJoint w (PReload k) true m)) = false.
Proof.
  destruct (pointee (PReload k) m) as [d|] eqn:Hd.
  - rewrite (addJoint_cases w (PReload k) true m d (or_intror eq_refl) Hd). cbn zeta.
    destruct (axis_rejected w d); [reflexivity|].
    destruct (anchor_nodes_found w d); [|reflexivity].
    destruct (backend_accepts w d); reflexivity.
  - now rewrite addJoint_dangling.
Qed.

Lemma reload_loop_outbound_unlocked (w : Extern) (ks : list Z) (m : Memory) :
  outbound_unlocked false (trace_of (reload_loop w ks m)) = true.
Proof.
  revert m. induction ks as [|k r IH]; intros m; [reflexivity|].
  cbn [reload_loop]. rewrite trace_of_bind.
  pose proof (addJoint_outbound_unlocked w (PReload k) true m) as H1.
  pose proof (replay_releases w k m) as H2.
  destruct (addJoint w (PReload k) true m) as [v m1 tr1|c m1 tr1]; cbn in *; [|exact H1].
  rewrite outbound_unlocked_app, H1, H2. apply IH.
Qed.

Lemma motors_calls_locked (ks : list Z) (rest : list Event) :
  outbound_locked true (List.map EvRemoveJointFromMotors ks ++ rest)
    = outbound_locked true rest.
Proof. induction ks as [|k r IH]; cbn; auto. Qed.

Lemma exec_addJoint (w : Extern) (d : JointData) (reload : bool) (m : Memory) :
  trace_of (exec (CAddJoint w d reload) m)
    = trace_of (addJoint w PCaller reload (with_callerData (fun _ => d) m)) /\
  memory_of (exec (CAddJoint w d reload) m)
    = memory_of (addJoint w PCaller reload (with_callerData (fun _ => d) m)).
Proof.
  cbn [exec]. unfold bind, modify, ret.
  destruct (addJoint w PCaller reload (with_callerData (fun _ => d) m)); cbn;
    rewrite ?app_nil_r; auto.
Qed.

(** C5, as the code has it: [addJoint] and [reloadJoints] make their calls
    to the simulator with [iMutex] released; [removeJoint] and
    [clearAllJoints] take the mutex with a scoped locker on entry and make
    all their calls to the motors and to the simulator before it is
    released; [removeJointByIDs] releases its own lock and then runs
    [removeJoint]. No other member function calls out. *)
Theorem outbound_calls_and_the_mutex :
  (forall w p reload m,
     outbound_unlocked false (trace_of (addJoint w p reload m)) = true) /\
  (forall w m, outbound_unlocked false (trace_of (reloadJoints w m)) = true) /\
  (forall id m,
     trace_of (removeJoint id m)
       = [EvLock; EvRemoveJointFromMotors id; EvSceneHasChanged false; EvUnlock] /\
     outbound_locked false (trace_of (removeJoint id m)) = true) /\
  (forall clear_all m,
     trace_of (clearAllJoints clear_all m)
       = EvLock :: List.map EvRemoveJointFromMotors (StdMap.keys (simJoints m))
         ++ [EvSceneHasChanged false; EvUnlock] /\
     outbound_locked false (trace_of (clearAllJoints clear_all m)) = true) /\
  (forall id1 id2 m,
     trace_of (removeJointByIDs id1 id2 m)
       = [EvLock; EvUnlock]
         ++ match first_connecting id1 id2 (simJoints m) with
            | Some k => trace_of (removeJoint k m)
            | None => []
            end) /\
  (forall c m,
     if removes_joints c
     then outbound_locked false (trace_of (exec c m)) = true
     else outbound_unlocked false (trace_of (exec c m)) = true).
Proof.
  assert (Hreload : forall w m,
            outbound_unlocked false (trace_of (reloadJoints w m)) = true).
  { intros w m. unfold reloadJoints. rewrite trace_of_bind. cbn.
    apply reload_loop_outbound_unlocked. }
  assert (Hclear : forall b m,
            outbound_locked false (trace_of (clearAllJoints b m)) = true).
  { intros b m. rewrite clearAllJoints_result.
    cbn. unfold clearAllJoints_trace. cbn. now rewrite motors_calls_locked. }
  split; [exact addJoint_outbound_unlocked|].
  split; [exact Hreload|].
  split.
  { intros id m. rewrite removeJoint_result. split; reflexivity. }
  split.
  { intros b m. split; [|apply Hclear]. now rewrite clearAllJoints_result. }
  split.
  { intros id1 id2 m. rewrite removeJointByIDs_result.
    destruct (first_connecting id1 id2 (simJoints m)); [|reflexivity].
    rewrite removeJoint_result. reflexivity. }
  intros c m. destruct c; cbn [removes_joints].
  - rewrite (proj1 (exec_addJoint w d reload m)). apply addJoint_outbound_unlocked.
  - cbn [exec]. now rewrite editJoint_result.
  - cbn [exec]. now rewrite removeJoint_result.
  - cbn [exec]. rewrite removeJointByIDs_result.
    destruct (first_connecting id1 id2 (simJoints m)); reflexivity.
  - apply Hreload.
  - apply Hclear.
  - cbn [exec]. unfold setReloadJointOffset. now rewrite on_reload_entry_result.
  - cbn [exec]. unfold setReloadJointAxis. now rewrite on_reload_entry_result.
  - cbn [exec]. unfold setReloadAnchor. now rewrite on_reload_entry_result.
  - reflexivity.
  - cbn [exec]. now rewrite call_on_joint_result.
  - cbn [exec]. now rewrite setOfflineValue_result.
  - reflexivity.
  - reflexivity.
  - reflexivity.
Qed.

(** C5 fails as stated: [removeJoint] calls the motors and the simulator
    with the mutex held. *)
Lemma removeJoint_calls_out_locked :
  trace_of (removeJoint 1 fresh)
    = [EvLock; EvRemoveJointFromMotors 1; EvSceneHasChanged false; EvUnlock] /\
  outbound_unlocked false (trace_of (removeJoint 1 fresh)) = false.
Proof. split; reflexivity. Qed.

(** ** Removal *)

(** C6: [removeJoint] twice is [removeJoint] once: the first call leaves
    no joint under the id, the second call leaves the memory as the first
    left it, and each of the two calls tells the motors to drop the joint
    and the simulator that the scene changed, whether or not the id was in
    the registry. *)
Theorem removeJoint_idempotent (id : Z) (m : Memory)
    (Hwf : StdMap.wf (simJoints m) = true) :
  exists m1,
    removeJoint id m
      = Ret tt m1
          [EvLock; EvRemoveJointFromMotors id; EvSceneHasChanged false; EvUnlock] /\
    removeJoint id m1
      = Ret tt m1
          [EvLock; EvRemoveJointFromMotors id; EvSceneHasChanged false; EvUnlock] /\
    m1 = with_simJoints (StdMap.erase id) m /\
    StdMap.find id (simJoints m1) = None.
Proof.
  exists (with_simJoints (StdMap.erase id) m).
  assert (Hnone : StdMap.find id (simJoints (with_simJoints (StdMap.erase id) m)) = None)
    by (cbn; apply find_erase_same, Hwf).
  rewrite !removeJoint_result. repeat split; try assumption.
  f_equal. unfold with_simJoints at 1. rewrite (erase_absent _ _ Hnone).
  cbn. reflexivity.
Qed.

Lemma removeJoint_idempotent_witness :
  exists m1,
    removeJoint 1 one_joint
      = Ret tt m1
          [EvLock; EvRemoveJointFromMotors 1; EvSceneHasChanged false; EvUnlock] /\
    removeJoint 1 m1
      = Ret tt m1
          [EvLock; EvRemoveJointFromMotors 1; EvSceneHasChanged false; EvUnlock] /\
    m1 = with_simJoints (StdMap.erase 1) one_joint /\
    StdMap.find 1 (simJoints m1) = None.
Proof. apply (removeJoint_idempotent 1 one_joint). reflexivity. Defined.

Lemma first_connecting_none (id1 id2 : Z) (js : StdMap.t SimJoint) :
  (forall k j, In (k, j) js -> connects id1 id2 j = false) ->
  first_connecting id1 id2 js = None.
Proof.
  induction js as [|[k j] r IH]; cbn; intros H; [reflexivity|].
  rewrite (H k j) by auto. apply IH. intros k' j' Hin. apply (H k' j'). auto.
Qed.

Lemma first_connecting_split (id1 id2 : Z) (l1 l2 : StdMap.t SimJoint) (k : Z)
    (j : SimJoint) :
  (forall e, In e l1 -> connects id1 id2 (snd e) = false) ->
  connects id1 id2 j = true ->
  first_connecting id1 id2 (l1 ++ (k, j) :: l2) = Some k.
Proof.
  induction l1 as [|[k' j'] r IH]; cbn; intros H Hj.
  - now rewrite Hj.
  - pose proof (H (k', j') (or_introl eq_refl)) as Hc. cbn in Hc. rewrite Hc.
    apply IH; auto.
Qed.

Lemma above_app_lt {V : Type} (lo : Z) (l1 l2 : StdMap.t V) (k : Z) (v : V) :
  StdMap.above lo (l1 ++ (k, v) :: l2) = true ->
  forall e, In e l1 -> fst e < k.
Proof.
  revert lo. induction l1 as [|[k' v'] r IH]; cbn; intros lo H e Hin; [tauto|].
  apply andb_true_iff in H as [H1 H2].
  destruct Hin as [<-|Hin].
  - cbn. destruct r as [|[k2 v2] r2]; cbn in H2.
    + apply andb_true_iff in H2 as [H2 _]. now apply Z.ltb_lt.
    + pose proof (IH k' H2 (k2, v2) (or_introl eq_refl)) as Hlt. cbn in Hlt.
      apply andb_true_iff in H2 as [H2 _]. apply Z.ltb_lt in H2. lia.
  - apply (IH k' H2 e Hin).
Qed.

Lemma erase_split {V : Type} (l1 l2 : StdMap.t V) (k : Z) (v : V) :
  StdMap.wf (l1 ++ (k, v) :: l2) = true ->
  StdMap.erase k (l1 ++ (k, v) :: l2) = l1 ++ l2.
Proof.
  intros Hwf. destruct (wf_exists_above _ Hwf) as [lo Hlo].
  pose proof (above_app_lt lo l1 l2 k v Hlo) as Hlt. clear Hwf Hlo.
  induction l1 as [|[k' v'] r IH]; cbn.
  - now rewrite Z.eqb_refl.
  - specialize (Hlt (k', v') (or_introl eq_refl)) as Hk. cbn in Hk.
    destruct (k =? k') eqn:E; [apply Z.eqb_eq in E; lia|].
    f_equal. apply IH. intros e Hin. apply Hlt. now right.
Qed.

Lemma size_erase {V : Type} (k : Z) (m : StdMap.t V) :
  StdMap.size (StdMap.erase k m) = StdMap.size m \/
  S (StdMap.size (StdMap.erase k m)) = StdMap.size m.
Proof.
  unfold StdMap.size. induction m as [|[k' v'] r IH]; cbn; [now left|].
  destruct (k =? k'); cbn; [now right|].
  destruct IH as [IH|IH]; rewrite IH; auto.
Qed.

Lemma find_erase_other {V : Type} (k k' : Z) (m : StdMap.t V) :
  k <> k' -> StdMap.find k (StdMap.erase k' m) = StdMap.find k m.
Proof.
  intros Hne. induction m as [|[k1 v1] r IH]; cbn; [reflexivity|].
  destruct (k' =? k1) eqn:E; cbn.
  - apply Z.eqb_eq in E. subst k1.
    destruct (k =? k') eqn:E'; [apply Z.eqb_eq in E'; contradiction | reflexivity].
  - destruct (k =? k1); auto.
Qed.

(** The test of [removeJointByIDs], read on the two node indices of the
    joint. *)
Lemma connects_spec (id1 id2 : Z) (j : SimJoint) :
  connects id1 id2 j = true <->
  (nodeIndex1 (getSJoint j) = id1 /\ nodeIndex2 (getSJoint j) = id2) \/
  (nodeIndex1 (getSJoint j) = id2 /\ nodeIndex2 (getSJoint j) = id1).
Proof.
  unfold connects, getNodeIndex1, getNodeIndex2.
  rewrite orb_true_iff, !andb_true_iff, !Z.eqb_eq. reflexivity.
Qed.

Lemma connects_refused (id1 id2 : Z) (j : SimJoint) :
  ~ ((nodeIndex1 (getSJoint j) = id1 /\ nodeIndex2 (getSJoint j) = id2) \/
     (nodeIndex1 (getSJoint j) = id2 /\ nodeIndex2 (getSJoint j) = id1)) ->
  connects id1 id2 j = false.
Proof.
  intros Hno. destruct (connects id1 id2 j) eqn:E; [|reflexivity].
  apply connects_spec in E. contradiction.
Qed.

Lemma removeJointByIDs_first_connecting (id1 id2 : Z) (m : Memory)
    (Hwf : StdMap.wf (simJoints m) = true) :
  exists m' tr,
    removeJointByIDs id1 id2 m = Ret tt m' tr /\
    simJointsReload m' = simJointsReload m /\
    next_joint_id m' = next_joint_id m /\
    ((forall k j, In (k, j) (simJoints m) -> connects id1 id2 j = false) ->
     m' = m) /\
    (forall l1 k j l2,
       simJoints m = l1 ++ (k, j) :: l2 ->
       (forall e, In e l1 -> connects id1 id2 (snd e) = false) ->
       connects id1 id2 j = true ->
       simJoints m' = l1 ++ l2) /\
    (StdMap.size (simJoints m') = StdMap.size (simJoints m) \/
     S (StdMap.size (simJoints m')) = StdMap.size (simJoints m)).
Proof.
  rewrite removeJointByIDs_result.
  destruct (first_connecting id1 id2 (simJoints m)) as [k0|] eqn:E.
  - eexists; eexists. split; [reflexivity|]. cbn.
    split; [reflexivity|]. split; [reflexivity|]. split; [|split].
    + intros Hnone. now rewrite (first_connecting_none _ _ _ Hnone) in E.
    + intros l1 k j l2 Hsplit Hl1 Hj.
      rewrite Hsplit in E, Hwf |- *.
      rewrite (first_connecting_split id1 id2 l1 l2 k j Hl1 Hj) in E.
      injection E as <-. now apply erase_split.
    + apply size_erase.
  - eexists; eexists. split; [reflexivity|].
    split; [reflexivity|]. split; [reflexivity|]. split; [reflexivity|].
    split; [|now left].
    intros l1 k j l2 Hsplit Hl1 Hj. rewrite Hsplit in E.
    now rewrite (first_connecting_split id1 id2 l1 l2 k j Hl1 Hj) in E.
Qed.

(** C7: [removeJointByIDs] takes out of the registry the first joint, in
    the order of the map, whose two node indices are the pair given:
    [nodeIndex1] is [id1] and [nodeIndex2] is [id2], or [nodeIndex1] is
    [id2] and [nodeIndex2] is [id1]. No other joint goes, so that at most
    one joint goes; when no joint has the pair as its node indices the
    memory is as before. The templates and the counter are never
    touched. *)
Theorem removeJointByIDs_removes_first_match (id1 id2 : Z) (m : Memory)
    (Hwf : StdMap.wf (simJoints m) = true) :
  exists m' tr,
    removeJointByIDs id1 id2 m = Ret tt m' tr /\
    simJointsReload m' = simJointsReload m /\
    next_joint_id m' = next_joint_id m /\
    ((forall k j, In (k, j) (simJoints m) ->
        ~ ((nodeIndex1 (getSJoint j) = id1 /\ nodeIndex2 (getSJoint j) = id2) \/
           (nodeIndex1 (getSJoint j) = id2 /\ nodeIndex2 (getSJoint j) = id1))) ->
     m' = m) /\
    (forall l1 k j l2,
       simJoints m = l1 ++ (k, j) :: l2 ->
       (forall k' j', In (k', j') l1 ->
          ~ ((nodeIndex1 (getSJoint j') = id1 /\ nodeIndex2 (getSJoint j') = id2) \/
             (nodeIndex1 (getSJoint j') = id2 /\ nodeIndex2 (getSJoint j') = id1))) ->
       (nodeIndex1 (getSJoint j) = id1 /\ nodeIndex2 (getSJoint j) = id2) \/
       (nodeIndex1 (getSJoint j) = id2 /\ nodeIndex2 (getSJoint j) = id1) ->
       simJoints m' = l1 ++ l2 /\
       StdMap.find k (simJoints m') = None /\
       (forall k', k' <> k ->
          StdMap.find k' (simJoints m') = StdMap.find k' (simJoints m))) /\
    (StdMap.size (simJoints m') = StdMap.size (simJoints m) \/
     S (StdMap.size (simJoints m')) = StdMap.size (simJoints m)).
Proof.
  destruct (removeJointByIDs_first_connecting id1 id2 m Hwf)
    as (m' & tr & Hrun & Htpl & Hnext & Hnone & Hfirst & Hsize).
  exists m', tr. split; [exact Hrun|]. split; [exact Htpl|].
  split; [exact Hnext|]. split; [|split; [|exact Hsize]].
  - intros Hno. apply Hnone. intros k j Hin.
    apply connects_refused. exact (Hno k j Hin).
  - intros l1 k j l2 Hsplit Hl1 Hj.
    assert (Hm' : simJoints m' = l1 ++ l2).
    { apply (Hfirst l1 k j l2 Hsplit).
      - intros [k' j'] Hin. apply connects_refused. exact (Hl1 k' j' Hin).
      - now apply connects_spec. }
    split; [exact Hm'|].
    assert (Her : simJoints m' = StdMap.erase k (simJoints m)).
    { rewrite Hm', Hsplit. symmetry. apply erase_split. now rewrite <- Hsplit. }
    rewrite Her. split.
    + now apply find_erase_same.
    + intros k' Hk'. now apply find_erase_other.
Qed.

(** Asked for the pair (0, 3), the call passes the weld between the nodes
    4 and 0 and takes the hinge under the key 2, whose node indices are 3
    and 0 in this order; the hinge under the key 3 stays. *)
Lemma removeJointByIDs_removes_first_match_witness :
  exists m' tr,
    removeJointByIDs 0 3 three_joints = Ret tt m' tr /\
    simJoints m' =
      [(1, mkSimJoint weld_4_0 None None);
       (3, mkSimJoint (set_index hinge_3_0 3) None None)] /\
    StdMap.find 2 (simJoints m') = None.
Proof.
  destruct (removeJointByIDs_removes_first_match 0 3 three_joints eq_refl)
    as (m' & tr & Hrun & _ & _ & _ & Hfirst & _).
  exists m', tr. split; [exact Hrun|].
  destruct (Hfirst [(1, mkSimJoint weld_4_0 None None)] 2
              (mkSimJoint (set_index hinge_3_0 2) None None)
              [(3, mkSimJoint (set_index hinge_3_0 3) None None)] eq_refl)
    as (Hm' & Hgone & _).
  - intros k' j' [[= <- <-]|[]]. cbn. lia.
  - right. split; reflexivity.
  - split; [exact Hm' | exact Hgone].
Defined.

(** Of the two hinges between node 3 and the world only the first goes. *)
Example removeJointByIDs_three_joints :
  List.map fst (simJoints (memory_of (removeJointByIDs 0 3 three_joints))) = [1; 3].
Proof. reflexivity. Qed.

(** ** Rescaling the templates *)

Lemma find_map_values {V : Type} (f : V -> V) (k : Z) (m : StdMap.t V) :
  StdMap.find k (StdMap.map_values f m) = option_map f (StdMap.find k m).
Proof.
  induction m as [|[k' v'] r IH]; cbn; [reflexivity|].
  destruct (k =? k'); [reflexivity | exact IH].
Qed.

(** C8: [scaleReloadJoints] multiplies the anchor of every stored template,
    component by component, by the three factors, and changes no other
    field of a template (the axes among them), no key of the template map,
    no joint of the registry and not the counter. With the factors
    (2, 1, 1) the first component of every anchor is the old one times 2. *)
Theorem scaleReloadJoints_scales_anchors (x y z : sReal) (m : Memory) :
  exists m',
    scaleReloadJoints x y z m = Ret tt m' [EvLock; EvUnlock] /\
    simJointsReload m'
      = StdMap.map_values (scale_anchor x y z) (simJointsReload m) /\
    StdMap.keys (simJointsReload m') = StdMap.keys (simJointsReload m) /\
    (forall k,
       StdMap.find k (simJointsReload m')
         = option_map (scale_anchor x y z) (StdMap.find k (simJointsReload m))) /\
    (forall d,
       anchor (scale_anchor x y z d)
         = mkVector (vx (anchor d) * x)%float (vy (anchor d) * y)%float
                    (vz (anchor d) * z)%float /\
       axis1 (scale_anchor x y z d) = axis1 d /\
       axis2 (scale_anchor x y z d) = axis2 d /\
       scale_anchor x y z d = set_anchor d (anchor (scale_anchor x y z d))) /\
    (forall d,
       vx (anchor (scale_anchor 2%float 1%float 1%float d)) = (vx (anchor d) * 2)%float) /\
    simJoints m' = simJoints m /\
    next_joint_id m' = next_joint_id m /\
    callerData m' = callerData m.
Proof.
  rewrite scaleReloadJoints_result. eexists. split; [reflexivity|]. cbn.
  split; [reflexivity|].
  split; [apply keys_map_values|].
  split; [intros k; apply find_map_values|].
  repeat split; reflexivity.
Qed.

(** The registry and the templates after one joint was added, rescaled by
    (2, 1, 1) after the template's anchor was set to (1, 2, 3). *)
Example scaleReloadJoints_2_1_1 :
  let m := memory_of
             ((setReloadAnchor 7 v123 ;; scaleReloadJoints 2%float 1%float 1%float)
                one_joint) in
  List.map (fun kd => anchor (snd kd)) (simJointsReload m)
    = [mkVector 2%float 2%float 3%float] /\
  List.map (fun kj => anchor (getSJoint (snd kj))) (simJoints m) = [v123].
Proof. split; reflexivity. Qed.

(** ** The counter along a run *)

Lemma created_app (t1 t2 : list Event) : created (t1 ++ t2) = created t1 ++ created t2.
Proof.
  induction t1 as [|e r IH]; cbn; [reflexivity|].
  destruct e; cbn; now rewrite ?IH.
Qed.

Lemma created_store_trace (reload : bool) : created (store_trace reload) = [].
Proof. destruct reload; reflexivity. Qed.

Lemma keys_assign_bound {V : Type} (n k : Z) (v : V) (m : StdMap.t V) :
  k < n ->
  forallb (fun i => i <? n) (StdMap.keys m) = true ->
  forallb (fun i => i <? n) (StdMap.keys (StdMap.assign k v m)) = true.
Proof.
  intros Hk. apply Z.ltb_lt in Hk.
  induction m as [|[k' v'] r IH]; cbn; intros H.
  - now rewrite Hk.
  - apply andb_true_iff in H as [H1 H2].
    destruct (k <? k'); cbn; [now rewrite Hk, H1, H2|].
    destruct (k =? k'); cbn; [now rewrite Hk, H2|].
    rewrite H1. now apply IH.
Qed.

Lemma keys_erase_bound {V : Type} (n k : Z) (m : StdMap.t V) :
  forallb (fun i => i <? n) (StdMap.keys m) = true ->
  forallb (fun i => i <? n) (StdMap.keys (StdMap.erase k m)) = true.
Proof.
  induction m as [|[k' v'] r IH]; cbn; intros H; [reflexivity|].
  apply andb_true_iff in H as [H1 H2].
  destruct (k =? k'); cbn; [exact H2|]. rewrite H1. now apply IH.
Qed.

Lemma keys_bound_weaken (n n' : Z) (ks : list Z) :
  n <= n' ->
  forallb (fun i => i <? n) ks = true -> forallb (fun i => i <? n') ks = true.
Proof.
  intros Hle. induction ks as [|k r IH]; cbn; intros H; [reflexivity|].
  apply andb_true_iff in H as [H1 H2]. apply Z.ltb_lt in H1.
  apply andb_true_iff; split; [apply Z.ltb_lt; lia | now apply IH].
Qed.

Lemma ulong_succ_small (n : Z) : 0 <= n -> n + 1 <= ULONG_MAX -> ulong_succ n = n + 1.
Proof.
  unfold ulong_succ, ULONG_MAX. intros H0 H1. apply Z.mod_small. lia.
Qed.

Lemma registry_ok_frame (m m' : Memory) :
  simJoints m' = simJoints m -> next_joint_id m' = next_joint_id m ->
  registry_ok m -> registry_ok m'.
Proof. unfold registry_ok. intros -> ->. tauto. Qed.

(** What a call of [addJoint] does to the counter: nothing, or one step. *)
Lemma addJoint_step (w : Extern) (p : JointPtr) (reload : bool) (m : Memory) :
  call_shape p reload ->
  registry_ok m ->
  next_joint_id m
    + Z.of_nat (List.length (created (trace_of (addJoint w p reload m)))) <= ULONG_MAX ->
  registry_ok (memory_of (addJoint w p reload m)) /\
  ((created (trace_of (addJoint w p reload m)) = [] /\
    next_joint_id (memory_of (addJoint w p reload m)) = next_joint_id m) \/
   (created (trace_of (addJoint w p reload m)) = [next_joint_id m] /\
    next_joint_id (memory_of (addJoint w p reload m)) = next_joint_id m + 1)).
Proof.
  intros Hshape Hok.
  destruct (pointee p m) as [d|] eqn:Hd.
  2:{ destruct Hshape as [->| ->]; [discriminate|].
      rewrite addJoint_dangling by assumption. cbn. auto. }
  rewrite (addJoint_cases w p reload m d Hshape Hd). cbn zeta.
  destruct (store_template_frame reload d m) as (Hj & Hn & _).
  destruct (axis_rejected w d).
  { cbn. rewrite created_app, created_store_trace. cbn. intros _.
    split; [apply (registry_ok_frame m); assumption | left; auto]. }
  destruct (anchor_nodes_found w d).
  2:{ cbn. rewrite created_store_trace. intros _.
      split; [apply (registry_ok_frame m); assumption | left; auto]. }
  destruct (backend_accepts w d).
  2:{ cbn. rewrite created_app, created_store_trace. cbn. intros _.
      unfold refused_memory.
      destruct (poke_frame p (fun _ => resolve w d) (store_template reload d m))
        as (Hj' & Hn').
      split; [apply (registry_ok_frame m); congruence | left; split; congruence]. }
  cbn [trace_of memory_of]. rewrite created_app, created_store_trace. cbn.
  intros Hroom. destruct Hok as (H1 & H2 & H3).
  destruct (poke_frame p
              (fun _ => set_index (resolve w d)
                          (next_joint_id (store_template reload d m)))
              (store_template reload d m)) as (Hj' & Hn').
  rewrite Hn', Hn. rewrite ulong_succ_small by lia.
  split; [|right; auto].
  unfold registry_ok; cbn. rewrite Hj', Hn', Hj, Hn.
  rewrite ulong_succ_small by lia.
  split; [lia|]. split.
  - apply above_assign; [lia | assumption].
  - apply keys_assign_bound; [lia|].
    apply (keys_bound_weaken (next_joint_id m)); [lia | assumption].
Qed.

Lemma bind_get {A : Type} (k : Memory -> M A) (m : Memory) :
  (x <- get ;; k x) m = k m m.
Proof. unfold bind, get. destruct (k m m); reflexivity. Qed.

Lemma reload_loop_step (w : Extern) (ks : list Z) (m : Memory) :
  registry_ok m ->
  next_joint_id m
    + Z.of_nat (List.length (created (trace_of (reload_loop w ks m)))) <= ULONG_MAX ->
  registry_ok (memory_of (reload_loop w ks m)) /\
  counted_from (next_joint_id m)
    (List.map ObsCreated (created (trace_of (reload_loop w ks m)))) = true /\
  next_joint_id (memory_of (reload_loop w ks m))
    = next_joint_id m
      + Z.of_nat (List.length (created (trace_of (reload_loop w ks m)))).
Proof.
  revert m. induction ks as [|k r IH]; intros m Hok.
  { cbn. intros _. split; [exact Hok | split; [reflexivity | lia]]. }
  cbn [reload_loop]. rewrite trace_of_bind, memory_of_bind.
  pose proof (addJoint_step w (PReload k) true m (or_intror eq_refl) Hok) as Hs.
  destruct (addJoint w (PReload k) true m) as [v m1 tr1|c m1 tr1];
    cbn [trace_of memory_of] in *.
  - rewrite created_app, length_app, Nat2Z.inj_add. intros Hroom.
    destruct Hs as (Hok1 & Hcr); [lia|].
    destruct Hcr as [(Hcr & Hn1)|(Hcr & Hn1)]; rewrite Hcr in *; cbn [List.length] in *.
    + destruct (IH m1 Hok1) as (Ha & Hb & Hc); [lia|]. rewrite Hn1 in *.
      cbn [app]. split; [exact Ha | split; [exact Hb | lia]].
    + destruct (IH m1 Hok1) as (Ha & Hb & Hc); [lia|]. rewrite Hn1 in *.
      cbn [app List.map counted_from]. rewrite Z.eqb_refl, Hb.
      split; [exact Ha | split; [reflexivity | lia]].
  - intros Hroom. destruct Hs as (Hok1 & Hcr); [exact Hroom|].
    destruct Hcr as [(Hcr & Hn1)|(Hcr & Hn1)]; rewrite Hcr in *; cbn.
    + split; [exact Hok1 | split; [reflexivity | lia]].
    + rewrite Z.eqb_refl. split; [exact Hok1 | split; [reflexivity | lia]].
Qed.

Lemma created_motors_calls (ks : list Z) (rest : list Event) :
  created (List.map EvRemoveJointFromMotors ks ++ rest) = created rest.
Proof. induction ks as [|k r IH]; cbn; auto. Qed.

(** What one call does to the invariant, to the ids and to the counter. *)
Lemma exec_step (c : Call) (m : Memory) :
  registry_ok m ->
  next_joint_id m
    + Z.of_nat (List.length (created (trace_of (exec c m)))) <= ULONG_MAX ->
  registry_ok (memory_of (exec c m)) /\
  counted_from (next_joint_id m)
    (List.map ObsCreated (created (trace_of (exec c m)))) = true /\
  (if is_clearAll c
   then created (trace_of (exec c m)) = [] /\ next_joint_id (memory_of (exec c m)) = 1
   else next_joint_id (memory_of (exec c m))
        = next_joint_id m
          + Z.of_nat (List.length (created (trace_of (exec c m))))).
Proof.
  intros Hok.
  assert (Herase : forall k,
            registry_ok (with_simJoints (StdMap.erase k) m)).
  { intros k. destruct Hok as (H1 & H2 & H3). unfold registry_ok. cbn.
    split; [exact H1|]. split; [now apply above_erase | now apply keys_erase_bound]. }
  assert (Hwrite : forall k f,
            registry_ok (with_simJoints (StdMap.write k f) m)).
  { intros k f. destruct Hok as (H1 & H2 & H3). unfold registry_ok.
    cbn [simJoints next_joint_id with_simJoints].
    rewrite above_write, keys_write. auto. }
  assert (Hsweep : forall f,
            registry_ok (with_simJoints (StdMap.map_values f) m)).
  { intros f. destruct Hok as (H1 & H2 & H3). unfold registry_ok.
    cbn [simJoints next_joint_id with_simJoints].
    rewrite above_map_values, keys_map_values. auto. }
  destruct c; cbn [exec is_clearAll].
  - (* addJoint *)
    set (m0 := with_callerData (fun _ => d) m).
    assert (Hok0 : registry_ok m0) by (apply (registry_ok_frame m); auto).
    pose proof (addJoint_step w PCaller reload m0 (or_introl eq_refl) Hok0) as Hs.
    assert (Hex : trace_of ((modify (with_callerData (fun _ => d)) ;;
                             addJoint w PCaller reload ;; ret tt) m)
                  = trace_of (addJoint w PCaller reload m0) /\
                  memory_of ((modify (with_callerData (fun _ => d)) ;;
                              addJoint w PCaller reload ;; ret tt) m)
                  = memory_of (addJoint w PCaller reload m0)).
    { unfold bind, modify, ret. fold m0.
      destruct (addJoint w PCaller reload m0); cbn; rewrite ?app_nil_r; auto. }
    destruct Hex as (-> & ->). change (next_joint_id m) with (next_joint_id m0).
    intros Hroom. destruct (Hs Hroom) as (Hok1 & [(Hcr & Hn1)|(Hcr & Hn1)]);
      rewrite Hcr, Hn1; cbn; rewrite ?Z.eqb_refl;
      (split; [exact Hok1 | split; [reflexivity | lia]]).
  - (* editJoint *)
    rewrite editJoint_result. cbn. intros _.
    destruct Hok as (H1 & H2 & H3). unfold registry_ok.
    cbn [simJoints next_joint_id with_simJoints].
    rewrite above_write, keys_write. repeat split; auto; lia.
  - (* removeJoint *)
    rewrite removeJoint_result. cbn. intros _.
    split; [apply Herase | split; [reflexivity | lia]].
  - (* removeJointByIDs *)
    rewrite removeJointByIDs_result.
    destruct (first_connecting id1 id2 (simJoints m)); cbn; intros _;
      (split; [first [apply Herase | exact Hok] | split; [reflexivity | lia]]).
  - (* reloadJoints *)
    unfold reloadJoints. rewrite bind_get. apply reload_loop_step, Hok.
  - (* clearAllJoints *)
    rewrite clearAllJoints_result. cbn [trace_of memory_of].
    unfold clearAllJoints_trace. cbn [created].
    rewrite created_motors_calls. cbn. intros _.
    split; [|split; [reflexivity | split; reflexivity]].
    unfold registry_ok. cbn. split; [lia | split; reflexivity].
  - unfold setReloadJointOffset. rewrite on_reload_entry_result. cbn. intros _.
    split; [exact Hok | split; [reflexivity | lia]].
  - unfold setReloadJointAxis. rewrite on_reload_entry_result. cbn. intros _.
    split; [exact Hok | split; [reflexivity | lia]].
  - unfold setReloadAnchor. rewrite on_reload_entry_result. cbn. intros _.
    split; [exact Hok | split; [reflexivity | lia]].
  - rewrite scaleReloadJoints_result. cbn. intros _.
    split; [exact Hok | split; [reflexivity | lia]].
  - rewrite call_on_joint_result. cbn. intros _.
    split; [apply Hwrite | split; [reflexivity | lia]].
  - rewrite setOfflineValue_result. cbn. intros _.
    split; [apply Hwrite | split; [reflexivity | lia]].
  - cbn. intros _. split; [apply Hsweep | split; [reflexivity | lia]].
  - cbn. intros _. split; [apply Hsweep | split; [reflexivity | lia]].
  - cbn. intros _. split; [exact Hok | split; [reflexivity | lia]].
Qed.

Lemma creations_app (l1 l2 : list Obs) :
  creations (l1 ++ l2) = creations l1 + creations l2.
Proof.
  unfold creations. rewrite filter_app, length_app. lia.
Qed.

Lemma creations_created (ids : list Z) :
  creations (List.map ObsCreated ids) = Z.of_nat (List.length ids).
Proof.
  unfold creations. f_equal.
  induction ids as [|i r IH]; cbn; [reflexivity | now rewrite IH].
Qed.

Lemma creations_observe (c : Call) (tr : list Event) :
  creations (observe c tr) = Z.of_nat (List.length (created tr)).
Proof.
  unfold observe. rewrite creations_app, creations_created.
  destruct c; cbn; lia.
Qed.

Lemma counted_from_app (n : Z) (l1 l2 : list Obs) :
  counted_from n (l1 ++ l2)
    = counted_from n l1 && counted_from (counter_after n l1) l2.
Proof.
  revert n. induction l1 as [|o r IH]; intros n; cbn; [reflexivity|].
  destruct o; [rewrite IH; apply andb_assoc | apply IH].
Qed.

Lemma counter_after_created (n : Z) (ids : list Z) :
  counter_after n (List.map ObsCreated ids) = n + Z.of_nat (List.length ids).
Proof.
  revert n. induction ids as [|i r IH]; intros n; cbn [List.map counter_after List.length].
  - lia.
  - rewrite IH. lia.
Qed.

Lemma counter_after_all_created (n : Z) (l : list Obs) :
  forallb is_created l = true -> n <= counter_after n l.
Proof.
  revert n. induction l as [|o r IH]; intros n; cbn; [lia|].
  destruct o; cbn; [|discriminate]. intros H. specialize (IH (n + 1) H). lia.
Qed.

Lemma counter_after_all_cleared (l : list Obs) :
  forallb is_cleared l = true -> counter_after 1 l = 1.
Proof.
  induction l as [|o r IH]; cbn; [reflexivity|].
  destruct o; cbn; [discriminate | exact IH].
Qed.

(** The invariant and the counting of ids hold along every run in which
    the counter does not wrap. *)
Lemma run_counted (cs : list Call) (m : Memory) :
  registry_ok m ->
  next_joint_id m + creations (fst (run cs m)) <= ULONG_MAX ->
  counted_from (next_joint_id m) (fst (run cs m)) = true /\
  registry_ok (snd (run cs m)).
Proof.
  revert m. induction cs as [|c r IH]; intros m Hok; [cbn; auto|].
  cbn [run]. pose proof (exec_step c m Hok) as Hs.
  destruct (exec c m) as [[] m1 tr|c0 m1 tr]; cbn [trace_of memory_of] in Hs.
  - specialize (IH m1). destruct (run r m1) as [os mf]. cbn [fst snd] in *.
    rewrite creations_app, creations_observe. intros Hroom.
    assert (Hcr : 0 <= creations os)
      by (unfold creations; lia).
    destruct Hs as (Hok1 & Hcnt & Hnext); [lia|].
    unfold observe. rewrite <- app_assoc, counted_from_app, Hcnt, counter_after_created.
    cbn [andb].
    destruct c; cbn [is_clearAll app] in *;
      try (rewrite Hnext in IH; apply IH; [exact Hok1 | lia]).
    destruct Hnext as (Hnone & Hone). rewrite Hnone in *. cbn [counted_from].
    rewrite Hone in IH. apply IH; [exact Hok1|]. cbn in Hroom.
    destruct Hok as (Hpos & _). lia.
  - cbn [fst snd]. rewrite creations_created. intros Hroom.
    destruct Hs as (Hok1 & Hcnt & _); [exact Hroom|]. auto.
Qed.

Lemma registry_ok_new (c0 : JointData) : registry_ok (JointManager c0).
Proof. unfold registry_ok. cbn. split; [lia | split; reflexivity]. Qed.

Example sample_calls_log :
  fst (run sample_calls fresh)
    = [ObsCreated 1; ObsCreated 2; ObsCreated 3; ObsCleared;
       ObsCreated 1; ObsCreated 2; ObsCleared; ObsCreated 1; ObsCreated 2].
Proof. reflexivity. Qed.

(** C2: in every run of calls on a new manager that creates fewer than
    2^64 - 1 joints (so that the 64-bit counter does not wrap), the ids of
    the joints created are those of a counter that starts at 1, moves by
    one with every creation and by nothing else, and is set back to 1 by
    [clearAllJoints]. Hence an id is above every id handed out before it
    since the last [clearAllJoints], and the first id after a
    [clearAllJoints], whatever its flag, is 1. A call of [addJoint] that
    returns has either created one joint, whose id is the value returned
    and the old counter, or none, with the counter unchanged. *)
Theorem ids_follow_the_counter (cs : list Call) (c0 : JointData)
    (Hroom : creations (fst (run cs (JointManager c0))) < ULONG_MAX) :
  counted_from 1 (fst (run cs (JointManager c0))) = true /\
  (forall l1 a l2 b l3,
     fst (run cs (JointManager c0)) = l1 ++ ObsCreated a :: l2 ++ ObsCreated b :: l3 ->
     forallb is_created l2 = true ->
     a < b) /\
  (forall l1 l2 b l3,
     fst (run cs (JointManager c0)) = l1 ++ ObsCleared :: l2 ++ ObsCreated b :: l3 ->
     forallb is_cleared l2 = true ->
     b = 1) /\
  (forall l2 b l3,
     fst (run cs (JointManager c0)) = l2 ++ ObsCreated b :: l3 ->
     forallb is_cleared l2 = true ->
     b = 1) /\
  (forall clear_all m,
     next_joint_id (memory_of (clearAllJoints clear_all m)) = 1 /\
     created (trace_of (clearAllJoints clear_all m)) = []) /\
  (forall w p reload m d v m' tr,
     call_shape p reload ->
     pointee p m = Some d ->
     addJoint w p reload m = Ret v m' tr ->
     (created tr = [v] /\ v = next_joint_id m /\
      next_joint_id m' = ulong_succ (next_joint_id m) /\
      backend_accepts w d = true) \/
     (created tr = [] /\ v = 0 /\ next_joint_id m' = next_joint_id m)).
Proof.
  assert (Hc : counted_from 1 (fst (run cs (JointManager c0))) = true).
  { apply (run_counted cs (JointManager c0) (registry_ok_new c0)).
    change (next_joint_id (JointManager c0)) with 1. lia. }
  split; [exact Hc|].
  split.
  { intros l1 a l2 b l3 Hlog Hl2. rewrite Hlog in Hc.
    rewrite counted_from_app in Hc. apply andb_true_iff in Hc as [_ Hc].
    cbn [counted_from] in Hc. apply andb_true_iff in Hc as [Ha Hc].
    rewrite counted_from_app in Hc. apply andb_true_iff in Hc as [_ Hc].
    cbn [counted_from] in Hc. apply andb_true_iff in Hc as [Hb _].
    apply Z.eqb_eq in Ha, Hb. subst a.
    pose proof (counter_after_all_created (counter_after 1 l1 + 1) l2 Hl2). lia. }
  split.
  { intros l1 l2 b l3 Hlog Hl2. rewrite Hlog in Hc.
    rewrite counted_from_app in Hc. apply andb_true_iff in Hc as [_ Hc].
    cbn [counted_from] in Hc.
    rewrite counted_from_app in Hc. apply andb_true_iff in Hc as [_ Hc].
    cbn [counted_from] in Hc. apply andb_true_iff in Hc as [Hb _].
    apply Z.eqb_eq in Hb. now rewrite counter_after_all_cleared in Hb. }
  split.
  { intros l2 b l3 Hlog Hl2. rewrite Hlog in Hc.
    rewrite counted_from_app in Hc. apply andb_true_iff in Hc as [_ Hc].
    cbn [counted_from] in Hc. apply andb_true_iff in Hc as [Hb _].
    apply Z.eqb_eq in Hb. now rewrite counter_after_all_cleared in Hb. }
  split.
  { intros b m. rewrite clearAllJoints_result. cbn [memory_of trace_of].
    split; [reflexivity|]. unfold clearAllJoints_trace. cbn [created].
    now rewrite created_motors_calls. }
  intros w p reload m d v m' tr Hshape Hd.
  rewrite (addJoint_cases w p reload m d Hshape Hd). cbn zeta.
  destruct (store_template_frame reload d m) as (Hj & Hn & _).
  destruct (axis_rejected w d).
  { intros [= <- <- <-]. right. rewrite created_app, created_store_trace. auto. }
  destruct (anchor_nodes_found w d); [|discriminate].
  destruct (backend_accepts w d).
  - intros [= <- <- <-]. left. rewrite created_app, created_store_trace.
    unfold created_memory. cbn.
    destruct (poke_frame p
                (fun _ => set_index (resolve w d)
                            (next_joint_id (store_template reload d m)))
                (store_template reload d m)) as (_ & Hn').
    rewrite Hn', Hn. auto.
  - intros [= <- <- <-]. right. rewrite created_app, created_store_trace.
    unfold refused_memory.
    destruct (poke_frame p (fun _ => resolve w d) (store_template reload d m))
      as (_ & Hn').
    rewrite Hn', Hn. auto.
Qed.

Lemma ids_follow_the_counter_witness :
  counted_from 1 (fst (run sample_calls (JointManager hinge_3_0))) = true.
Proof.
  refine (proj1 (ids_follow_the_counter sample_calls hinge_3_0 _)).
  vm_compute. reflexivity.
Defined.

(** ** The value returned by [addJoint] *)

(** C9: after every run of calls on a new manager that creates fewer than
    2^64 - 1 joints, no joint of the registry is stored under 0, and a call
    of [addJoint] then ends in one of three ways. It creates the joint and
    returns its id, which is the counter and at least 1; or it fails,
    because the axis was rejected or because the backend refused, and
    returns 0 with the registry as it was, so that the value returned does
    not tell the two causes apart; or it stops on a failed assert. *)
Theorem addJoint_return_value (cs : list Call) (c0 : JointData)
    (Hroom : creations (fst (run cs (JointManager c0))) < ULONG_MAX) :
  StdMap.find 0 (simJoints (snd (run cs (JointManager c0)))) = None /\
  (forall k, In k (StdMap.keys (simJoints (snd (run cs (JointManager c0))))) ->
             1 <= k) /\
  (forall w p reload d,
     call_shape p reload ->
     pointee p (snd (run cs (JointManager c0))) = Some d ->
     match addJoint w p reload (snd (run cs (JointManager c0))) with
     | Ret v m' tr =>
         (In (EvCreateJoint true) tr /\
          v = next_joint_id (snd (run cs (JointManager c0))) /\
          1 <= v /\
          StdMap.find v (simJoints m') = Some (new_joint w d v))
         \/
         (~ In (EvCreateJoint true) tr /\
          v = 0 /\
          simJoints m' = simJoints (snd (run cs (JointManager c0))) /\
          (axis_rejected w d = true \/ backend_accepts w d = false))
     | Halt c _ _ => c = AssertionFailed /\ anchor_nodes_found w d = false
     end /\
     (axis_rejected w d = true ->
      value_of (addJoint w p reload (snd (run cs (JointManager c0)))) = Some 0) /\
     (axis_rejected w d = false ->
      anchor_nodes_found w d = true ->
      backend_accepts w d = false ->
      value_of (addJoint w p reload (snd (run cs (JointManager c0)))) = Some 0)).
Proof.
  destruct (run_counted cs (JointManager c0) (registry_ok_new c0)) as (_ & Hok).
  { change (next_joint_id (JointManager c0)) with 1. lia. }
  set (m := snd (run cs (JointManager c0))) in *.
  destruct Hok as (Hpos & Habove & _).
  split; [apply (above_find_none 0); [lia | exact Habove]|].
  split.
  { intros k Hin. pose proof (above_keys 0 _ k Habove Hin). lia. }
  intros w p reload d Hshape Hd.
  rewrite (addJoint_cases w p reload m d Hshape Hd). cbn zeta.
  destruct (store_template_frame reload d m) as (Hj & Hn & _).
  destruct (axis_rejected w d).
  { split; [|split; [reflexivity | discriminate]].
    right. split; [|auto].
    intros Hin. apply in_app_or in Hin as [Hin|[Hin|[]]]; [|discriminate].
    apply in_store_trace in Hin as [Hin|Hin]; discriminate. }
  destruct (anchor_nodes_found w d).
  2:{ split; [auto | split; discriminate]. }
  destruct (backend_accepts w d).
  - split; [|split; discriminate].
    left. split; [apply in_or_app; right; left; reflexivity|].
    split; [reflexivity|]. split; [exact Hpos|].
    unfold created_memory. cbn. rewrite Hn. apply find_assign_same.
  - split; [|split; reflexivity].
    right. split.
    { intros Hin. apply in_app_or in Hin as [Hin|Hin].
      - apply in_store_trace in Hin as [Hin|Hin]; discriminate.
      - cbn in Hin. repeat (destruct Hin as [Hin|Hin]; [discriminate|]).
        destruct Hin. }
    split; [reflexivity|]. split; [|auto].
    unfold refused_memory.
    destruct (poke_frame p (fun _ => resolve w d) (store_template reload d m))
      as (Hj' & _).
    congruence.
Qed.

Lemma addJoint_return_value_witness :
  StdMap.find 0 (simJoints (snd (run sample_calls (JointManager hinge_3_0)))) = None.
Proof.
  refine (proj1 (addJoint_return_value sample_calls hinge_3_0 _)).
  vm_compute. reflexivity.
Defined.

(** ** Replaying the templates *)

Lemma bind_ret_inv {A B : Type} (c : M A) (k : A -> M B) (m m' : Memory) (b : B)
    (tr : list Event) :
  bind c k m = Ret b m' tr ->
  exists a m1 tr1 tr2,
    c m = Ret a m1 tr1 /\ k a m1 = Ret b m' tr2 /\ tr = tr1 ++ tr2.
Proof.
  unfold bind. destruct (c m) as [a m1 tr1|? ? ?]; [|discriminate].
  destruct (k a m1) as [b' m2 tr2|? ? ?] eqn:E; [|discriminate].
  intros [= <- <- <-]. exists a, m1, tr1, tr2. auto.
Qed.

Lemma replayed_mono (w : Extern) (d d' : JointData) (ids ids' : list Z) :
  (forall i, In i ids -> In i ids') -> replayed w d d' ids -> replayed w d d' ids'.
Proof.
  intros Hsub [H|[H|(H1 & H2 & H3 & id & Hin & Heq)]]; [left; exact H | right; left; exact H|].
  right; right. repeat split; auto. exists id. auto.
Qed.

(** A replay writes the template it was handed and no other. *)
Lemma replay_template (w : Extern) (k : Z) (m m1 : Memory) (d : JointData) (v : Z)
    (tr : list Event) :
  StdMap.find k (simJointsReload m) = Some d ->
  addJoint w (PReload k) true m = Ret v m1 tr ->
  exists d',
    simJointsReload m1 = StdMap.write k (fun _ => d') (simJointsReload m) /\
    replayed w d d' (created tr).
Proof.
  intros Hd. rewrite (addJoint_cases w (PReload k) true m d (or_intror eq_refl) Hd).
  cbn zeta. unfold replayed.
  destruct (axis_rejected w d).
  { intros [= <- <- <-]. exists d. cbn. rewrite (write_id _ _ _ Hd). auto. }
  destruct (anchor_nodes_found w d); [|discriminate].
  destruct (backend_accepts w d); intros [= <- <- <-].
  - exists (set_index (resolve w d) (next_joint_id m)). cbn.
    split; [reflexivity|]. right; right. repeat split.
    exists (next_joint_id m). cbn. auto.
  - exists (resolve w d). cbn. split; [reflexivity|]. right; left. auto.
Qed.

Lemma replay_keys (w : Extern) (k : Z) (m : Memory) :
  StdMap.keys (simJointsReload (memory_of (addJoint w (PReload k) true m)))
    = StdMap.keys (simJointsReload m).
Proof.
  destruct (pointee (PReload k) m) as [d|] eqn:Hd.
  - rewrite (addJoint_cases w (PReload k) true m d (or_intror eq_refl) Hd). cbn zeta.
    destruct (axis_rejected w d); [reflexivity|].
    destruct (anchor_nodes_found w d); [|reflexivity].
    destruct (backend_accepts w d); cbn; apply keys_write.
  - now rewrite addJoint_dangling.
Qed.

Lemma reload_loop_keys (w : Extern) (ks : list Z) (m : Memory) :
  StdMap.keys (simJointsReload (memory_of (reload_loop w ks m)))
    = StdMap.keys (simJointsReload m).
Proof.
  revert m. induction ks as [|k r IH]; intros m; [reflexivity|].
  cbn [reload_loop]. rewrite memory_of_bind.
  pose proof (replay_keys w k m) as Hk.
  destruct (addJoint w (PReload k) true m) as [v m1 tr1|c m1 tr1];
    cbn [memory_of] in Hk; [|exact Hk].
  now rewrite IH.
Qed.

Lemma reload_loop_templates (w : Extern) (ks : list Z) (m m' : Memory)
    (tr : list Event) :
  NoDup ks ->
  reload_loop w ks m = Ret tt m' tr ->
  (forall k, ~ In k ks ->
     StdMap.find k (simJointsReload m') = StdMap.find k (simJointsReload m)) /\
  (forall k d, In k ks ->
     StdMap.find k (simJointsReload m) = Some d ->
     exists d',
       StdMap.find k (simJointsReload m') = Some d' /\ replayed w d d' (created tr)).
Proof.
  revert m tr. induction ks as [|k0 r IH]; intros m tr Hnd.
  { cbn. intros [= <- <-]. split; [reflexivity | intros k d []]. }
  cbn [reload_loop]. intros Hrun.
  apply bind_ret_inv in Hrun as (v & m1 & tr1 & tr2 & Hadd & Hrest & ->).
  inversion Hnd as [|? ? Hnotin Hnd']; subst.
  destruct (IH m1 tr2 Hnd' Hrest) as (Hout & Hin).
  destruct (StdMap.find k0 (simJointsReload m)) as [d0|] eqn:Hd0.
  2:{ rewrite addJoint_dangling in Hadd by exact Hd0. discriminate. }
  destruct (replay_template w k0 m m1 d0 v tr1 Hd0 Hadd) as (d0' & Hm1 & Hrep).
  split.
  - intros k Hk. rewrite Hout by (intros Hc; apply Hk; now right).
    rewrite Hm1. apply find_write_other. intros ->. apply Hk. now left.
  - intros k d [<-|Hk] Hd.
    + exists d0'. rewrite Hout by exact Hnotin.
      rewrite Hm1, find_write_eq, Hd0. rewrite Hd0 in Hd. injection Hd as <-.
      split; [reflexivity|].
      apply (replayed_mono w d0 d0' (created tr1)); [|exact Hrep].
      intros i Hi. rewrite created_app. apply in_or_app. now left.
    + assert (Hne : k <> k0) by (intros ->; contradiction).
      destruct (Hin k d Hk) as (d' & Hf & Hr).
      { rewrite Hm1. rewrite find_write_other by exact Hne. exact Hd. }
      exists d'. split; [exact Hf|].
      apply (replayed_mono w d d' (created tr2)); [|exact Hr].
      intros i Hi. rewrite created_app. apply in_or_app. now right.
Qed.

Lemma above_NoDup {V : Type} (lo : Z) (m : StdMap.t V) :
  StdMap.above lo m = true -> NoDup (StdMap.keys m).
Proof.
  revert lo. induction m as [|[k v] r IH]; cbn; intros lo H; [constructor|].
  apply andb_true_iff in H as [_ H]. constructor; [|apply (IH k H)].
  intros Hin. pose proof (above_keys k r k H Hin). lia.
Qed.

Lemma find_in_keys {V : Type} (k : Z) (m : StdMap.t V) (v : V) :
  StdMap.find k m = Some v -> In k (StdMap.keys m).
Proof.
  induction m as [|[k' v'] r IH]; cbn; [discriminate|].
  destruct (k =? k') eqn:E; [apply Z.eqb_eq in E; auto | auto].
Qed.

Lemma size_keys {V : Type} (m : StdMap.t V) :
  StdMap.size m = List.length (StdMap.keys m).
Proof. unfold StdMap.size, StdMap.keys. now rewrite length_map. Qed.

(** What lines 97-107 and 114 write into a descriptor, field by field. *)
Lemma resolve_anchored (w : Extern) (d : JointData) :
  anchor_nodes_found w d = true -> anchored_by_policy w d (resolve w d).
Proof.
  unfold anchored_by_policy, resolve, resolved_anchor, anchor_nodes_found.
  destruct (anchorPos d);
    destruct (getSimNode w (nodeIndex1 d)) as [n1|];
    destruct (getSimNode w (nodeIndex2 d)) as [n2|];
    cbn; intros H; try discriminate; eauto.
Qed.

Lemma resolve_same_fields (w : Extern) (d : JointData) :
  same_other_fields d (resolve w d) /\ index (resolve w d) = index d.
Proof.
  unfold same_other_fields, resolve.
  destruct (resolved_anchor d _ _); cbn; repeat split; reflexivity.
Qed.

Lemma set_index_anchored (w : Extern) (d d' : JointData) (i : Z) :
  anchored_by_policy w d d' -> anchored_by_policy w d (set_index d' i).
Proof. unfold anchored_by_policy. destruct (anchorPos d); cbn; exact (fun H => H). Qed.

Lemma set_index_same_fields (d d' : JointData) (i : Z) :
  same_other_fields d d' -> same_other_fields d (set_index d' i).
Proof. unfold same_other_fields. cbn. exact (fun H => H). Qed.

Lemma reloadJoints_templates (w : Extern) :
  (forall k m d,
     StdMap.find k (simJointsReload m) = Some d ->
     In (EvCreateJoint true) (trace_of (addJoint w (PReload k) true m)) ->
     exists m',
       addJoint w (PReload k) true m
         = Ret (next_joint_id m) m' (success_trace (next_joint_id m)) /\
       StdMap.find k (simJointsReload m')
         = Some (set_index (resolve w d) (next_joint_id m)) /\
       index (set_index (resolve w d) (next_joint_id m)) = next_joint_id m /\
       anchor (set_index (resolve w d) (next_joint_id m)) = anchor (resolve w d) /\
       (forall k', k' <> k ->
          StdMap.find k' (simJointsReload m') = StdMap.find k' (simJointsReload m)) /\
       StdMap.keys (simJointsReload m') = StdMap.keys (simJointsReload m) /\
       StdMap.size (simJointsReload m') = StdMap.size (simJointsReload m)) /\
  (forall m,
     StdMap.keys (simJointsReload (memory_of (reloadJoints w m)))
       = StdMap.keys (simJointsReload m) /\
     StdMap.size (simJointsReload (memory_of (reloadJoints w m)))
       = StdMap.size (simJointsReload m)) /\
  (forall m m' tr,
     StdMap.wf (simJointsReload m) = true ->
     reloadJoints w m = Ret tt m' tr ->
     forall k d,
       StdMap.find k (simJointsReload m) = Some d ->
       exists d',
         StdMap.find k (simJointsReload m') = Some d' /\
         replayed w d d' (created tr)).
Proof.
  split; [|split].
  - intros k m d Hd.
    rewrite (addJoint_cases w (PReload k) true m d (or_intror eq_refl) Hd).
    cbn zeta.
    destruct (axis_rejected w d).
    { cbn. intros [H|[]]; discriminate. }
    destruct (anchor_nodes_found w d); [|intros []].
    destruct (backend_accepts w d).
    2:{ cbn. intros [H|[H|[]]]; discriminate. }
    intros _. eexists. split; [reflexivity|]. cbn.
    split; [now rewrite find_write_eq, Hd|].
    split; [reflexivity|]. split; [reflexivity|].
    split; [intros k' Hne; now apply find_write_other|].
    split; [apply keys_write | apply size_write].
  - intros m. unfold reloadJoints. rewrite bind_get.
    pose proof (reload_loop_keys w (StdMap.keys (simJointsReload m)) m) as Hk.
    split; [exact Hk | now rewrite !size_keys, Hk].
  - intros m m' tr Hwf Hrun k d Hd.
    unfold reloadJoints in Hrun. rewrite bind_get in Hrun.
    destruct (wf_exists_above _ Hwf) as [lo Hlo].
    destruct (reload_loop_templates w _ m m' tr (above_NoDup lo _ Hlo) Hrun)
      as (_ & Hin).
    apply (Hin k d); [|exact Hd]. now apply (find_in_keys k _ d).
Qed.

(** C10: [reloadJoints] hands [addJoint] pointers into [simJointsReload]
    itself, with [reload = true]. A replay that creates its joint
    therefore leaves, under the same key, the template with its index
    field equal to the new id and its anchor equal to the one the anchor
    policy gives (the position of node 1, of node 2, their midpoint, or
    the anchor it had for ANCHOR_CUSTOM), every other field as it was, and
    stores nothing anew; the other templates are not touched. Whatever
    happens, the keys and the number of templates after [reloadJoints] are
    those before it, and when [reloadJoints] returns every template has
    been replayed: it is as it was when its axis was rejected, and
    otherwise it has the anchor of the policy, and either the index it had
    (the backend refused) or the id of a joint created in the call. *)
Theorem reloadJoints_rewrites_templates (w : Extern) :
  (forall k m d,
     StdMap.find k (simJointsReload m) = Some d ->
     In (EvCreateJoint true) (trace_of (addJoint w (PReload k) true m)) ->
     exists m' d',
       addJoint w (PReload k) true m
         = Ret (next_joint_id m) m' (success_trace (next_joint_id m)) /\
       StdMap.find k (simJointsReload m') = Some d' /\
       index d' = next_joint_id m /\
       match anchorPos d with
       | ANCHOR_NODE1 =>
           exists n1, getSimNode w (nodeIndex1 d) = Some n1 /\ anchor d' = getPosition n1
       | ANCHOR_NODE2 =>
           exists n2, getSimNode w (nodeIndex2 d) = Some n2 /\ anchor d' = getPosition n2
       | ANCHOR_CENTER =>
           exists n1 n2,
             getSimNode w (nodeIndex1 d) = Some n1 /\
             getSimNode w (nodeIndex2 d) = Some n2 /\
             anchor d' = vdiv (vadd (getPosition n1) (getPosition n2)) 2%float
       | ANCHOR_CUSTOM => anchor d' = anchor d
       end /\
       same_other_fields d d' /\
       (forall k', k' <> k ->
          StdMap.find k' (simJointsReload m') = StdMap.find k' (simJointsReload m)) /\
       StdMap.keys (simJointsReload m') = StdMap.keys (simJointsReload m) /\
       StdMap.size (simJointsReload m') = StdMap.size (simJointsReload m)) /\
  (forall m,
     StdMap.keys (simJointsReload (memory_of (reloadJoints w m)))
       = StdMap.keys (simJointsReload m) /\
     StdMap.size (simJointsReload (memory_of (reloadJoints w m)))
       = StdMap.size (simJointsReload m)) /\
  (forall m m' tr,
     StdMap.wf (simJointsReload m) = true ->
     reloadJoints w m = Ret tt m' tr ->
     forall k d,
       StdMap.find k (simJointsReload m) = Some d ->
       exists d',
         StdMap.find k (simJointsReload m') = Some d' /\
         same_other_fields d d' /\
         (axis_rejected w d = true -> d' = d) /\
         (axis_rejected w d = false ->
          match anchorPos d with
          | ANCHOR_NODE1 =>
              exists n1, getSimNode w (nodeIndex1 d) = Some n1 /\ anchor d' = getPosition n1
          | ANCHOR_NODE2 =>
              exists n2, getSimNode w (nodeIndex2 d) = Some n2 /\ anchor d' = getPosition n2
          | ANCHOR_CENTER =>
              exists n1 n2,
                getSimNode w (nodeIndex1 d) = Some n1 /\
                getSimNode w (nodeIndex2 d) = Some n2 /\
                anchor d' = vdiv (vadd (getPosition n1) (getPosition n2)) 2%float
          | ANCHOR_CUSTOM => anchor d' = anchor d
          end) /\
         (axis_rejected w d = false -> backend_accepts w d = false ->
          index d' = index d) /\
         (axis_rejected w d = false -> backend_accepts w d = true ->
          In (index d') (created tr))).
Proof.
  destruct (reloadJoints_templates w) as (Hone & Hkeys & Hall).
  split; [|split; [exact Hkeys|]].
  - intros k m d Hd Hev.
    destruct (Hone k m d Hd Hev) as (m' & Hrun & Hf & _ & _ & Hoth & Hk & Hs).
    assert (Hnodes : anchor_nodes_found w d = true).
    { revert Hev.
      rewrite (addJoint_cases w (PReload k) true m d (or_intror eq_refl) Hd).
      cbn zeta. destruct (axis_rejected w d).
      { cbn. intros [H|[]]; discriminate. }
      destruct (anchor_nodes_found w d); [reflexivity | intros []]. }
    exists m', (set_index (resolve w d) (next_joint_id m)).
    split; [exact Hrun|]. split; [exact Hf|]. split; [reflexivity|].
    split; [exact (set_index_anchored w d _ _ (resolve_anchored w d Hnodes))|].
    split; [apply set_index_same_fields, resolve_same_fields|].
    split; [exact Hoth|]. split; [exact Hk | exact Hs].
  - intros m m' tr Hwf Hrun k d Hd.
    destruct (Hall m m' tr Hwf Hrun k d Hd) as (d' & Hf & Hrep).
    exists d'. split; [exact Hf|].
    destruct Hrep as [(Hax & ->)|[(Hax & Hn & Hb & ->)|(Hax & Hn & Hb & id & Hid & ->)]].
    + split; [unfold same_other_fields; repeat split; reflexivity|].
      split; [reflexivity|].
      repeat split; intros H; rewrite Hax in H; discriminate.
    + split; [apply resolve_same_fields|].
      split; [intros H; rewrite Hax in H; discriminate|].
      split; [intros _; exact (resolve_anchored w d Hn)|].
      split; [intros _ _; apply resolve_same_fields|].
      intros _ H; rewrite Hb in H; discriminate.
    + split; [apply set_index_same_fields, resolve_same_fields|].
      split; [intros H; rewrite Hax in H; discriminate|].
      split; [intros _; exact (set_index_anchored w d _ _ (resolve_anchored w d Hn))|].
      split; [intros _ H; rewrite Hb in H; discriminate|].
      intros _ _. exact Hid.
Qed.

(** After the replay of the two templates the one under the key 7, whose
    anchor was the origin, is anchored at the position of node 3 and
    carries the id of one of the joints created. *)
Lemma reloadJoints_rewrites_templates_witness :
  exists d',
    StdMap.find 7 (simJointsReload (memory_of (reloadJoints (world true) two_templates)))
      = Some d' /\
    anchor d' = v123 /\
    In (index d') (created (trace_of (reloadJoints (world true) two_templates))) /\
    nodeIndex1 d' = 3 /\ nodeIndex2 d' = 0.
Proof.
  destruct (proj2 (proj2 (reloadJoints_rewrites_templates (world true)))
              two_templates
              (memory_of (reloadJoints (world true) two_templates))
              (trace_of (reloadJoints (world true) two_templates))
              eq_refl eq_refl 7 hinge_3_0 eq_refl)
    as (d' & Hf & Hsame & _ & Hanchor & _ & Hid).
  exists d'. split; [exact Hf|].
  destruct (Hanchor eq_refl) as (n1 & Hn1 & Ha).
  injection Hn1 as <-.
  destruct Hsame as (_ & _ & H1 & H2 & _).
  split; [exact Ha|]. split; [exact (Hid eq_refl eq_refl)|].
  split; [exact H1 | exact H2].
Defined.

(** The keys stay 4 and 7, the index fields become the new ids 1 and 2,
    and the anchors become the position of node 3. *)
Example reloadJoints_two_templates :
  List.map (fun kd => (fst kd, index (snd kd), anchor (snd kd)))
    (simJointsReload (memory_of (reloadJoints (world true) two_templates)))
    = [(4, 1, v123); (7, 2, v123)] /\
  List.map (fun kd => (fst kd, index (snd kd), anchor (snd kd)))
    (simJointsReload two_templates)
    = [(4, 4, vzero); (7, 7, vzero)].
Proof. split; reflexivity. Qed.

(** ** The counter at the end of its range *)

(** X1: a successful [addJoint] returns the counter and moves it on with
    the arithmetic of [unsigned long]; from 2^64 - 1 the counter wraps to
    0, the value that [addJoint] returns on failure. *)
Theorem addJoint_counter_wraps (w : Extern) (p : JointPtr) (reload : bool)
    (m : Memory) (d : JointData)
    (Hshape : call_shape p reload)
    (Hd : pointee p m = Some d)
    (Haxis : axis_rejected w d = false)
    (Hnodes : anchor_nodes_found w d = true)
    (Hacc : backend_accepts w d = true) :
  exists m',
    addJoint w p reload m
      = Ret (next_joint_id m) m'
          (store_trace reload ++ success_trace (next_joint_id m)) /\
    next_joint_id m' = ulong_succ (next_joint_id m) /\
    (next_joint_id m = ULONG_MAX -> next_joint_id m' = 0).
Proof.
  rewrite (addJoint_cases w p reload m d Hshape Hd). cbn zeta.
  rewrite Haxis, Hnodes, Hacc.
  destruct (store_template_frame reload d m) as (_ & Hn & _).
  eexists. split; [reflexivity|].
  unfold created_memory. cbn.
  destruct (poke_frame p
              (fun _ => set_index (resolve w d)
                          (next_joint_id (store_template reload d m)))
              (store_template reload d m)) as (_ & Hn').
  rewrite Hn', Hn. split; [reflexivity|]. intros ->. reflexivity.
Qed.

Lemma addJoint_counter_wraps_witness :
  exists m',
    addJoint (world true) PCaller false last_id
      = Ret ULONG_MAX m' (store_trace false ++ success_trace ULONG_MAX) /\
    next_joint_id m' = ulong_succ ULONG_MAX /\
    (ULONG_MAX = ULONG_MAX -> next_joint_id m' = 0).
Proof.
  apply (addJoint_counter_wraps (world true) PCaller false last_id hinge_3_0).
  - left; reflexivity.
  - reflexivity.
  - reflexivity.
  - reflexivity.
  - reflexivity.
Defined.

(** ** The example of the specification *)

(** On a new manager, a hinge between node 3 and the world, anchored at
    node 3, which is at (1, 2, 3), with the axis (0, 0, 1), gets the id 1
    and the anchor (1, 2, 3); [removeJointByIDs 3 0] then takes it out, and
    the joint count is 0. *)
Theorem spec_example :
  exists m1 tr1 m2 tr2,
    addJoint (world true) PCaller false (JointManager hinge_3_0) = Ret 1 m1 tr1 /\
    List.map (fun kj => (fst kj, anchor (getSJoint (snd kj)))) (simJoints m1)
      = [(1, v123)] /\
    removeJointByIDs 3 0 m1 = Ret tt m2 tr2 /\
    value_of (getJointCount m2) = Some 0.
Proof. repeat eexists; reflexivity. Qed.

(** ** What a successful [addJoint] stores *)

(** X2: when the axis passes, the anchor nodes are found and the backend
    accepts, [addJoint] returns the counter as the id and stores under it a
    joint whose descriptor is the one handed in, with the id as index and
    with the anchor the policy asks for: the position of node 1, of node 2,
    their midpoint, or, for ANCHOR_CUSTOM, the anchor handed in. The joint
    is attached to the two nodes looked up, and the object the pointer
    points at is overwritten with the same descriptor. *)
Theorem addJoint_success_record (w : Extern) (p : JointPtr) (reload : bool)
    (m : Memory) (d : JointData)
    (Hshape : call_shape p reload)
    (Hd : pointee p m = Some d)
    (Haxis : axis_rejected w d = false)
    (Hnodes : anchor_nodes_found w d = true)
    (Hacc : backend_accepts w d = true) :
  exists m' tr d',
    addJoint w p reload m = Ret (next_joint_id m) m' tr /\
    StdMap.find (next_joint_id m) (simJoints m')
      = Some (mkSimJoint d' (getSimNode w (nodeIndex1 d)) (getSimNode w (nodeIndex2 d))) /\
    (p = PCaller -> callerData m' = d') /\
    (forall k, p = PReload k -> StdMap.find k (simJointsReload m') = Some d') /\
    d' = set_index (set_anchor d (anchor d')) (next_joint_id m) /\
    match anchorPos d with
    | ANCHOR_NODE1 =>
        exists n1, getSimNode w (nodeIndex1 d) = Some n1 /\ anchor d' = getPosition n1
    | ANCHOR_NODE2 =>
        exists n2, getSimNode w (nodeIndex2 d) = Some n2 /\ anchor d' = getPosition n2
    | ANCHOR_CENTER =>
        exists n1 n2,
          getSimNode w (nodeIndex1 d) = Some n1 /\
          getSimNode w (nodeIndex2 d) = Some n2 /\
          anchor d' = vdiv (vadd (getPosition n1) (getPosition n2)) 2%float
    | ANCHOR_CUSTOM => anchor d' = anchor d
    end.
Proof.
  rewrite (addJoint_cases w p reload m d Hshape Hd). cbn zeta.
  rewrite Haxis, Hnodes, Hacc.
  destruct (store_template_frame reload d m) as (Hj & Hn & Hc).
  exists (created_memory w p d (store_template reload d m)).
  eexists. exists (set_index (resolve w d) (next_joint_id m)).
  split; [reflexivity|].
  split.
  { unfold created_memory. cbn. rewrite Hn. apply find_assign_same. }
  split.
  { intros ->. unfold created_memory. cbn. now rewrite Hn. }
  split.
  { intros k ->. unfold created_memory. cbn. rewrite Hn.
    destruct Hshape as [Hp|Hr]; [discriminate | subst reload]. cbn in *.
    now rewrite find_write_eq, Hd. }
  unfold resolve, resolved_anchor, anchor_nodes_found in *.
  destruct (anchorPos d) eqn:Epos;
    destruct (getSimNode w (nodeIndex1 d)) as [n1|];
    destruct (getSimNode w (nodeIndex2 d)) as [n2|];
    cbn in Hnodes; try discriminate; cbn;
    (split; [destruct d; cbn in *; subst; reflexivity|]); eauto.
Qed.

Lemma addJoint_success_record_witness :
  exists m' tr d',
    addJoint (world true) PCaller false fresh = Ret 1 m' tr /\
    StdMap.find 1 (simJoints m')
      = Some (mkSimJoint d' (Some (mkSimNode v123 30)) None) /\
    anchor d' = v123.
Proof.
  destruct (addJoint_success_record (world true) PCaller false fresh hinge_3_0
              (or_introl eq_refl) eq_refl eq_refl eq_refl eq_refl)
    as (m' & tr & d' & H1 & H2 & _ & _ & _ & n1 & Hn1 & Ha).
  exists m', tr, d'. split; [exact H1|]. split; [exact H2|].
  injection Hn1 as <-. exact Ha.
Defined.

(** ** The template that [addJoint] stores *)

Lemma size_assign_absent {V : Type} (k : Z) (v : V) (m : StdMap.t V) :
  StdMap.find k m = None -> StdMap.size (StdMap.assign k v m) = S (StdMap.size m).
Proof.
  unfold StdMap.size. induction m as [|[k' v'] r IH]; cbn; [reflexivity|].
  destruct (k =? k') eqn:E; [discriminate|]. intros H.
  destruct (k <? k'); cbn; [reflexivity | now rewrite IH].
Qed.

Lemma size_assign_present {V : Type} (k : Z) (v v0 : V) (m : StdMap.t V) :
  StdMap.wf m = true -> StdMap.find k m = Some v0 ->
  StdMap.size (StdMap.assign k v m) = StdMap.size m.
Proof.
  intros Hwf. destruct (wf_exists_above m Hwf) as [lo Hlo]. clear Hwf.
  revert lo Hlo. unfold StdMap.size.
  induction m as [|[k' v'] r IH]; cbn; intros lo Hlo; [discriminate|].
  apply andb_true_iff in Hlo as [_ Hr].
  destruct (k =? k') eqn:E.
  - intros _. apply Z.eqb_eq in E. subst k'. now rewrite Z.ltb_irrefl.
  - intros Hf. destruct (k <? k') eqn:E1.
    + apply Z.ltb_lt in E1. now rewrite (above_find_none k' k r) in Hf by (lia || exact Hr).
    + cbn. now rewrite (IH k' Hr Hf).
Qed.

Lemma replay_others (w : Extern) (k k' : Z) (m : Memory) :
  k' <> k ->
  StdMap.find k' (simJointsReload (memory_of (addJoint w (PReload k) true m)))
    = StdMap.find k' (simJointsReload m).
Proof.
  intros Hne. destruct (pointee (PReload k) m) as [d|] eqn:Hd.
  - rewrite (addJoint_cases w (PReload k) true m d (or_intror eq_refl) Hd). cbn zeta.
    destruct (axis_rejected w d); [reflexivity|].
    destruct (anchor_nodes_found w d); [|reflexivity].
    destruct (backend_accepts w d); cbn; now apply find_write_other.
  - now rewrite addJoint_dangling.
Qed.

(** X3: with [reload = false], [addJoint] on an object of the caller puts
    the descriptor as handed in into [simJointsReload] under the index the
    caller supplied, whatever becomes of the call: rejected axis, failed
    assert, refused or created joint. A template already stored under that
    index is replaced, so the number of templates grows by one only for a
    new index. With [reload = true] on an object of the caller the
    templates are left alone. The call that [reloadJoints] makes, with
    [reload = true] on a pointer into the template map, is the exception:
    it leaves the keys and every other template alone, and when it creates
    the joint the template pointed at has the new id as its index. *)
Theorem addJoint_stores_template (w : Extern) (reload : bool) (m : Memory)
    (Hwf : StdMap.wf (simJointsReload m) = true) :
  simJointsReload (memory_of (addJoint w PCaller reload m))
    = (if reload then simJointsReload m
       else StdMap.assign (index (callerData m)) (callerData m) (simJointsReload m)) /\
  (reload = false ->
     StdMap.find (index (callerData m))
       (simJointsReload (memory_of (addJoint w PCaller reload m)))
       = Some (callerData m) /\
     (forall k, k <> index (callerData m) ->
        StdMap.find k (simJointsReload (memory_of (addJoint w PCaller reload m)))
          = StdMap.find k (simJointsReload m)) /\
     StdMap.size (simJointsReload (memory_of (addJoint w PCaller reload m)))
       = match StdMap.find (index (callerData m)) (simJointsReload m) with
         | Some _ => StdMap.size (simJointsReload m)
         | None => S (StdMap.size (simJointsReload m))
         end) /\
  (forall k,
     StdMap.keys (simJointsReload (memory_of (addJoint w (PReload k) true m)))
       = StdMap.keys (simJointsReload m) /\
     (forall k', k' <> k ->
        StdMap.find k' (simJointsReload (memory_of (addJoint w (PReload k) true m)))
          = StdMap.find k' (simJointsReload m)) /\
     (forall d,
        StdMap.find k (simJointsReload m) = Some d ->
        In (EvCreateJoint true) (trace_of (addJoint w (PReload k) true m)) ->
        exists d',
          StdMap.find k (simJointsReload (memory_of (addJoint w (PReload k) true m)))
            = Some d' /\
          index d' = next_joint_id m /\
          name d' = name d)).
Proof.
  assert (Hrs : simJointsReload (memory_of (addJoint w PCaller reload m))
                = (if reload then simJointsReload m
                   else StdMap.assign (index (callerData m)) (callerData m)
                          (simJointsReload m))).
  { rewrite (addJoint_cases w PCaller reload m (callerData m) (or_introl eq_refl) eq_refl).
    cbn zeta.
    destruct (axis_rejected w (callerData m)); [destruct reload; reflexivity|].
    destruct (anchor_nodes_found w (callerData m)); [|destruct reload; reflexivity].
    destruct (backend_accepts w (callerData m)); destruct reload; reflexivity. }
  split; [exact Hrs|]. split.
  - intros ->. rewrite Hrs. split; [apply find_assign_same|].
    split; [intros k Hk; now apply find_assign_other|].
    destruct (StdMap.find (index (callerData m)) (simJointsReload m)) eqn:E.
    + now apply (size_assign_present _ _ j).
    + now apply size_assign_absent.
  - intros k. split; [apply replay_keys|].
    split; [intros k' Hne; now apply replay_others|].
    intros d Hd Hev.
    destruct (proj1 (reloadJoints_templates w) k m d Hd Hev)
      as (m' & Hrun & Hf & _).
    rewrite Hrun. cbn [memory_of].
    exists (set_index (resolve w d) (next_joint_id m)).
    split; [exact Hf|]. split; [reflexivity|].
    apply (set_index_same_fields d (resolve w d)), resolve_same_fields.
Qed.

(** A hinge without an axis is refused, and is a template all the same;
    replayed from the template map, the hinge under the key 7 comes back
    with the index 1. *)
Lemma addJoint_stores_template_witness :
  StdMap.find 8
    (simJointsReload
       (memory_of (addJoint (world true) PCaller false (JointManager hinge_no_axis))))
    = Some hinge_no_axis /\
  exists d',
    StdMap.find 7
      (simJointsReload (memory_of (addJoint (world true) (PReload 7) true two_templates)))
      = Some d' /\
    index d' = 1 /\ name d' = name hinge_3_0.
Proof.
  split.
  - exact (proj1 (proj1 (proj2 (addJoint_stores_template (world true) false
                                  (JointManager hinge_no_axis) eq_refl)) eq_refl)).
  - apply (proj2 (proj2 (proj2 (proj2 (addJoint_stores_template (world true) true
                                         two_templates eq_refl)) 7)) hinge_3_0).
    + reflexivity.
    + vm_compute. tauto.
Defined.

(** ** Invariants of the two maps along a run *)

Lemma wf_assign {V : Type} (k : Z) (v : V) (m : StdMap.t V) :
  StdMap.wf m = true -> StdMap.wf (StdMap.assign k v m) = true.
Proof.
  intros Hwf. destruct (wf_exists_above m Hwf) as [lo Hlo].
  apply (wf_above (Z.min lo (k - 1))). apply above_assign; [lia|].
  apply (above_weaken lo); [lia | exact Hlo].
Qed.

Lemma wf_write {V : Type} (k : Z) (f : V -> V) (m : StdMap.t V) :
  StdMap.wf m = true -> StdMap.wf (StdMap.write k f m) = true.
Proof.
  intros Hwf. destruct (wf_exists_above m Hwf) as [lo Hlo].
  apply (wf_above lo). now rewrite above_write.
Qed.

Lemma wf_map_values {V : Type} (f : V -> V) (m : StdMap.t V) :
  StdMap.wf m = true -> StdMap.wf (StdMap.map_values f m) = true.
Proof.
  intros Hwf. destruct (wf_exists_above m Hwf) as [lo Hlo].
  apply (wf_above lo). now rewrite above_map_values.
Qed.

Lemma indexed_assign (k : Z) (j : SimJoint) (js : StdMap.t SimJoint) :
  index (getSJoint j) = k -> indexed js = true ->
  indexed (StdMap.assign k j js) = true.
Proof.
  intros Hk. unfold indexed.
  induction js as [|[k' j'] r IH]; cbn; intros H.
  - rewrite Hk, Z.eqb_refl. reflexivity.
  - apply andb_true_iff in H as [H1 H2].
    destruct (k <? k'); cbn; [now rewrite Hk, Z.eqb_refl, H1, H2|].
    destruct (k =? k'); cbn; [now rewrite Hk, Z.eqb_refl, H2|].
    rewrite H1. now apply IH.
Qed.

Lemma indexed_erase (k : Z) (js : StdMap.t SimJoint) :
  indexed js = true -> indexed (StdMap.erase k js) = true.
Proof.
  unfold indexed. induction js as [|[k' j'] r IH]; cbn; intros H; [reflexivity|].
  apply andb_true_iff in H as [H1 H2].
  destruct (k =? k'); cbn; [exact H2|]. rewrite H1. now apply IH.
Qed.

Lemma indexed_write (k : Z) (f : JointMethod) (js : StdMap.t SimJoint) :
  keeps_index f -> indexed js = true -> indexed (StdMap.write k f js) = true.
Proof.
  intros Hf. unfold indexed.
  induction js as [|[k' j'] r IH]; cbn; intros H; [reflexivity|].
  apply andb_true_iff in H as [H1 H2].
  destruct (k =? k'); cbn; [now rewrite Hf, H1, H2|]. rewrite H1. now apply IH.
Qed.

Lemma indexed_map_values (f : JointMethod) (js : StdMap.t SimJoint) :
  keeps_index f -> indexed js = true -> indexed (StdMap.map_values f js) = true.
Proof.
  intros Hf. unfold indexed.
  induction js as [|[k' j'] r IH]; cbn; intros H; [reflexivity|].
  apply andb_true_iff in H as [H1 H2]. rewrite Hf, H1. now apply IH.
Qed.

(** What a call of [addJoint] does to the two maps. *)
Lemma addJoint_kept (w : Extern) (p : JointPtr) (reload : bool) (m : Memory) :
  call_shape p reload ->
  StdMap.wf (simJoints m) = true ->
  StdMap.wf (simJointsReload m) = true ->
  StdMap.wf (simJoints (memory_of (addJoint w p reload m))) = true /\
  StdMap.wf (simJointsReload (memory_of (addJoint w p reload m))) = true /\
  (indexed (simJoints m) = true ->
   indexed (simJoints (memory_of (addJoint w p reload m))) = true).
Proof.
  intros Hshape Hj Hr.
  destruct (pointee p m) as [d|] eqn:Hd.
  2:{ destruct Hshape as [->| ->]; [discriminate|].
      rewrite addJoint_dangling by assumption. cbn. auto. }
  rewrite (addJoint_cases w p reload m d Hshape Hd). cbn zeta.
  assert (Hr0 : StdMap.wf (simJointsReload (store_template reload d m)) = true).
  { destruct reload; cbn; [exact Hr | now apply wf_assign]. }
  destruct (store_template_frame reload d m) as (Hj0 & Hn0 & _).
  assert (Hpoke : forall f,
            StdMap.wf (simJointsReload (poke p f (store_template reload d m))) = true).
  { intros f. destruct p; cbn; [exact Hr0 | now apply wf_write]. }
  destruct (axis_rejected w d); [cbn; rewrite Hj0; auto|].
  destruct (anchor_nodes_found w d); [|cbn; rewrite Hj0; auto].
  destruct (backend_accepts w d).
  - unfold created_memory. cbn [memory_of simJoints simJointsReload with_simJoints
                                 with_next_joint_id].
    destruct (poke_frame p
                (fun _ => set_index (resolve w d)
                            (next_joint_id (store_template reload d m)))
                (store_template reload d m)) as (Hj' & _).
    rewrite Hj', Hj0. split; [now apply wf_assign|]. split; [apply Hpoke|].
    intros Hi. now apply indexed_assign.
  - unfold refused_memory.
    destruct (poke_frame p (fun _ => resolve w d) (store_template reload d m))
      as (Hj' & _).
    cbn [memory_of]. rewrite Hj', Hj0. split; [exact Hj|]. split; [apply Hpoke | auto].
Qed.

Lemma reload_loop_kept (w : Extern) (ks : list Z) (m : Memory) :
  StdMap.wf (simJoints m) = true ->
  StdMap.wf (simJointsReload m) = true ->
  StdMap.wf (simJoints (memory_of (reload_loop w ks m))) = true /\
  StdMap.wf (simJointsReload (memory_of (reload_loop w ks m))) = true /\
  (indexed (simJoints m) = true ->
   indexed (simJoints (memory_of (reload_loop w ks m))) = true).
Proof.
  revert m. induction ks as [|k r IH]; intros m Hj Hr; [cbn; auto|].
  cbn [reload_loop]. rewrite memory_of_bind.
  pose proof (addJoint_kept w (PReload k) true m (or_intror eq_refl) Hj Hr) as Hs.
  destruct (addJoint w (PReload k) true m) as [v m1 tr1|c m1 tr1];
    cbn [memory_of] in Hs; [|exact Hs].
  destruct Hs as (Hj1 & Hr1 & Hi1). destruct (IH m1 Hj1 Hr1) as (Ha & Hb & Hc).
  auto.
Qed.

(** What one call does to the two maps. *)
Lemma exec_kept (c : Call) (m : Memory) :
  StdMap.wf (simJoints m) = true ->
  StdMap.wf (simJointsReload m) = true ->
  StdMap.wf (simJoints (memory_of (exec c m))) = true /\
  StdMap.wf (simJointsReload (memory_of (exec c m))) = true /\
  (call_keeps_index c -> indexed (simJoints m) = true ->
   indexed (simJoints (memory_of (exec c m))) = true).
Proof.
  intros Hj Hr. destruct c; cbn [call_keeps_index].
  - rewrite (proj2 (exec_addJoint w d reload m)).
    destruct (addJoint_kept w PCaller reload (with_callerData (fun _ => d) m)
                (or_introl eq_refl) Hj Hr) as (Ha & Hb & Hc). auto.
  - cbn [exec]. rewrite editJoint_result. cbn.
    split; [now apply wf_write|]. split; [exact Hr|].
    intros _ Hi. apply indexed_write; [|exact Hi]. intros j. reflexivity.
  - cbn [exec]. rewrite removeJoint_result. cbn.
    split; [now apply wf_erase|]. split; [exact Hr|].
    intros _ Hi. now apply indexed_erase.
  - cbn [exec]. rewrite removeJointByIDs_result.
    destruct (first_connecting id1 id2 (simJoints m)); cbn; [|auto].
    split; [now apply wf_erase|]. split; [exact Hr|].
    intros _ Hi. now apply indexed_erase.
  - cbn [exec]. unfold reloadJoints. rewrite bind_get.
    destruct (reload_loop_kept w (StdMap.keys (simJointsReload m)) m Hj Hr)
      as (Ha & Hb & Hc). auto.
  - cbn [exec]. rewrite clearAllJoints_result. cbn.
    destruct clear_all; auto.
  - cbn [exec]. unfold setReloadJointOffset. rewrite on_reload_entry_result. cbn.
    split; [exact Hj|]. split; [now apply wf_write | auto].
  - cbn [exec]. unfold setReloadJointAxis. rewrite on_reload_entry_result. cbn.
    split; [exact Hj|]. split; [now apply wf_write | auto].
  - cbn [exec]. unfold setReloadAnchor. rewrite on_reload_entry_result. cbn.
    split; [exact Hj|]. split; [now apply wf_write | auto].
  - cbn [exec]. rewrite scaleReloadJoints_result. cbn.
    split; [exact Hj|]. split; [now apply wf_map_values | auto].
  - cbn [exec]. rewrite call_on_joint_result. cbn.
    split; [now apply wf_write|]. split; [exact Hr|].
    intros Hk Hi. now apply indexed_write.
  - cbn [exec]. rewrite setOfflineValue_result. cbn.
    split; [now apply wf_write|]. split; [exact Hr|].
    intros Hk Hi. now apply indexed_write.
  - cbn. split; [now apply wf_map_values|]. split; [exact Hr|].
    intros Hk Hi. now apply indexed_map_values.
  - cbn. split; [now apply wf_map_values|]. split; [exact Hr|].
    intros Hk Hi. apply indexed_map_values; [|exact Hi].
    intros j. destruct (_ || _); [apply Hk | reflexivity].
  - cbn. auto.
Qed.

Lemma run_kept (cs : list Call) (m : Memory) :
  StdMap.wf (simJoints m) = true ->
  StdMap.wf (simJointsReload m) = true ->
  StdMap.wf (simJoints (snd (run cs m))) = true /\
  StdMap.wf (simJointsReload (snd (run cs m))) = true /\
  (Forall call_keeps_index cs -> indexed (simJoints m) = true ->
   indexed (simJoints (snd (run cs m))) = true).
Proof.
  revert m. induction cs as [|c r IH]; intros m Hj Hr; [cbn; auto|].
  cbn [run]. pose proof (exec_kept c m Hj Hr) as Hs.
  destruct (exec c m) as [[] m1 tr|c1 m1 tr]; cbn [memory_of] in Hs;
    destruct Hs as (Hj1 & Hr1 & Hi1).
  - specialize (IH m1 Hj1 Hr1). destruct (run r m1) as [os mf]. cbn [snd] in *.
    destruct IH as (Ha & Hb & Hc). split; [exact Ha|]. split; [exact Hb|].
    intros Hall Hi. inversion Hall; subst. auto.
  - cbn [snd]. split; [exact Hj1|]. split; [exact Hr1|].
    intros Hall Hi. inversion Hall; subst. auto.
Qed.

(** X5: in the memory that any run of calls on a new manager ends in, the
    keys of both maps are unique and ascend; every joint of the registry
    carries, as the index of its descriptor, the key it is stored under,
    as long as the methods of the joints leave that field alone; and, as
    long as the counter has not wrapped, every key of the registry is at
    least 1 and below the counter. *)
Theorem registry_invariants (cs : list Call) (c0 : JointData) :
  StdMap.wf (simJoints (reached cs c0)) = true /\
  StdMap.wf (simJointsReload (reached cs c0)) = true /\
  (Forall call_keeps_index cs -> indexed (simJoints (reached cs c0)) = true) /\
  (creations (fst (run cs (JointManager c0))) < ULONG_MAX ->
   1 <= next_joint_id (reached cs c0) /\
   forall k, In k (StdMap.keys (simJoints (reached cs c0))) ->
             1 <= k < next_joint_id (reached cs c0)).
Proof.
  unfold reached.
  destruct (run_kept cs (JointManager c0) eq_refl eq_refl) as (Ha & Hb & Hc).
  split; [exact Ha|]. split; [exact Hb|]. split; [auto|].
  intros Hroom.
  destruct (run_counted cs (JointManager c0) (registry_ok_new c0)) as (_ & Hok).
  { change (next_joint_id (JointManager c0)) with 1. lia. }
  destruct Hok as (Hpos & Habove & Hbelow).
  split; [exact Hpos|]. intros k Hin.
  pose proof (above_keys 0 _ k Habove Hin).
  rewrite forallb_forall in Hbelow. specialize (Hbelow k Hin).
  apply Z.ltb_lt in Hbelow. lia.
Qed.

Lemma registry_invariants_witness :
  indexed (simJoints (reached sample_calls hinge_3_0)) = true.
Proof.
  refine (proj1 (proj2 (proj2 (registry_invariants sample_calls hinge_3_0))) _).
  repeat constructor.
Defined.

(** ** A new joint and the joints already there *)

Lemma keys_bound_find_none {V : Type} (n : Z) (m : StdMap.t V) :
  forallb (fun k => k <? n) (StdMap.keys m) = true -> StdMap.find n m = None.
Proof.
  induction m as [|[k v] r IH]; cbn; intros H; [reflexivity|].
  apply andb_true_iff in H as [H1 H2]. apply Z.ltb_lt in H1.
  destruct (n =? k) eqn:E; [apply Z.eqb_eq in E; lia | auto].
Qed.

(** X4: in the memory that a run of calls on a new manager ends in (the
    counter not having wrapped), no joint is stored under the counter. A
    call of [addJoint] that returns therefore never replaces a joint: every
    joint of the registry is still there under its id, a created joint
    makes the registry one larger, and a call that fails leaves the
    registry as it was. *)
Theorem addJoint_keeps_existing_joints (cs : list Call) (c0 : JointData)
    (Hroom : creations (fst (run cs (JointManager c0))) < ULONG_MAX) :
  StdMap.find (next_joint_id (reached cs c0)) (simJoints (reached cs c0)) = None /\
  (forall w p reload d v m' tr,
     call_shape p reload ->
     pointee p (reached cs c0) = Some d ->
     addJoint w p reload (reached cs c0) = Ret v m' tr ->
     (forall k j,
        StdMap.find k (simJoints (reached cs c0)) = Some j ->
        StdMap.find k (simJoints m') = Some j) /\
     (axis_rejected w d = false -> backend_accepts w d = true ->
      StdMap.size (simJoints m') = S (StdMap.size (simJoints (reached cs c0)))) /\
     (axis_rejected w d = true \/ backend_accepts w d = false ->
      simJoints m' = simJoints (reached cs c0))).
Proof.
  unfold reached.
  destruct (run_counted cs (JointManager c0) (registry_ok_new c0)) as (_ & Hok).
  { change (next_joint_id (JointManager c0)) with 1. lia. }
  set (m := snd (run cs (JointManager c0))) in *.
  destruct Hok as (_ & _ & Hbelow).
  pose proof (keys_bound_find_none _ _ Hbelow) as Hfresh.
  split; [exact Hfresh|].
  intros w p reload d v m' tr Hshape Hd.
  rewrite (addJoint_cases w p reload m d Hshape Hd). cbn zeta.
  destruct (store_template_frame reload d m) as (Hj & Hn & _).
  destruct (axis_rejected w d).
  { intros [= <- <- <-]. rewrite Hj. split; [auto|]. split; [discriminate | auto]. }
  destruct (anchor_nodes_found w d); [|discriminate].
  destruct (backend_accepts w d); intros [= <- <- <-].
  - unfold created_memory. cbn [simJoints with_simJoints with_next_joint_id].
    destruct (poke_frame p
                (fun _ => set_index (resolve w d)
                            (next_joint_id (store_template reload d m)))
                (store_template reload d m)) as (Hj' & _).
    rewrite Hj', Hj, Hn.
    split.
    { intros k j Hk. rewrite find_assign_other; [exact Hk|].
      intros ->. rewrite Hfresh in Hk. discriminate. }
    split; [intros _ _; now apply size_assign_absent|].
    intros [H|H]; discriminate.
  - unfold refused_memory.
    destruct (poke_frame p (fun _ => resolve w d) (store_template reload d m))
      as (Hj' & _).
    rewrite Hj', Hj. split; [auto|]. split; [discriminate | auto].
Qed.

Lemma addJoint_keeps_existing_joints_witness :
  StdMap.find (next_joint_id (reached sample_calls hinge_3_0))
    (simJoints (reached sample_calls hinge_3_0)) = None.
Proof.
  refine (proj1 (addJoint_keeps_existing_joints sample_calls hinge_3_0 _)).
  vm_compute. reflexivity.
Defined.

(** ** Looking a joint up *)

Lemma getFullJoint_result (id : Z) (m : Memory) :
  getFullJoint id m
    = Ret (match StdMap.find id (simJoints m) with
           | Some j => inr (getSJoint j)
           | None => inl (runtime_error (msg_not_found id))
           end) m [EvLock; EvUnlock].
Proof. reflexivity. Qed.

(** X6: [getFullJoint] changes nothing and answers with the descriptor of
    the joint stored under the id, or throws when there is none. After a
    successful [addJoint] it answers, for the id returned, with the
    descriptor that [addJoint] left in the caller's object: the supplied
    one with the new id and the resolved anchor. After [removeJoint] it
    throws for the id removed and answers as before for every other id. *)
Theorem getFullJoint_round_trips (m : Memory)
    (Hwf : StdMap.wf (simJoints m) = true) :
  (forall id,
     memory_of (getFullJoint id m) = m /\
     (StdMap.find id (simJoints m) = None <->
      value_of (getFullJoint id m) = Some (inl (runtime_error (msg_not_found id))))) /\
  (forall w p reload d,
     call_shape p reload ->
     pointee p m = Some d ->
     axis_rejected w d = false ->
     anchor_nodes_found w d = true ->
     backend_accepts w d = true ->
     value_of (getFullJoint (next_joint_id m) (memory_of (addJoint w p reload m)))
       = Some (inr (set_index (resolve w d) (next_joint_id m))) /\
     pointee p (memory_of (addJoint w p reload m))
       = Some (set_index (resolve w d) (next_joint_id m))) /\
  (forall id,
     value_of (getFullJoint id (memory_of (removeJoint id m)))
       = Some (inl (runtime_error (msg_not_found id)))) /\
  (forall id k,
     k <> id ->
     value_of (getFullJoint k (memory_of (removeJoint id m)))
       = value_of (getFullJoint k m)).
Proof.
  split.
  { intros id. rewrite getFullJoint_result. cbn. split; [reflexivity|].
    destruct (StdMap.find id (simJoints m)); split; congruence. }
  split.
  { intros w p reload d Hshape Hd Haxis Hnodes Hacc.
    rewrite (addJoint_cases w p reload m d Hshape Hd). cbn zeta.
    rewrite Haxis, Hnodes, Hacc. rewrite getFullJoint_result.
    destruct (store_template_frame reload d m) as (Hj & Hn & _).
    unfold created_memory. cbn. rewrite Hn, find_assign_same. cbn.
    split; [reflexivity|].
    destruct p as [|k]; cbn; [reflexivity|].
    destruct Hshape as [Hp|Hr]; [discriminate | subst reload]. cbn in *.
    now rewrite find_write_eq, Hd. }
  split.
  { intros id. rewrite removeJoint_result, getFullJoint_result. cbn.
    now rewrite find_erase_same. }
  intros id k Hk. rewrite removeJoint_result, !getFullJoint_result. cbn.
  now rewrite find_erase_other.
Qed.

Lemma getFullJoint_round_trips_witness :
  value_of (getFullJoint 1 (memory_of (removeJoint 1 one_joint)))
    = Some (inl (runtime_error (msg_not_found 1))).
Proof.
  exact (proj1 (proj2 (proj2 (getFullJoint_round_trips one_joint eq_refl))) 1).
Defined.

(** ** The message of [getFullJoint] *)

Lemma decimal_digits_length (fuel : nat) (n : Z) (acc : string) :
  (String.length (decimal_digits fuel n acc) <= fuel + String.length acc)%nat.
Proof.
  revert n acc. induction fuel as [|f IH]; intros n acc; cbn; [lia|].
  destruct (n / 10 =? 0); cbn; [lia|].
  specialize (IH (n / 10) (String (digit_char (n mod 10)) acc)). cbn in IH. lia.
Qed.

Lemma string_length_append (s1 s2 : string) :
  String.length (s1 ++ s2) = (String.length s1 + String.length s2)%nat.
Proof. induction s1 as [|c r IH]; cbn; [reflexivity | now rewrite IH]. Qed.

Lemma digit_char_value (k : Z) :
  0 <= k < 10 -> Z.of_nat (Ascii.nat_of_ascii (digit_char k)) - 48 = k.
Proof.
  intros Hk. unfold digit_char. rewrite Ascii.nat_ascii_embedding; lia.
Qed.

Lemma decimal_digits_value (fuel : nat) (n : Z) (acc : string) (a : Z) :
  (0 < fuel)%nat -> 0 <= n < 10 ^ Z.of_nat fuel ->
  exists e, decimal_value (decimal_digits fuel n acc) a
            = decimal_value acc (10 ^ e * a + n) /\ 0 <= e.
Proof.
  revert n acc. induction fuel as [|f IH]; intros n acc Hf Hn; [lia|].
  cbn [decimal_digits].
  assert (Hmod : 0 <= n mod 10 < 10) by (apply Z.mod_pos_bound; lia).
  destruct (n / 10 =? 0) eqn:E.
  - apply Z.eqb_eq in E. exists 1. split; [|lia]. cbn [decimal_value].
    rewrite digit_char_value by exact Hmod.
    f_equal. rewrite (Z.div_mod n 10) at 2 by lia. rewrite E. lia.
  - apply Z.eqb_neq in E.
    assert (Hdiv : 0 <= n / 10 < 10 ^ Z.of_nat f).
    { split; [apply Z.div_pos; lia|].
      apply Z.div_lt_upper_bound; [lia|].
      rewrite Nat2Z.inj_succ, Z.pow_succ_r in Hn; lia. }
    assert (Hfpos : (0 < f)%nat).
    { destruct f; [|lia]. cbn in Hdiv. lia. }
    destruct (IH (n / 10) (String (digit_char (n mod 10)) acc) Hfpos Hdiv)
      as (e & He & Hepos).
    exists (e + 1). split; [|lia]. rewrite He. cbn [decimal_value].
    rewrite digit_char_value by exact Hmod. f_equal.
    rewrite Z.pow_add_r by lia.
    rewrite (Z.div_mod n 10) at 3 by lia. ring.
Qed.

(** X7: for every [unsigned long] index the text that [getFullJoint]
    prints into its buffer of 128 characters fits, the closing zero
    included, and its digits are those of the index. *)
Theorem msg_not_found_fits (id : Z) (Hid : 0 <= id <= ULONG_MAX) :
  (String.length (msg_not_found id) + 1 <= msg_buffer_size)%nat /\
  decimal_value (format_lu id) 0 = id.
Proof.
  split.
  - unfold msg_not_found, msg_buffer_size. rewrite string_length_append.
    pose proof (decimal_digits_length 20 id EmptyString) as H. unfold format_lu.
    cbn in *. lia.
  - unfold format_lu.
    destruct (decimal_digits_value 20 id EmptyString 0) as (e & He & _);
      [lia | unfold ULONG_MAX in Hid; cbn; lia|].
    rewrite He. cbn. lia.
Qed.

Lemma msg_not_found_fits_witness :
  (String.length (msg_not_found ULONG_MAX) + 1 <= msg_buffer_size)%nat /\
  decimal_value (format_lu ULONG_MAX) 0 = ULONG_MAX.
Proof.
  apply (msg_not_found_fits ULONG_MAX). unfold ULONG_MAX. lia.
Defined.

(** ** Looking a joint up by name *)

Lemma first_named_none (joint_name : string) (js : StdMap.t SimJoint) :
  (forall k j, In (k, j) js -> name (getSJoint j) <> joint_name) ->
  first_named joint_name js = 0.
Proof.
  intros Hnone. induction js as [|[k j] r IH]; cbn; [reflexivity|].
  pose proof (Hnone k j (or_introl eq_refl)) as Hn.
  apply String.eqb_neq in Hn. rewrite Hn.
  apply IH. intros k' j' Hin. apply (Hnone k' j'). now right.
Qed.

Lemma first_named_split (joint_name : string) (l1 l2 : StdMap.t SimJoint)
    (k : Z) (j : SimJoint) :
  (forall e, In e l1 -> name (getSJoint (snd e)) <> joint_name) ->
  name (getSJoint j) = joint_name ->
  first_named joint_name (l1 ++ (k, j) :: l2) = index (getSJoint j).
Proof.
  intros Hl1 Hj. induction l1 as [|[k' j'] r IH]; cbn.
  - apply String.eqb_eq in Hj. now rewrite Hj.
  - pose proof (Hl1 (k', j') (or_introl eq_refl)) as Hn. cbn in Hn.
    apply String.eqb_neq in Hn. rewrite Hn.
    apply IH. intros e He. apply Hl1. now right.
Qed.

Lemma first_named_found (joint_name : string) (js : StdMap.t SimJoint)
    (k : Z) (j : SimJoint) :
  In (k, j) js -> name (getSJoint j) = joint_name ->
  exists l1 k1 j1 l2,
    js = l1 ++ (k1, j1) :: l2 /\
    (forall e, In e l1 -> name (getSJoint (snd e)) <> joint_name) /\
    name (getSJoint j1) = joint_name.
Proof.
  intros Hin Hname. induction js as [|[k' j'] r IH]; [destruct Hin|].
  destruct (String.eqb (name (getSJoint j')) joint_name) eqn:E.
  - apply String.eqb_eq in E. exists [], k', j', r. cbn. intuition.
  - apply String.eqb_neq in E.
    destruct Hin as [Heq|Hin]; [injection Heq as -> ->; contradiction|].
    destruct (IH Hin) as (l1 & k1 & j1 & l2 & -> & Hl1 & Hj1).
    exists ((k', j') :: l1), k1, j1, l2. cbn. split; [reflexivity|].
    split; [|exact Hj1]. intros e [<-|He]; [exact E | now apply Hl1].
Qed.

(** X8: [getID] changes nothing. In any registry it answers with the index
    field of the descriptor of the first joint, in the order of the keys,
    that has the name, and with 0 when no joint has the name. In a registry
    whose joints carry their keys as index and whose keys are at least 1,
    the answer is therefore the key of that joint, and the answer 0 means
    that there is no joint of that name. *)
Theorem getID_finds_first_named (joint_name : string) (m : Memory) :
  exists v,
    getID joint_name m = Ret v m [EvLock; EvUnlock] /\
    ((forall k j, In (k, j) (simJoints m) -> name (getSJoint j) <> joint_name) ->
     v = 0) /\
    (forall l1 k j l2,
       simJoints m = l1 ++ (k, j) :: l2 ->
       (forall e, In e l1 -> name (getSJoint (snd e)) <> joint_name) ->
       name (getSJoint j) = joint_name ->
       v = index (getSJoint j)) /\
    (indexed (simJoints m) = true ->
     StdMap.above 0 (simJoints m) = true ->
     ((forall k j, In (k, j) (simJoints m) -> name (getSJoint j) <> joint_name) <->
      v = 0) /\
     (forall l1 k j l2,
        simJoints m = l1 ++ (k, j) :: l2 ->
        (forall e, In e l1 -> name (getSJoint (snd e)) <> joint_name) ->
        name (getSJoint j) = joint_name ->
        v = k /\ 1 <= k /\ StdMap.find v (simJoints m) = Some j)).
Proof.
  exists (first_named joint_name (simJoints m)). split; [reflexivity|].
  split; [apply first_named_none|].
  split.
  { intros l1 k j l2 -> Hl1 Hj. now apply first_named_split. }
  intros Hidx Hpos.
  assert (Hsplit : forall l1 k j l2,
            simJoints m = l1 ++ (k, j) :: l2 ->
            (forall e, In e l1 -> name (getSJoint (snd e)) <> joint_name) ->
            name (getSJoint j) = joint_name ->
            first_named joint_name (simJoints m) = k /\ 1 <= k /\
            StdMap.find k (simJoints m) = Some j).
  { intros l1 k j l2 Hm Hl1 Hj.
    pose proof (above_app_lt 0 l1 l2 k j) as Hlt. rewrite <- Hm in Hlt.
    specialize (Hlt Hpos).
    assert (Hk : index (getSJoint j) = k /\ 1 <= k).
    { unfold indexed in Hidx. rewrite forallb_forall in Hidx.
      specialize (Hidx (k, j)). cbn in Hidx.
      rewrite Hm in Hidx. specialize (Hidx (in_elt _ _ _)).
      apply Z.eqb_eq in Hidx.
      pose proof (above_keys 0 (simJoints m) k Hpos) as Hab.
      rewrite Hm in Hab. unfold StdMap.keys in Hab. rewrite map_app in Hab.
      cbn in Hab. specialize (Hab (in_elt _ _ _)). lia. }
    destruct Hk as (Hk & Hk1). rewrite Hm. clear Hm Hidx Hpos.
    split; [|split; [exact Hk1|]].
    - rewrite <- Hk. now apply first_named_split.
    - induction l1 as [|[k' j'] r IH]; cbn.
      + now rewrite Z.eqb_refl.
      + pose proof (Hlt (k', j') (or_introl eq_refl)) as Hn. cbn in Hn.
        destruct (k =? k') eqn:E; [apply Z.eqb_eq in E; lia|].
        apply IH; intros e He; [apply Hl1 | apply Hlt]; now right. }
  split; [|intros l1 k j l2 H1 H2 H3;
           destruct (Hsplit l1 k j l2 H1 H2 H3) as (-> & ? & ?); auto].
  split; [apply first_named_none|].
  intros Hzero k j Hin Hname.
  destruct (first_named_found joint_name (simJoints m) k j Hin Hname)
    as (l1 & k1 & j1 & l2 & Hm & Hl1 & Hj1).
  destruct (Hsplit l1 k1 j1 l2 Hm Hl1 Hj1) as (Hv & Hk1 & _). lia.
Qed.

(** Asked for the weld that is stored under the key 5 with the index 0,
    [getID] answers 0, the index field; asked for the hinge of a registry
    built by [addJoint], it answers with the key 1. *)
Lemma getID_finds_first_named_witness :
  (exists v,
     getID "weld" misfiled = Ret v misfiled [EvLock; EvUnlock] /\ v = 0) /\
  (exists v,
     getID "hinge" one_joint = Ret v one_joint [EvLock; EvUnlock] /\
     v = 1 /\
     ((forall k j, In (k, j) (simJoints one_joint) ->
                   name (getSJoint j) <> "hinge"%string) <-> v = 0)).
Proof.
  split.
  - destruct (getID_finds_first_named "weld" misfiled) as (v & H1 & _ & H2 & _).
    exists v. split; [exact H1|].
    exact (H2 [] 5 (mkSimJoint (set_index weld_4_0 0) None None) []
             eq_refl (fun e (H : In e []) => match H with end) eq_refl).
  - destruct (getID_finds_first_named "hinge" one_joint) as (v & H1 & _ & _ & H2).
    destruct (H2 eq_refl eq_refl) as (H3 & H4).
    exists v. split; [exact H1|]. split; [|exact H3].
    exact (proj1 (H4 [] 1 (mkSimJoint (set_index (set_anchor hinge_3_0 v123) 1)
                            (Some (mkSimNode v123 30)) None) []
                    eq_refl (fun e (H : In e []) => match H with end) eq_refl)).
Defined.

(** ** How many joints [reloadJoints] creates, and where it stops *)

Lemma wf_find_in {V : Type} (m : StdMap.t V) (k : Z) (v : V) :
  StdMap.wf m = true -> In (k, v) m -> StdMap.find k m = Some v.
Proof.
  intros Hwf. destruct (wf_exists_above m Hwf) as [lo Hlo]. clear Hwf.
  revert lo Hlo. induction m as [|[k' v'] r IH]; cbn; intros lo Hlo Hin; [tauto|].
  apply andb_true_iff in Hlo as [_ Hr].
  destruct Hin as [[= -> ->]|Hin]; [now rewrite Z.eqb_refl|].
  destruct (k =? k') eqn:E; [|exact (IH k' Hr Hin)].
  apply Z.eqb_eq in E. subst k'.
  pose proof (above_keys k r k Hr (in_map fst _ _ Hin)). cbn in *. lia.
Qed.

Lemma count_by_keys (w : Extern) (rs l : StdMap.t JointData) :
  (forall e, In e l -> StdMap.find (fst e) rs = Some (snd e)) ->
  List.length (List.filter (replayable_at w rs) (StdMap.keys l))
    = count_replayable w l.
Proof.
  unfold count_replayable, StdMap.keys.
  induction l as [|[k d] r IH]; intros H; [reflexivity|].
  cbn [List.map List.filter fst snd].
  pose proof (H (k, d) (or_introl eq_refl)) as Hk. cbn in Hk.
  unfold replayable_at at 1. rewrite Hk.
  destruct (replayable w d); cbn [List.length];
    rewrite IH by (intros e He; apply H; now right); reflexivity.
Qed.

(** A replay of a template that does not stop on an assert. *)
Lemma replay_step (w : Extern) (k : Z) (m : Memory) (d : JointData) :
  StdMap.find k (simJointsReload m) = Some d ->
  replay_returns w d = true ->
  exists v m1 tr1 d',
    addJoint w (PReload k) true m = Ret v m1 tr1 /\
    simJointsReload m1 = StdMap.write k (fun _ => d') (simJointsReload m) /\
    List.length (created tr1) = (if replayable w d then 1%nat else 0%nat).
Proof.
  intros Hd. unfold replay_returns, replayable.
  rewrite (addJoint_cases w (PReload k) true m d (or_intror eq_refl) Hd). cbn zeta.
  destruct (axis_rejected w d).
  { intros _. exists 0, m, [EvLogError msg_no_axis1], d. cbn.
    rewrite (write_id _ _ _ Hd). auto. }
  cbn. intros ->.
  destruct (backend_accepts w d); do 3 eexists.
  - exists (set_index (resolve w d) (next_joint_id m)). split; [reflexivity|]. auto.
  - exists (resolve w d). split; [reflexivity|]. auto.
Qed.

(** A replay of a template whose anchor node is missing. *)
Lemma replay_stops (w : Extern) (k : Z) (m : Memory) (d : JointData) :
  StdMap.find k (simJointsReload m) = Some d ->
  axis_rejected w d = false ->
  anchor_nodes_found w d = false ->
  addJoint w (PReload k) true m = Halt AssertionFailed m [].
Proof.
  intros Hd Ha Hn.
  rewrite (addJoint_cases w (PReload k) true m d (or_intror eq_refl) Hd). cbn zeta.
  now rewrite Ha, Hn.
Qed.

Lemma replayable_at_write (w : Extern) (rs : StdMap.t JointData) (k0 : Z)
    (f : JointData -> JointData) (ks : list Z) :
  ~ In k0 ks ->
  List.filter (replayable_at w (StdMap.write k0 f rs)) ks
    = List.filter (replayable_at w rs) ks.
Proof.
  intros Hnotin. apply filter_ext_in. intros k Hk. unfold replayable_at.
  rewrite find_write_other; [reflexivity|]. intros ->. contradiction.
Qed.

Lemma reload_loop_returns (w : Extern) (ks : list Z) (m : Memory) :
  NoDup ks ->
  (forall k, In k ks ->
     exists d, StdMap.find k (simJointsReload m) = Some d /\
               replay_returns w d = true) ->
  exists m' tr,
    reload_loop w ks m = Ret tt m' tr /\
    List.length (created tr)
      = List.length (List.filter (replayable_at w (simJointsReload m)) ks).
Proof.
  revert m. induction ks as [|k0 r IH]; intros m Hnd Hall.
  { exists m, []. split; reflexivity. }
  inversion Hnd as [|? ? Hnotin Hnd']; subst.
  destruct (Hall k0 (or_introl eq_refl)) as (d0 & Hd0 & Hr0).
  destruct (replay_step w k0 m d0 Hd0 Hr0) as (v & m1 & tr1 & d' & Hadd & Hm1 & Hlen).
  destruct (IH m1 Hnd') as (m' & tr2 & Hrest & Hcount).
  { intros k Hk. destruct (Hall k (or_intror Hk)) as (d & Hd & Hr).
    exists d. split; [|exact Hr]. rewrite Hm1, find_write_other; [exact Hd|].
    intros ->. contradiction. }
  exists m', (tr1 ++ tr2). cbn [reload_loop]. unfold bind. rewrite Hadd, Hrest.
  split; [reflexivity|].
  rewrite created_app, length_app, Hlen, Hcount, Hm1, replayable_at_write by exact Hnotin.
  cbn [List.filter]. unfold replayable_at at 2. rewrite Hd0.
  destruct (replayable w d0); reflexivity.
Qed.

Lemma reload_loop_stops (w : Extern) (ks1 ks2 : list Z) (k : Z) (d : JointData)
    (m : Memory) :
  NoDup (ks1 ++ k :: ks2) ->
  (forall k', In k' ks1 ->
     exists d', StdMap.find k' (simJointsReload m) = Some d' /\
                replay_returns w d' = true) ->
  StdMap.find k (simJointsReload m) = Some d ->
  axis_rejected w d = false ->
  anchor_nodes_found w d = false ->
  exists m' tr,
    reload_loop w (ks1 ++ k :: ks2) m = Halt AssertionFailed m' tr /\
    List.length (created tr)
      = List.length (List.filter (replayable_at w (simJointsReload m)) ks1) /\
    (forall k', ~ In k' ks1 ->
       StdMap.find k' (simJointsReload m') = StdMap.find k' (simJointsReload m)).
Proof.
  revert m. induction ks1 as [|k0 r IH]; intros m Hnd Hall Hd Ha Hn.
  { exists m, []. cbn [app reload_loop]. unfold bind.
    rewrite (replay_stops w k m d Hd Ha Hn). auto. }
  cbn [app] in Hnd. inversion Hnd as [|? ? Hnotin Hnd']; subst.
  destruct (Hall k0 (or_introl eq_refl)) as (d0 & Hd0 & Hr0).
  destruct (replay_step w k0 m d0 Hd0 Hr0) as (v & m1 & tr1 & d' & Hadd & Hm1 & Hlen).
  assert (Hk0 : k <> k0).
  { intros ->. apply Hnotin. apply in_or_app. right. now left. }
  assert (Hnot1 : ~ In k0 r).
  { intros Hin. apply Hnotin. apply in_or_app. now left. }
  destruct (IH m1 Hnd') as (m' & tr2 & Hrest & Hcount & Hframe); auto.
  { intros k' Hk'. destruct (Hall k' (or_intror Hk')) as (d1 & Hd1 & Hr1).
    exists d1. split; [|exact Hr1]. rewrite Hm1, find_write_other; [exact Hd1|].
    intros ->. contradiction. }
  { rewrite Hm1, find_write_other; assumption. }
  exists m', (tr1 ++ tr2). cbn [app reload_loop]. unfold bind. rewrite Hadd, Hrest.
  split; [reflexivity|]. split.
  - rewrite created_app, length_app, Hlen, Hcount, Hm1, replayable_at_write by exact Hnot1.
    cbn [List.filter]. unfold replayable_at at 2. rewrite Hd0.
    destruct (replayable w d0); reflexivity.
  - intros k' Hk'. rewrite Hframe by (intros Hc; apply Hk'; now right).
    rewrite Hm1. apply find_write_other. intros ->. apply Hk'. now left.
Qed.

Lemma NoDup_app_apart {A : Type} (l1 l2 : list A) (x : A) :
  NoDup (l1 ++ l2) -> In x l2 -> ~ In x l1.
Proof.
  induction l1 as [|a r IH]; cbn; intros Hnd H2 H1; [exact H1|].
  inversion Hnd as [|? ? Ha Hnd']; subst.
  destruct H1 as [->|H1]; [apply Ha, in_or_app; now right | now apply IH].
Qed.

Lemma in_keys_entry {V : Type} (k : Z) (l : StdMap.t V) :
  In k (StdMap.keys l) -> exists v, In (k, v) l.
Proof.
  unfold StdMap.keys. intros Hin. apply in_map_iff in Hin as ([k' v] & Hk & Hin).
  cbn in Hk. subst k'. eauto.
Qed.

(** X10: when no template would stop its replay on an assert (each has its
    axis rejected or its anchor nodes found), [reloadJoints] returns, and
    it has created exactly one joint for every template whose axis passes
    the test and that the backend accepts; the replays that fail and
    return 0 do not end the loop. *)
Theorem reloadJoints_creates_replayable (w : Extern) (m : Memory)
    (Hwf : StdMap.wf (simJointsReload m) = true)
    (Hret : forallb (fun kd => replay_returns w (snd kd)) (simJointsReload m) = true) :
  exists m' tr,
    reloadJoints w m = Ret tt m' tr /\
    List.length (created tr) = count_replayable w (simJointsReload m) /\
    StdMap.keys (simJointsReload m') = StdMap.keys (simJointsReload m).
Proof.
  unfold reloadJoints. rewrite bind_get.
  destruct (wf_exists_above _ Hwf) as [lo Hlo].
  destruct (reload_loop_returns w (StdMap.keys (simJointsReload m)) m
              (above_NoDup lo _ Hlo)) as (m' & tr & Hrun & Hcount).
  { intros k Hk. destruct (in_keys_entry k _ Hk) as (d & Hin).
    exists d. split; [now apply wf_find_in|].
    rewrite forallb_forall in Hret. exact (Hret (k, d) Hin). }
  exists m', tr. split; [exact Hrun|]. split.
  - rewrite Hcount. apply count_by_keys.
    intros [k d] Hin. now apply wf_find_in.
  - pose proof (reload_loop_keys w (StdMap.keys (simJointsReload m)) m) as Hk.
    now rewrite Hrun in Hk.
Qed.

Lemma reloadJoints_creates_replayable_witness :
  exists m' tr,
    reloadJoints (world true) two_templates = Ret tt m' tr /\
    List.length (created tr) = count_replayable (world true) (simJointsReload two_templates) /\
    StdMap.keys (simJointsReload m') = StdMap.keys (simJointsReload two_templates).
Proof.
  apply (reloadJoints_creates_replayable (world true) two_templates); reflexivity.
Defined.

(** X11: [reloadJoints] stops at the first template, in the order of the
    keys, whose axis passes the test and whose anchor node is missing: the
    assert fails there. The templates before it have been replayed, with
    one joint created for each that the backend accepts; that template and
    every later one are as they were, and no later one is replayed. *)
Theorem reloadJoints_stops_at_missing_node (w : Extern) (m : Memory)
    (l1 l2 : StdMap.t JointData) (k : Z) (d : JointData)
    (Hwf : StdMap.wf (simJointsReload m) = true)
    (Hsplit : simJointsReload m = l1 ++ (k, d) :: l2)
    (Hl1 : forallb (fun kd => replay_returns w (snd kd)) l1 = true)
    (Haxis : axis_rejected w d = false)
    (Hmiss : anchor_nodes_found w d = false) :
  exists m' tr,
    reloadJoints w m = Halt AssertionFailed m' tr /\
    List.length (created tr) = count_replayable w l1 /\
    StdMap.find k (simJointsReload m') = Some d /\
    (forall e, In e l2 -> StdMap.find (fst e) (simJointsReload m') = Some (snd e)).
Proof.
  unfold reloadJoints. rewrite bind_get.
  destruct (wf_exists_above _ Hwf) as [lo Hlo].
  pose proof (above_NoDup lo _ Hlo) as Hnd.
  assert (Hin : forall e, In e (simJointsReload m) ->
                          StdMap.find (fst e) (simJointsReload m) = Some (snd e)).
  { intros [k' d'] He. now apply wf_find_in. }
  assert (Hkeys : StdMap.keys (simJointsReload m)
                  = StdMap.keys l1 ++ k :: StdMap.keys l2).
  { rewrite Hsplit. unfold StdMap.keys. now rewrite map_app. }
  rewrite Hkeys in Hnd |- *.
  assert (Hkd : StdMap.find k (simJointsReload m) = Some d).
  { apply (Hin (k, d)). rewrite Hsplit. apply in_elt. }
  destruct (reload_loop_stops w (StdMap.keys l1) (StdMap.keys l2) k d m Hnd)
    as (m' & tr & Hrun & Hcount & Hframe); auto.
  { intros k' Hk'. destruct (in_keys_entry k' _ Hk') as (d' & He).
    exists d'. split.
    - apply (Hin (k', d')). rewrite Hsplit. apply in_or_app. now left.
    - rewrite forallb_forall in Hl1. exact (Hl1 (k', d') He). }
  assert (Hout : forall k', In k' (k :: StdMap.keys l2) -> ~ In k' (StdMap.keys l1)).
  { intros k' Hk'. exact (NoDup_app_apart _ _ k' Hnd Hk'). }
  exists m', tr. split; [exact Hrun|]. split.
  - rewrite Hcount. apply count_by_keys. intros e He. apply Hin.
    rewrite Hsplit. apply in_or_app. now left.
  - split.
    + rewrite Hframe; [exact Hkd | apply Hout; now left].
    + intros e He. rewrite Hframe.
      * apply Hin. rewrite Hsplit. apply in_or_app. right. now right.
      * apply Hout. right. now apply in_map.
Qed.

Lemma reloadJoints_stops_at_missing_node_witness :
  exists m' tr,
    reloadJoints (world true) stalled_templates = Halt AssertionFailed m' tr /\
    List.length (created tr) = count_replayable (world true) [(4, fixed_3_0)] /\
    StdMap.find 9 (simJointsReload m') = Some hinge_5_0 /\
    (forall e, In e [(12, hinge_3_0)] ->
               StdMap.find (fst e) (simJointsReload m') = Some (snd e)).
Proof.
  apply (reloadJoints_stops_at_missing_node (world true) stalled_templates
           [(4, fixed_3_0)] [(12, hinge_3_0)] 9 hinge_5_0); reflexivity.
Defined.

(** ** Emptying the registry *)

(** X9: [clearAllJoints] tells the motors once about every joint, in the
    order of the ids, and the simulator once; afterwards the registry is
    empty, the joint count is 0, every lookup throws, the counter is 1, and
    the templates are gone exactly when the flag is set. A second call
    tells no motor and leaves the memory as the first left it, and with
    the templates gone [reloadJoints] does nothing. *)
Theorem clearAllJoints_empties (clear_all : bool) (m : Memory) :
  exists m',
    clearAllJoints clear_all m
      = Ret tt m'
          (EvLock :: List.map EvRemoveJointFromMotors (StdMap.keys (simJoints m))
           ++ [EvSceneHasChanged false; EvUnlock]) /\
    (StdMap.wf (simJoints m) = true -> NoDup (StdMap.keys (simJoints m))) /\
    simJoints m' = [] /\
    value_of (getJointCount m') = Some 0 /\
    (forall id, value_of (getFullJoint id m')
                = Some (inl (runtime_error (msg_not_found id)))) /\
    next_joint_id m' = 1 /\
    simJointsReload m' = (if clear_all then [] else simJointsReload m) /\
    clearAllJoints clear_all m'
      = Ret tt m' [EvLock; EvSceneHasChanged false; EvUnlock] /\
    (clear_all = true -> forall w, reloadJoints w m' = Ret tt m' []).
Proof.
  rewrite clearAllJoints_result. eexists. split; [reflexivity|].
  split.
  { intros Hwf. destruct (wf_exists_above _ Hwf) as [lo Hlo].
    exact (above_NoDup lo _ Hlo). }
  split; [reflexivity|]. split; [reflexivity|]. split; [reflexivity|].
  split; [reflexivity|]. split; [reflexivity|].
  split.
  { rewrite clearAllJoints_result. destruct clear_all; reflexivity. }
  intros -> w. reflexivity.
Qed.

(** ** Calls on an id that is not there *)

(** X12: a setter called with an id that is not in the map it looks in
    leaves the memory as it is: [editJoint], [setJointTorque],
    [setVelocity] and their like and [setOfflineValue] for the registry,
    [setReloadJointOffset], [setReloadJointAxis] and [setReloadAnchor] for
    the templates. With an id that is there, such a call writes to the
    entry under that id and to no other, and the keys of the map stay. *)
Theorem setters_spare_other_entries (id : Z) (m : Memory) :
  (StdMap.find id (simJoints m) = None ->
   (forall d, index d = id -> memory_of (editJoint d m) = m) /\
   (forall method,
      memory_of (call_on_joint id method m) = m /\
      memory_of (setOfflineValue id method m) = m)) /\
  (StdMap.find id (simJointsReload m) = None ->
   forall offset axis a,
     memory_of (setReloadJointOffset id offset m) = m /\
     memory_of (setReloadJointAxis id axis m) = m /\
     memory_of (setReloadAnchor id a m) = m) /\
  (forall d method m',
     (index d = id /\ m' = memory_of (editJoint d m)) \/
     m' = memory_of (call_on_joint id method m) \/
     m' = memory_of (setOfflineValue id method m) ->
     StdMap.keys (simJoints m') = StdMap.keys (simJoints m) /\
     (forall k, k <> id -> StdMap.find k (simJoints m') = StdMap.find k (simJoints m)) /\
     simJointsReload m' = simJointsReload m /\
     next_joint_id m' = next_joint_id m) /\
  (forall offset axis a m',
     m' = memory_of (setReloadJointOffset id offset m) \/
     m' = memory_of (setReloadJointAxis id axis m) \/
     m' = memory_of (setReloadAnchor id a m) ->
     StdMap.keys (simJointsReload m') = StdMap.keys (simJointsReload m) /\
     (forall k, k <> id ->
        StdMap.find k (simJointsReload m') = StdMap.find k (simJointsReload m)) /\
     simJoints m' = simJoints m /\
     next_joint_id m' = next_joint_id m).
Proof.
  assert (Hj : forall f, StdMap.find id (simJoints m) = None ->
                         with_simJoints (StdMap.write id f) m = m).
  { intros f H. unfold with_simJoints. rewrite (write_absent _ _ _ H).
    destruct m; reflexivity. }
  assert (Hr : forall f, StdMap.find id (simJointsReload m) = None ->
                         with_simJointsReload (StdMap.write id f) m = m).
  { intros f H. unfold with_simJointsReload. rewrite (write_absent _ _ _ H).
    destruct m; reflexivity. }
  split.
  { intros H. split.
    - intros d <-. rewrite editJoint_result. cbn. now apply Hj.
    - intros f. rewrite call_on_joint_result, setOfflineValue_result. cbn.
      split; now apply Hj. }
  split.
  { intros H offset axis a.
    unfold setReloadJointOffset, setReloadJointAxis, setReloadAnchor.
    rewrite !on_reload_entry_result. cbn. repeat split; now apply Hr. }
  split.
  { intros d f m' [(<- & ->)|[->| ->]];
      rewrite ?editJoint_result, ?call_on_joint_result, ?setOfflineValue_result;
      cbn [memory_of simJoints simJointsReload next_joint_id with_simJoints];
      (split; [apply keys_write|]);
      (split; [intros k Hk; now apply find_write_other|]); auto. }
  intros offset axis a m' [->|[->| ->]];
    unfold setReloadJointOffset, setReloadJointAxis, setReloadAnchor;
    rewrite on_reload_entry_result;
    cbn [memory_of simJoints simJointsReload next_joint_id with_simJointsReload];
    (split; [apply keys_write|]);
    (split; [intros k Hk; now apply find_write_other|]); auto.
Qed.

(** ** The anchor of a template at its replay *)

Lemma resolve_set_anchor (w : Extern) (d : JointData) (a : Vector) :
  anchorPos d <> ANCHOR_CUSTOM ->
  anchor_nodes_found w d = true ->
  resolve w (set_anchor d a) = resolve w d.
Proof.
  unfold resolve, resolved_anchor, anchor_nodes_found. cbn.
  destruct (anchorPos d); try contradiction;
    destruct (getSimNode w (nodeIndex1 d));
    destruct (getSimNode w (nodeIndex2 d)); cbn; intros _ H;
    try discriminate; reflexivity.
Qed.

Lemma setReloadAnchor_replay (w : Extern) (id : Z) (a : Vector)
    (m : Memory) (d : JointData)
    (Hd : StdMap.find id (simJointsReload m) = Some d)
    (Haxis : axis_rejected w d = false)
    (Hnodes : anchor_nodes_found w d = true) :
  (anchorPos d <> ANCHOR_CUSTOM ->
   addJoint w (PReload id) true (memory_of (setReloadAnchor id a m))
     = addJoint w (PReload id) true m) /\
  (anchorPos d = ANCHOR_CUSTOM ->
   backend_accepts w (set_anchor d a) = true ->
   exists m2 tr,
     addJoint w (PReload id) true (memory_of (setReloadAnchor id a m))
       = Ret (next_joint_id m) m2 tr /\
     StdMap.find (next_joint_id m) (simJoints m2)
       = Some (mkSimJoint (set_index (set_anchor d a) (next_joint_id m))
                 (getSimNode w (nodeIndex1 d)) (getSimNode w (nodeIndex2 d)))).
Proof.
  unfold setReloadAnchor. rewrite on_reload_entry_result. cbn [memory_of].
  assert (Hd1 : pointee (PReload id)
                  (with_simJointsReload
                     (StdMap.write id (fun d0 => set_anchor d0 a)) m)
                = Some (set_anchor d a)).
  { cbn. now rewrite find_write_eq, Hd. }
  rewrite (addJoint_cases w (PReload id) true _ (set_anchor d a) (or_intror eq_refl) Hd1).
  cbn zeta.
  change (axis_rejected w (set_anchor d a)) with (axis_rejected w d).
  change (anchor_nodes_found w (set_anchor d a)) with (anchor_nodes_found w d).
  rewrite Haxis, Hnodes. split.
  - intros Hpos.
    rewrite (addJoint_cases w (PReload id) true m d (or_intror eq_refl) Hd). cbn zeta.
    rewrite Haxis, Hnodes.
    assert (Hacc : backend_accepts w (set_anchor d a) = backend_accepts w d).
    { unfold backend_accepts. now rewrite resolve_set_anchor. }
    rewrite Hacc. unfold created_memory, refused_memory, new_joint.
    rewrite (resolve_set_anchor w d a Hpos Hnodes).
    destruct (backend_accepts w d); cbn;
      unfold with_simJoints, with_next_joint_id, with_simJointsReload; cbn;
      rewrite write_write; reflexivity.
  - intros Hpos ->. eexists; eexists. split; [reflexivity|].
    unfold created_memory. cbn. rewrite find_assign_same.
    unfold new_joint, resolve, resolved_anchor. cbn. rewrite Hpos. reflexivity.
Qed.

(** X13: [setReloadAnchor] leaves the template with the anchor given and
    every other field as it was. At the replay that anchor counts only
    under ANCHOR_CUSTOM, where the joint created, and the template itself,
    have it as their anchor. Under the other policies the replay puts the
    position of the nodes in its place: the replay after [setReloadAnchor]
    is the replay without it, in what it returns, in its trace and in the
    memory it leaves, and the joint created is anchored where the policy
    says. *)
Theorem setReloadAnchor_before_replay (w : Extern) (id : Z) (a : Vector)
    (m : Memory) (d : JointData)
    (Hd : StdMap.find id (simJointsReload m) = Some d)
    (Haxis : axis_rejected w d = false)
    (Hnodes : anchor_nodes_found w d = true) :
  (exists d1,
     StdMap.find id (simJointsReload (memory_of (setReloadAnchor id a m))) = Some d1 /\
     anchor d1 = a /\ index d1 = index d /\ same_other_fields d d1) /\
  (anchorPos d <> ANCHOR_CUSTOM ->
   addJoint w (PReload id) true (memory_of (setReloadAnchor id a m))
     = addJoint w (PReload id) true m /\
   (backend_accepts w d = true ->
    exists m2 tr j,
      addJoint w (PReload id) true (memory_of (setReloadAnchor id a m))
        = Ret (next_joint_id m) m2 tr /\
      StdMap.find (next_joint_id m) (simJoints m2) = Some j /\
      StdMap.find id (simJointsReload m2) = Some (getSJoint j) /\
      match anchorPos d with
      | ANCHOR_NODE1 =>
          exists n1, getSimNode w (nodeIndex1 d) = Some n1 /\ anchor (getSJoint j) = getPosition n1
      | ANCHOR_NODE2 =>
          exists n2, getSimNode w (nodeIndex2 d) = Some n2 /\ anchor (getSJoint j) = getPosition n2
      | ANCHOR_CENTER =>
          exists n1 n2,
            getSimNode w (nodeIndex1 d) = Some n1 /\
            getSimNode w (nodeIndex2 d) = Some n2 /\
            anchor (getSJoint j) = vdiv (vadd (getPosition n1) (getPosition n2)) 2%float
      | ANCHOR_CUSTOM => anchor (getSJoint j) = anchor d
      end /\
      index (getSJoint j) = next_joint_id m /\
      same_other_fields d (getSJoint j))) /\
  (anchorPos d = ANCHOR_CUSTOM ->
   backend_accepts w (set_anchor d a) = true ->
   exists m2 tr j,
     addJoint w (PReload id) true (memory_of (setReloadAnchor id a m))
       = Ret (next_joint_id m) m2 tr /\
     StdMap.find (next_joint_id m) (simJoints m2) = Some j /\
     StdMap.find id (simJointsReload m2) = Some (getSJoint j) /\
     anchor (getSJoint j) = a /\
     index (getSJoint j) = next_joint_id m /\
     same_other_fields d (getSJoint j)).
Proof.
  destruct (setReloadAnchor_replay w id a m d Hd Haxis Hnodes) as (Hother & Hcustom).
  split; [|split].
  - unfold setReloadAnchor. rewrite on_reload_entry_result. cbn [memory_of].
    exists (set_anchor d a). cbn. rewrite find_write_eq, Hd. cbn.
    unfold same_other_fields. repeat split; reflexivity.
  - intros Hpos. split; [exact (Hother Hpos)|].
    intros Hacc. rewrite (Hother Hpos).
    rewrite (addJoint_cases w (PReload id) true m d (or_intror eq_refl) Hd). cbn zeta.
    rewrite Haxis, Hnodes, Hacc.
    eexists; eexists. exists (new_joint w d (next_joint_id m)).
    split; [reflexivity|].
    unfold created_memory, new_joint. cbn.
    split; [apply find_assign_same|].
    split; [now rewrite find_write_eq, Hd|].
    split; [exact (set_index_anchored w d (resolve w d) (next_joint_id m)
                     (resolve_anchored w d Hnodes))|].
    split; [reflexivity|].
    apply set_index_same_fields, resolve_same_fields.
  - intros Hpos Hacc.
    destruct (Hcustom Hpos Hacc) as (m2 & tr & Hrun & Hj).
    exists m2, tr.
    exists (mkSimJoint (set_index (set_anchor d a) (next_joint_id m))
              (getSimNode w (nodeIndex1 d)) (getSimNode w (nodeIndex2 d))).
    split; [exact Hrun|]. split; [exact Hj|].
    split.
    { revert Hrun. unfold setReloadAnchor. rewrite on_reload_entry_result.
      cbn [memory_of].
      assert (Hd1 : pointee (PReload id)
                      (with_simJointsReload
                         (StdMap.write id (fun d0 => set_anchor d0 a)) m)
                    = Some (set_anchor d a)).
      { cbn. now rewrite find_write_eq, Hd. }
      rewrite (addJoint_cases w (PReload id) true _ (set_anchor d a)
                 (or_intror eq_refl) Hd1).
      cbn zeta.
      change (axis_rejected w (set_anchor d a)) with (axis_rejected w d).
      change (anchor_nodes_found w (set_anchor d a)) with (anchor_nodes_found w d).
      rewrite Haxis, Hnodes, Hacc. intros [= <- _].
      unfold created_memory. cbn. rewrite find_write_eq, find_write_eq, Hd. cbn.
      unfold resolve, resolved_anchor. cbn. rewrite Hpos. reflexivity. }
    cbn. unfold same_other_fields. repeat split; reflexivity.
Qed.

(** The template under the key 5 has its anchor at the origin and the
    policy ANCHOR_CUSTOM; with its anchor set to (0,0,1), the joint
    replayed from it is anchored at (0,0,1), not at node 3. *)
Lemma setReloadAnchor_before_replay_witness :
  exists m2 tr j,
    addJoint (world true) (PReload 5) true
      (memory_of (setReloadAnchor 5 v001 custom_template))
      = Ret 1 m2 tr /\
    StdMap.find 1 (simJoints m2) = Some j /\
    anchor (getSJoint j) = v001 /\
    index (getSJoint j) = 1.
Proof.
  destruct (proj2 (proj2 (setReloadAnchor_before_replay (world true) 5 v001
                            custom_template hinge_custom eq_refl eq_refl eq_refl))
              eq_refl eq_refl)
    as (m2 & tr & j & Hrun & Hj & _ & Ha & Hi & _).
  exists m2, tr, j. auto.
Defined.

(** ** The pair of nodes of [removeJointByIDs] *)

Lemma connects_sym (id1 id2 : Z) (j : SimJoint) :
  connects id1 id2 j = connects id2 id1 j.
Proof. unfold connects. apply orb_comm. Qed.

Lemma first_connecting_sym (id1 id2 : Z) (js : StdMap.t SimJoint) :
  first_connecting id1 id2 js = first_connecting id2 id1 js.
Proof.
  induction js as [|[k j] r IH]; cbn; [reflexivity|].
  now rewrite connects_sym, IH.
Qed.

(** X14: [removeJointByIDs] does not care for the order of its two
    arguments: with the two node ids swapped it returns the same memory
    after the same trace. A call with a pair that connects no joint, in
    either order, only takes and releases the lock. *)
Theorem removeJointByIDs_unordered (id1 id2 : Z) (m : Memory) :
  removeJointByIDs id1 id2 m = removeJointByIDs id2 id1 m /\
  (first_connecting id1 id2 (simJoints m) = None ->
   removeJointByIDs id2 id1 m = Ret tt m [EvLock; EvUnlock]).
Proof.
  rewrite !removeJointByIDs_result, (first_connecting_sym id1 id2).
  split; [reflexivity|]. now intros ->.
Qed.

(** ** A removed joint and its template *)

Lemma size_erase_present {V : Type} (k : Z) (v : V) (m : StdMap.t V) :
  StdMap.find k m = Some v -> S (StdMap.size (StdMap.erase k m)) = StdMap.size m.
Proof.
  unfold StdMap.size. induction m as [|[k' v'] r IH]; cbn; [discriminate|].
  destruct (k =? k'); cbn; [reflexivity|]. intros H. now rewrite IH.
Qed.

(** What a replay does to the templates, to the counter and to the trace
    does not depend on the registry. *)
Lemma replay_ignores_registry (w : Extern) (k : Z) (m1 m2 : Memory) :
  simJointsReload m1 = simJointsReload m2 ->
  next_joint_id m1 = next_joint_id m2 ->
  match addJoint w (PReload k) true m1, addJoint w (PReload k) true m2 with
  | Ret v1 n1 t1, Ret v2 n2 t2 =>
      v1 = v2 /\ t1 = t2 /\ simJointsReload n1 = simJointsReload n2 /\
      next_joint_id n1 = next_joint_id n2
  | Halt c1 n1 t1, Halt c2 n2 t2 =>
      c1 = c2 /\ t1 = t2 /\ simJointsReload n1 = simJointsReload n2 /\
      next_joint_id n1 = next_joint_id n2
  | _, _ => False
  end.
Proof.
  intros Hr Hn.
  destruct (pointee (PReload k) m1) as [d|] eqn:Hd.
  - assert (Hd2 : pointee (PReload k) m2 = Some d) by (cbn in *; now rewrite <- Hr).
    rewrite (addJoint_cases w (PReload k) true m1 d (or_intror eq_refl) Hd).
    rewrite (addJoint_cases w (PReload k) true m2 d (or_intror eq_refl) Hd2).
    cbn zeta.
    destruct (axis_rejected w d); [cbn; auto|].
    destruct (anchor_nodes_found w d); [|cbn; auto].
    destruct (backend_accepts w d); cbn; rewrite Hr, Hn; auto.
  - assert (Hd2 : pointee (PReload k) m2 = None) by (cbn in *; now rewrite <- Hr).
    rewrite !addJoint_dangling by assumption. auto.
Qed.

Lemma reload_loop_ignores_registry (w : Extern) (ks : list Z) (m1 m2 : Memory) :
  simJointsReload m1 = simJointsReload m2 ->
  next_joint_id m1 = next_joint_id m2 ->
  trace_of (reload_loop w ks m1) = trace_of (reload_loop w ks m2) /\
  simJointsReload (memory_of (reload_loop w ks m1))
    = simJointsReload (memory_of (reload_loop w ks m2)) /\
  next_joint_id (memory_of (reload_loop w ks m1))
    = next_joint_id (memory_of (reload_loop w ks m2)).
Proof.
  revert m1 m2. induction ks as [|k r IH]; intros m1 m2 Hr Hn; [cbn; auto|].
  cbn [reload_loop]. rewrite !trace_of_bind, !memory_of_bind.
  pose proof (replay_ignores_registry w k m1 m2 Hr Hn) as Hs.
  destruct (addJoint w (PReload k) true m1) as [v1 n1 t1|c1 n1 t1];
    destruct (addJoint w (PReload k) true m2) as [v2 n2 t2|c2 n2 t2];
    try contradiction.
  - destruct Hs as (_ & -> & Hr' & Hn').
    destruct (IH n1 n2 Hr' Hn') as (Ha & Hb & Hc). rewrite Ha. auto.
  - destruct Hs as (_ & -> & Hr' & Hn'). auto.
Qed.

(** X15: [removeJoint] takes the joint out of the registry, which gets one
    smaller when the id was there, and touches neither the templates nor
    the counter. The template of a removed joint is therefore replayed by
    the next [reloadJoints] like every other: after [removeJoint] a
    [reloadJoints] has the trace, creates the ids and leaves the templates
    that it would without the removal. *)
Theorem removeJoint_keeps_template (w : Extern) (id : Z) (m : Memory) :
  simJointsReload (memory_of (removeJoint id m)) = simJointsReload m /\
  next_joint_id (memory_of (removeJoint id m)) = next_joint_id m /\
  (forall j, StdMap.find id (simJoints m) = Some j ->
     S (StdMap.size (simJoints (memory_of (removeJoint id m))))
       = StdMap.size (simJoints m)) /\
  trace_of (reloadJoints w (memory_of (removeJoint id m)))
    = trace_of (reloadJoints w m) /\
  simJointsReload (memory_of (reloadJoints w (memory_of (removeJoint id m))))
    = simJointsReload (memory_of (reloadJoints w m)).
Proof.
  rewrite removeJoint_result. cbn [memory_of].
  split; [reflexivity|]. split; [reflexivity|].
  split; [intros j Hj; now apply (size_erase_present id j)|].
  unfold reloadJoints. rewrite !bind_get.
  cbn [simJointsReload with_simJoints].
  destruct (reload_loop_ignores_registry w (StdMap.keys (simJointsReload m))
              (with_simJoints (StdMap.erase id) m) m eq_refl eq_refl)
    as (Ha & Hb & _).
  auto.
Qed.

(** ** Listing the joints *)

Lemma push_joints_app (js : StdMap.t SimJoint) (v : list SimJoint) :
  push_joints js v = v ++ List.map snd js.
Proof.
  revert v. induction js as [|[k j] r IH]; intros v; cbn.
  - now rewrite app_nil_r.
  - rewrite IH, <- app_assoc. reflexivity.
Qed.

Lemma push_exchanges_length {X : Type} (g : SimJoint -> X -> X)
    (js : StdMap.t SimJoint) (obj : X) (l : list X) :
  List.length (push_exchanges g js obj l) = (List.length l + StdMap.size js)%nat.
Proof.
  unfold StdMap.size. revert obj l.
  induction js as [|[k j] r IH]; intros obj l; cbn; [lia|].
  rewrite IH, length_app. cbn. lia.
Qed.

Lemma find_in_values {V : Type} (k : Z) (m : StdMap.t V) (v : V) :
  StdMap.find k m = Some v -> In v (List.map snd m).
Proof.
  induction m as [|[k' v'] r IH]; cbn; [discriminate|].
  destruct (k =? k'); [intros [= ->]; now left | auto].
Qed.

Lemma push_exchanges_map {X : Type} (g : SimJoint -> X -> X) (h : SimJoint -> X)
    (js : StdMap.t SimJoint) (obj : X) (l : list X) :
  (forall j o, g j o = h j) ->
  push_exchanges g js obj l = l ++ List.map h (List.map snd js).
Proof.
  intros Hg. revert obj l. induction js as [|[k j] r IH]; intros obj l; cbn.
  - now rewrite app_nil_r.
  - rewrite IH, <- app_assoc, Hg. reflexivity.
Qed.

Lemma int_of_size_t_range (n : Z) :
  -2147483648 <= int_of_size_t n <= 2147483647.
Proof.
  unfold int_of_size_t.
  change (2 ^ 31) with 2147483648. change (2 ^ 32) with 4294967296.
  pose proof (Z.mod_pos_bound (n + 2147483648) 4294967296 eq_refl). lia.
Qed.

Lemma int_of_size_t_congruent (n : Z) :
  exists q, n = int_of_size_t n + q * 4294967296.
Proof.
  unfold int_of_size_t.
  change (2 ^ 31) with 2147483648. change (2 ^ 32) with 4294967296.
  exists ((n + 2147483648) / 4294967296).
  pose proof (Z.div_mod (n + 2147483648) 4294967296). lia.
Qed.

Lemma int_of_size_t_small (n : Z) :
  0 <= n <= 2147483647 -> int_of_size_t n = n.
Proof.
  intros Hn. unfold int_of_size_t.
  change (2 ^ 31) with 2147483648. change (2 ^ 32) with 4294967296.
  rewrite Z.mod_small; lia.
Qed.

(** X16: [getSimJoints] answers with the joints of the registry in the
    order of their ids, and every joint that [getSimJoint] finds is among
    them. [getJointCount] reports their number as an [int]: a value
    between -2147483648 and 2147483647 that differs from the number by a
    multiple of 4294967296, and so the number itself as long as there are
    no more than 2147483647 joints. [getListJoints] answers with one entry
    per joint, in the same order; when [getCoreExchange] writes the whole
    record it is given, the entries are the records of the joints. None of
    the four changes the memory. *)
Theorem listings_match_registry (m : Memory) :
  getSimJoints m = Ret (List.map snd (simJoints m)) m [EvLock; EvUnlock] /\
  (exists c,
     getJointCount m = Ret c m [EvLock; EvUnlock] /\
     -2147483648 <= c <= 2147483647 /\
     (exists q,
        Z.of_nat (List.length (List.map snd (simJoints m))) = c + q * 4294967296) /\
     (Z.of_nat (List.length (List.map snd (simJoints m))) <= 2147483647 ->
      c = Z.of_nat (List.length (List.map snd (simJoints m))))) /\
  (forall id,
     getSimJoint id m = Ret (StdMap.find id (simJoints m)) m [EvLock; EvUnlock] /\
     (forall j, StdMap.find id (simJoints m) = Some j ->
                In j (List.map snd (simJoints m)))) /\
  (forall (X : Type) (g : SimJoint -> X -> X) (obj : X) (l : list X),
     exists r,
       getListJoints g obj l m = Ret r m [EvLock; EvUnlock] /\
       List.length r = List.length (List.map snd (simJoints m)) /\
       (forall h : SimJoint -> X,
          (forall j o, g j o = h j) ->
          r = List.map h (List.map snd (simJoints m)))).
Proof.
  split.
  { unfold getSimJoints. unfold_monad. cbn. now rewrite push_joints_app. }
  split.
  { exists (int_of_size_t (Z.of_nat (StdMap.size (simJoints m)))).
    split; [reflexivity|].
    rewrite length_map. fold (StdMap.size (simJoints m)).
    split; [apply int_of_size_t_range|].
    split; [apply int_of_size_t_congruent|].
    intros Hn. apply int_of_size_t_small. lia. }
  split.
  { intros id. split; [reflexivity|]. intros j. apply find_in_values. }
  intros X g obj l. eexists. split; [reflexivity|].
  split.
  - rewrite push_exchanges_length, length_map. reflexivity.
  - intros h Hg. now rewrite (push_exchanges_map g h).
Qed.
